(** * DocEmbed: chunking, dispatch, embedding worker and query service

    A shallow embedding of the dispatcher (publisher/celery_app.py), the
    worker (consumer/embed_app.py) and the query service
    (query-engine/query_service.py) of the repository, and the properties
    their specification states about them, together with the start-up block
    that ensures the collection and the upload script
    (pdf_ingestion/s3_ingestor.py) that fills the bucket.

    Python values are modelled as follows.
    - [str] is a sequence of Unicode code points: [list N].
    - [bytes] is [list byte].
    - JSON-shaped dynamic values (task arguments, request bodies, payloads)
      are the inductive [PyVal]; a dict keeps its items in insertion order.
    - a raised exception is the [Err] branch of [result]; code that both
      raises and has effects runs in a small state-and-error monad.
    - the collaborators the programs only call (S3, the embedding model,
      Qdrant's nearest-neighbour search, uuid4, the interpreter's Unicode
      digit table) are interfaces: type classes whose methods are taken as
      given. The Qdrant collection itself is a finite map from point id to
      point.
    Logging has no effect on any result and is left out, except where
    evaluating the logged expression can itself raise. *)

From Stdlib Require Import ZArith NArith Strings.String Strings.Ascii Strings.Byte.
From Stdlib Require Import Floats.SpecFloat.
From stdpp Require Import base option list gmap pretty.

#[local] Set Warnings "-register-all".
Local Open Scope N_scope.

(* ===================================================================== *)
(** ** Strings and bytes *)
(* ===================================================================== *)

(** A Python [str]: its code points. *)
Abbreviation pystr := (list N).

(** The code points of an ASCII literal of the source. *)
Definition py (s : string) : pystr :=
  List.map N_of_ascii (list_ascii_of_string s).

(** The UTF-8 encoding of an ASCII literal (one byte per character). *)
Definition bytes_of (s : string) : list byte := list_byte_of_string s.

Definition LF : N := 10.
Definition DOT : N := 46.
Definition SLASH : N := 47.

(** [str.strip()] and [str.isspace()] test [Py_UNICODE_ISSPACE]. *)
Definition Py_UNICODE_ISSPACE (c : N) : bool :=
  ((9 <=? c) && (c <=? 13)) || ((28 <=? c) && (c <=? 32))
  || (c =? 133) || (c =? 160) || (c =? 5760)
  || ((8192 <=? c) && (c <=? 8202))
  || (c =? 8232) || (c =? 8233) || (c =? 8239) || (c =? 8287) || (c =? 12288).

Fixpoint lstrip (s : pystr) : pystr :=
  match s with
  | [] => []
  | c :: s' => if Py_UNICODE_ISSPACE c then lstrip s' else s
  end.

Definition rstrip (s : pystr) : pystr := rev (lstrip (rev s)).

(** [s.strip()] *)
Definition strip (s : pystr) : pystr := rstrip (lstrip s).

(** Truth value of a [str]: non-empty. *)
Definition str_truthy (s : pystr) : bool :=
  match s with [] => false | _ => true end.

(** [s.startswith(pre)] *)
Fixpoint startswith (pre s : pystr) : bool :=
  match pre, s with
  | [], _ => true
  | _ :: _, [] => false
  | a :: pre', b :: s' => (a =? b) && startswith pre' s'
  end.

(** [s.endswith(suf)] *)
Definition endswith (suf s : pystr) : bool := startswith (rev suf) (rev s).

(** [sub in s] for two strings. *)
Fixpoint occurs (sub s : pystr) : bool :=
  startswith sub s ||
  match s with
  | [] => false
  | _ :: s' => occurs sub s'
  end.

(** [s.split(sep)] for a non-empty [sep]: scan left to right, cut at every
    occurrence of [sep], occurrences do not overlap. [cur] is the piece
    being read (reversed), [skip] the number of characters of a separator
    just matched that are still to be passed over. *)
Fixpoint split_go (sep s cur : pystr) (skip : nat) : list pystr :=
  match s with
  | [] => [rev cur]
  | c :: s' =>
      match skip with
      | S k => split_go sep s' cur k
      | O =>
          if startswith sep s
          then rev cur :: split_go sep s' [] (length sep - 1)
          else split_go sep s' (c :: cur) 0
      end
  end.

Definition split (sep s : pystr) : list pystr := split_go sep s [] 0.

(** [s.rfind(c)] for a one-character [c]: the last index, or -1. *)
Fixpoint rfind_go (c : N) (s : pystr) (i : Z) (found : Z) : Z :=
  match s with
  | [] => found
  | d :: s' => rfind_go c s' (i + 1)%Z (if d =? c then i else found)
  end.

Definition rfind (c : N) (s : pystr) : Z := rfind_go c s 0%Z (-1)%Z.

(** [s[i:j]] for [0 <= i] *)
Definition slice_from (s : pystr) (i : Z) : pystr := drop (Z.to_nat i) s.
Definition slice_to (s : pystr) (j : Z) : pystr := take (Z.to_nat j) s.

(* ===================================================================== *)
(** ** Exceptions and results *)
(* ===================================================================== *)

(** The text of an exception: written by the programs themselves, or the
    interpreter's or a library's own wording, which is not modelled. *)
Inductive ExcMsg : Type :=
  | Msg (s : string)
  | LibraryMsg.

Inductive PyExc : Type :=
  | ValueError (m : ExcMsg)
  | TypeError (m : ExcMsg)
  | OverflowError (m : ExcMsg)
  | KeyError (m : ExcMsg)
  | AttributeError (m : ExcMsg)
  | UnicodeDecodeError (m : ExcMsg)
  | HTTPException (code : Z) (m : ExcMsg)
  | ClientError (m : ExcMsg)
  | OtherError (m : ExcMsg).

(** [str(e)] *)
Definition exc_str (e : PyExc) : ExcMsg :=
  match e with
  | ValueError m | TypeError m | OverflowError m | KeyError m
  | AttributeError m | UnicodeDecodeError m | HTTPException _ m
  | ClientError m | OtherError m => m
  end.

Inductive result (A : Type) : Type :=
  | Ok (a : A)
  | Err (e : PyExc).
Arguments Ok {A} a.
Arguments Err {A} e.

Definition is_err {A} (r : result A) : bool :=
  match r with Ok _ => false | Err _ => true end.

Definition rbind {A B} (r : result A) (k : A -> result B) : result B :=
  match r with
  | Ok a => k a
  | Err e => Err e
  end.

(* ===================================================================== *)
(** ** bytes.decode('utf-8') *)
(* ===================================================================== *)

(** Strict UTF-8 decoding as a state machine over the bytes: [need] is the
    number of continuation bytes still expected, [acc] the bits read so far,
    and [lo..hi] the range the next continuation byte must lie in (this is
    what rules out overlong forms, surrogates and code points above
    U+10FFFF). *)
Fixpoint utf8_go (bs : list byte) (need : nat) (acc lo hi : N) (out : pystr)
  : option pystr :=
  match bs with
  | [] => match need with O => Some (rev out) | S _ => None end
  | b :: bs' =>
      let n := Byte.to_N b in
      match need with
      | O =>
          if n <=? 127 then utf8_go bs' 0 0 0 0 (n :: out)
          else if (194 <=? n) && (n <=? 223)
            then utf8_go bs' 1 (N.land n 31) 128 191 out
          else if n =? 224 then utf8_go bs' 2 (N.land n 15) 160 191 out
          else if n =? 237 then utf8_go bs' 2 (N.land n 15) 128 159 out
          else if (225 <=? n) && (n <=? 239)
            then utf8_go bs' 2 (N.land n 15) 128 191 out
          else if n =? 240 then utf8_go bs' 3 (N.land n 7) 144 191 out
          else if n =? 244 then utf8_go bs' 3 (N.land n 7) 128 143 out
          else if (241 <=? n) && (n <=? 243)
            then utf8_go bs' 3 (N.land n 7) 128 191 out
          else None
      | S k =>
          if (lo <=? n) && (n <=? hi) then
            let acc' := acc * 64 + N.land n 63 in
            match k with
            | O => utf8_go bs' 0 0 0 0 (acc' :: out)
            | S _ => utf8_go bs' k acc' 128 191 out
            end
          else None
      end
  end.

(** [file_content.decode('utf-8')] *)
Definition decode_utf8 (bs : list byte) : result pystr :=
  match utf8_go bs 0 0 0 0 [] with
  | Some s => Ok s
  | None => Err (UnicodeDecodeError LibraryMsg)
  end.

(* ===================================================================== *)
(** ** publisher/celery_app.py: parse_text *)
(* ===================================================================== *)

(** ['\n\n'] *)
Definition blank_line : pystr := [LF; LF].

(** [[p.strip() for p in text.split('\n\n') if p.strip()]] *)
Definition paragraphs_of (text : pystr) : list pystr :=
  List.map strip (List.filter (fun p => str_truthy (strip p)) (split blank_line text)).

(** [parse_text(file_content)]: the [except] clause logs and re-raises. *)
Definition parse_text (file_content : list byte) : result (list pystr) :=
  rbind (decode_utf8 file_content) (fun text => Ok (paragraphs_of text)).

(* ===================================================================== *)
(** ** Dynamic values *)
(* ===================================================================== *)

Abbreviation pyfloat := spec_float.

(** What JSON deserialisation produces: task arguments (Celery's json
    serializer), request bodies ([request.get_json()]) and Qdrant payloads. *)
Inductive PyVal : Type :=
  | PyNone
  | PyBool (b : bool)
  | PyInt (z : Z)
  | PyFloat (f : pyfloat)
  | PyStr (s : pystr)
  | PyList (l : list PyVal)
  | PyDict (d : list (pystr * PyVal)).

(** A dict with [str] keys, items in insertion order, keys distinct. *)
Abbreviation pydict := (list (pystr * PyVal)).

Fixpoint str_eqb (a b : pystr) : bool :=
  match a, b with
  | [], [] => true
  | x :: a', y :: b' => (x =? y) && str_eqb a' b'
  | _, _ => false
  end.

(** [d.get(k)], as an option. *)
Fixpoint dict_get (d : pydict) (k : pystr) : option PyVal :=
  match d with
  | [] => None
  | (k', v) :: d' => if str_eqb k' k then Some v else dict_get d' k
  end.

(** [d[k] = v] *)
Fixpoint dict_set (d : pydict) (k : pystr) (v : PyVal) : pydict :=
  match d with
  | [] => [(k, v)]
  | (k', v') :: d' =>
      if str_eqb k' k then (k', v) :: d' else (k', v') :: dict_set d' k v
  end.

(** [isinstance(v, str)] *)
Definition is_str (v : PyVal) : bool :=
  match v with PyStr _ => true | _ => false end.

(** [bool(v)] *)
Definition truthy (v : PyVal) : bool :=
  match v with
  | PyNone => false
  | PyBool b => b
  | PyInt z => negb (z =? 0)%Z
  | PyFloat f => match f with S754_zero _ => false | _ => true end
  | PyStr s => str_truthy s
  | PyList l => match l with [] => false | _ => true end
  | PyDict d => match d with [] => false | _ => true end
  end.

(** [f"{type(v)}"] *)
Definition type_repr (v : PyVal) : string :=
  match v with
  | PyNone => "<class 'NoneType'>"
  | PyBool _ => "<class 'bool'>"
  | PyInt _ => "<class 'int'>"
  | PyFloat _ => "<class 'float'>"
  | PyStr _ => "<class 'str'>"
  | PyList _ => "<class 'list'>"
  | PyDict _ => "<class 'dict'>"
  end.

(** [len(v)] *)
Definition py_len (v : PyVal) : result nat :=
  match v with
  | PyStr s => Ok (length s)
  | PyList l => Ok (length l)
  | PyDict d => Ok (length d)
  | _ => Err (TypeError LibraryMsg)
  end.

(** [k in v] for a [str] [k]: key of a dict, element of a list (only a
    [str] equals a [str]), substring of a [str]; other values are not
    iterable. *)
Definition py_contains (k : pystr) (v : PyVal) : result bool :=
  match v with
  | PyDict d => Ok (match dict_get d k with Some _ => true | None => false end)
  | PyList l =>
      Ok (existsb (fun x => match x with PyStr s => str_eqb s k | _ => false end) l)
  | PyStr s => Ok (occurs k s)
  | _ => Err (TypeError LibraryMsg)
  end.

(** [v[k]] for a [str] [k] *)
Definition py_getitem (v : PyVal) (k : pystr) : result PyVal :=
  match v with
  | PyDict d =>
      match dict_get d k with
      | Some x => Ok x
      | None => Err (KeyError LibraryMsg)
      end
  | _ => Err (TypeError LibraryMsg)
  end.

(** The interpreter's tables and limits that [int(str)] consults: the
    decimal value of a Unicode digit, and the cap on the number of digits
    ([sys.int_max_str_digits], absent in older interpreters). *)
Class Interpreter := {
  Py_UNICODE_TODECIMAL : N -> option Z;
  int_max_str_digits : option nat
}.

(** The ASCII digits, the part of the digit table every interpreter has. *)
Definition ascii_todecimal (c : N) : option Z :=
  if (48 <=? c) && (c <=? 57) then Some (Z.of_N (c - 48)) else None.

(** The whitespace [int()] skips around a number. [int(str)] first turns
    every non-ASCII [Py_UNICODE_ISSPACE] character into a space and leaves
    ASCII characters alone, then skips C's [Py_ISSPACE] characters: so among
    ASCII characters only tab..carriage return and space count (U+001C..U+001F
    are whitespace for [str.strip()] but not for [int()]). *)
Definition int_space (c : N) : bool :=
  if c <? 127 then ((9 <=? c) && (c <=? 13)) || (c =? 32)
  else Py_UNICODE_ISSPACE c.

Fixpoint int_skip (s : pystr) : pystr :=
  match s with
  | [] => []
  | c :: s' => if int_space c then int_skip s' else s
  end.

(** The text between the leading and the trailing whitespace. *)
Definition int_body (s : pystr) : pystr := rev (int_skip (rev (int_skip s))).

Section Int.
Context `{Interpreter}.

(** The decimal value of a character: ASCII characters are digits only as
    ['0'..'9']; beyond ASCII the interpreter's table decides. *)
Definition digit_value (c : N) : option Z :=
  if c <? 127 then ascii_todecimal c else Py_UNICODE_TODECIMAL c.

(** Digits with single underscores between them; [prev] tells whether the
    previous character was a digit, [n] counts the digits. *)
Fixpoint int_digits (s : pystr) (acc : Z) (prev : bool) (n : nat) : option (Z * nat) :=
  match s with
  | [] => if prev then Some (acc, n) else None
  | c :: s' =>
      if c =? 95 then (if prev then int_digits s' acc false n else None)
      else
        match digit_value c with
        | Some d => int_digits s' (10 * acc + d)%Z true (S n)
        | None => None
        end
  end.

(** [int(s)] for a [str], base 10: surrounding whitespace, an optional
    sign, digits. *)
Definition int_of_str (s : pystr) : result Z :=
  let body := int_body s in
  let '(neg, ds) :=
    match body with
    | 45 :: r => (true, r)
    | 43 :: r => (false, r)
    | _ => (false, body)
    end in
  match int_digits ds 0%Z false 0 with
  | Some (z, n) =>
      match int_max_str_digits with
      | Some cap =>
          if (cap <? n)%nat then Err (ValueError LibraryMsg)
          else Ok (if neg then (- z)%Z else z)
      | None => Ok (if neg then (- z)%Z else z)
      end
  | None => Err (ValueError LibraryMsg)
  end.

(** [int(x)] for a float: truncation towards zero. *)
Definition int_of_float (f : pyfloat) : result Z :=
  match f with
  | S754_zero _ => Ok 0%Z
  | S754_infinity _ => Err (OverflowError LibraryMsg)
  | S754_nan => Err (ValueError LibraryMsg)
  | S754_finite s m e =>
      let mag := if (0 <=? e)%Z then Z.shiftl (Z.pos m) e
                 else Z.shiftr (Z.pos m) (- e) in
      Ok (if s then (- mag)%Z else mag)
  end.

(** [int(v)] *)
Definition py_int (v : PyVal) : result Z :=
  match v with
  | PyInt z => Ok z
  | PyBool b => Ok (if b then 1 else 0)%Z
  | PyFloat f => int_of_float f
  | PyStr s => int_of_str s
  | PyNone | PyList _ | PyDict _ => Err (TypeError LibraryMsg)
  end.

End Int.

Definition ascii_interpreter : Interpreter :=
  {| Py_UNICODE_TODECIMAL := ascii_todecimal; int_max_str_digits := Some 4300%nat |}.

(** The double nearest to 3.7: 8331659310635418 * 2^-51. *)
Definition float_3_7 : pyfloat := S754_finite false 8331659310635418 (-51).

(** The double 0.5: 4503599627370496 * 2^-53. *)
Definition float_0_5 : pyfloat := S754_finite false 4503599627370496 (-53).

(* ===================================================================== *)
(** ** State and errors *)
(* ===================================================================== *)

(** A computation that reads and writes a state [St] and either returns or
    raises. The state reached when an exception is raised is kept: effects
    performed before the [raise] are not undone. *)
Definition M (St A : Type) : Type := St -> result A * St.

Definition ret {St A} (a : A) : M St A := fun s => (Ok a, s).

Definition raise {St A} (e : PyExc) : M St A := fun s => (Err e, s).

Definition bind {St A B} (c : M St A) (k : A -> M St B) : M St B :=
  fun s =>
    match c s with
    | (Ok a, s') => k a s'
    | (Err e, s') => (Err e, s')
    end.

Definition lift {St A} (r : result A) : M St A := fun s => (r, s).

Definition modify {St} (f : St -> St) : M St unit := fun s => (Ok tt, f s).

Declare Scope py_scope.
Delimit Scope py_scope with py.
Notation "x <~ c ;; k" := (bind c (fun x => k))
  (at level 100, c at next level, right associativity) : py_scope.

(** [for x in l: body(x)]; an exception raised by the body leaves the loop. *)
Fixpoint for_each {St A} (l : list A) (body : A -> M St unit) : M St unit :=
  match l with
  | [] => ret tt
  | x :: l' => bind (body x) (fun _ => for_each l' body)
  end.

(* ===================================================================== *)
(** ** The Qdrant collection *)
(* ===================================================================== *)

(** A point id is an unsigned integer or a (UUID) string. *)
Inductive PointId : Type :=
  | NumId (n : N)
  | StrId (s : pystr).

#[global] Instance PointId_eq_dec : EqDecision PointId.
Proof. solve_decision. Defined.

#[global] Instance PointId_countable : Countable PointId :=
  inj_countable'
    (fun i => match i with NumId n => inl n | StrId s => inr s end)
    (fun x => match x with inl n => NumId n | inr s => StrId s end)
    (fun i => match i with NumId _ | StrId _ => eq_refl end).

Record Point : Type := {
  vector : list pyfloat;
  payload : option pydict
}.

(** The collection ['test_collection']: the stored points by id. *)
Abbreviation Collection := (gmap PointId Point).

(** Modelled from the spec: the vector store's [upsert] (Qdrant, not part of
    the repository) "writes or overwrites a Point by id". *)
Definition upsert (c : Collection) (id : PointId) (p : Point) : Collection :=
  <[id := p]> c.

(** The scroll filter [must=[FieldCondition(key='doc_id',
    match=MatchValue(value=doc_id))]]: exact match on [payload.doc_id]. *)
Definition doc_id_matches (doc_id : pystr) (p : Point) : bool :=
  match payload p with
  | Some d =>
      match dict_get d (py "doc_id") with
      | Some (PyStr s) => str_eqb s doc_id
      | _ => false
      end
  | None => false
  end.

(** Modelled from the spec: the vector store's filtered lookup
    ([qdrant_client.scroll], not part of the repository): the first [limit]
    points that pass the filter, and the id of the next one if any. *)
Definition scroll (c : Collection) (doc_id : pystr) (limit : nat)
  : list (PointId * Point) * option PointId :=
  let hits := List.filter (fun kv => doc_id_matches doc_id (snd kv)) (map_to_list c) in
  (take limit hits, fst <$> hits !! limit).

(** What a point looks like in a search result. *)
Record ScoredPoint : Type := {
  sp_id : PointId;
  sp_score : pyfloat;
  sp_payload : option pydict
}.

(* ===================================================================== *)
(** ** Collaborators *)
(* ===================================================================== *)

(** [boto3]'s S3 client, as the dispatcher uses it:
    [list_objects_v2(Bucket, Prefix='', Delimiter='/')] gives the keys of the
    response's ['Contents'] ([None] when the response has no such entry), and
    [get_object(Bucket, Key)['Body'].read()] the bytes of an object. *)
Class S3Client := {
  list_objects_v2 : pystr -> result (option (list pystr));
  get_object : pystr -> pystr -> result (list byte)
}.

(** [str(uuid.uuid4())]: the n-th identifier drawn. *)
Class Uuid := { uuid4 : nat -> pystr }.

(** [list(embedding_model.embed([text]))[0].tolist()] *)
Class TextEmbedding := { embed : PyVal -> result (list pyfloat) }.

(** How Qdrant answers [qdrant_client.upsert] of a point: [None] when the
    write is accepted, the exception raised otherwise (a malformed id, a
    vector of the wrong size, the server unavailable). *)
Class QdrantWrites := { upsert_outcome : PointId -> Point -> option PyExc }.

(** [qdrant_client.search(collection, query_vector, limit, with_payload=True)] *)
Class QdrantSearch := {
  qdrant_search : Collection -> list pyfloat -> Z -> result (list ScoredPoint)
}.

(* ===================================================================== *)
(** ** publisher/celery_app.py: the dispatcher *)
(* ===================================================================== *)

(** The [while] loop of [os.path.splitext]: is there a character other than
    a dot in [p[filenameIndex:dotIndex]]? [n] bounds the iterations. *)
Fixpoint splitext_scan (p : pystr) (filenameIndex dotIndex : Z) (n : nat) : bool :=
  match n with
  | O => false
  | S n' =>
      if (filenameIndex <? dotIndex)%Z then
        match p !! Z.to_nat filenameIndex with
        | Some c =>
            if negb (c =? DOT) then true
            else splitext_scan p (filenameIndex + 1)%Z dotIndex n'
        | None => true
        end
      else false
  end.

(** [os.path.splitext(p)] (posixpath): leading dots of the file name do not
    start an extension. *)
Definition splitext (p : pystr) : pystr * pystr :=
  let sepIndex := rfind SLASH p in
  let dotIndex := rfind DOT p in
  if (sepIndex <? dotIndex)%Z
     && splitext_scan p (sepIndex + 1)%Z dotIndex (Z.to_nat (dotIndex - sepIndex))
  then (slice_to p dotIndex, slice_from p dotIndex)
  else (p, []).

(** A message on the broker: [app.send_task(name, args=(doc_id, chunk_id,
    text), queue=queue)]. *)
Record Task : Type := {
  task_name : string;
  task_doc_id : pystr;
  task_chunk_id : pystr;
  task_text : pystr;
  task_queue : string
}.

(** What a dispatcher run changes outside itself: the tasks it has sent (in
    order), the objects it has downloaded (in order), and how many
    identifiers it has drawn. *)
Record Dispatch : Type := {
  sent : list Task;
  fetched : list pystr;
  drawn : nat
}.

Definition dispatch0 : Dispatch := {| sent := []; fetched := []; drawn := 0 |}.

Section Dispatcher.
Context `{S3Client} `{Uuid}.

Definition fetch (bucket key : pystr) : M Dispatch (list byte) :=
  fun s =>
    (get_object bucket key,
     {| sent := sent s; fetched := fetched s ++ [key]; drawn := drawn s |}).

Definition fresh_uuid : M Dispatch pystr :=
  fun s =>
    (Ok (uuid4 (drawn s)),
     {| sent := sent s; fetched := fetched s; drawn := S (drawn s) |}).

Definition send_task (name : string) (doc_id chunk_id text : pystr) (queue : string)
  : M Dispatch unit :=
  modify (fun s =>
    {| sent := sent s ++ [{| task_name := name; task_doc_id := doc_id;
                             task_chunk_id := chunk_id; task_text := text;
                             task_queue := queue |}];
       fetched := fetched s; drawn := drawn s |}).

(** The body of [for text_key in text_files]. *)
Definition process_key (collection : Collection) (bucket text_key : pystr)
  : M Dispatch unit :=
  let doc_id := fst (splitext text_key) in
  let search_result := scroll collection doc_id 1 in
  match fst search_result with
  | _ :: _ => ret tt                      (* continue *)
  | [] =>
      (text_content <~ fetch bucket text_key ;;
       paragraphs <~ lift (parse_text text_content) ;;
       for_each paragraphs (fun text =>
         chunk_id <~ fresh_uuid ;;
         send_task "embed_app.store_chunk_content" doc_id chunk_id text
                   "chunk_content_queue"))%py
  end.

(** The keys of the listing that end in ['.txt']. *)
Definition text_files_of (contents : option (list pystr)) : list pystr :=
  List.filter (endswith (py ".txt")) (default [] contents).

(** [process_s3_text(bucket_name)]: the [except] clause logs and re-raises,
    so an exception raised anywhere in the body is the task's outcome. *)
Definition process_s3_text (collection : Collection) (bucket_name : pystr)
  : M Dispatch unit :=
  (response <~ lift (list_objects_v2 bucket_name) ;;
   for_each (text_files_of response) (process_key collection bucket_name))%py.

End Dispatcher.

(* ===================================================================== *)
(** ** consumer/embed_app.py: the worker *)
(* ===================================================================== *)

(** The calls made to the embedding model and to Qdrant, in order. *)
Inductive Call : Type :=
  | EmbedCall (text : PyVal)
  | UpsertCall (id : PointId) (p : Point)
  | SearchCall (query_vector : list pyfloat) (limit : Z).

Record World : Type := {
  qdrant : Collection;
  calls : list Call
}.

Definition is_upsert (c : Call) : bool :=
  match c with UpsertCall _ _ => true | _ => false end.

Definition log_call (c : Call) (w : World) : World :=
  {| qdrant := qdrant w; calls := calls w ++ [c] |}.

(** The collection's configured dimension ([VectorParams(size=384, ...)]). *)
Definition DIMENSION : nat := 384.

Section Embedding.
Context `{TextEmbedding}.

Definition call_embed (text : PyVal) : M World (list pyfloat) :=
  fun w => (embed text, log_call (EmbedCall text) w).

End Embedding.

Section Worker.
Context `{TextEmbedding} `{QdrantWrites}.

(** The upsert is issued; the point is written when Qdrant accepts it, and
    Qdrant's exception is raised otherwise. *)
Definition call_upsert (id : PointId) (p : Point) : M World unit :=
  fun w =>
    match upsert_outcome id p with
    | None => (Ok tt, {| qdrant := upsert (qdrant w) id p;
                         calls := calls w ++ [UpsertCall id p] |})
    | Some e => (Err e, log_call (UpsertCall id p) w)
    end.

(** [store_pdf_content(doc_id, chunk_id, text)], the task
    ['embed_app.store_chunk_content']. The first log line evaluates
    [len(text)] before the [try]; both [except] clauses log and re-raise. *)
Definition store_pdf_content (doc_id chunk_id text : PyVal) : M World unit :=
  (_ <~ lift (py_len text) ;;
   if negb (is_str doc_id) then
     raise (ValueError (Msg ("doc_id must be a string, got " ++ type_repr doc_id)))
   else
     match chunk_id with
     | PyStr cid =>
         embedding_vector <~ call_embed text ;;
         if negb (length embedding_vector =? DIMENSION)%nat then
           raise (ValueError (Msg ("Embedding vector length "
                                   ++ pretty (length embedding_vector)
                                   ++ " does not match expected 384")))
         else
           call_upsert (StrId cid)
             {| vector := embedding_vector;
                payload := Some [(py "doc_id", doc_id); (py "text", text)] |}
     | _ =>
         raise (ValueError (Msg ("chunk_id must be a string, got " ++ type_repr chunk_id)))
     end)%py.

End Worker.

(* ===================================================================== *)
(** ** query-engine/query_service.py: the search handler *)
(* ===================================================================== *)

(** What [jsonify] is given. *)
Inductive Body : Type :=
  | ErrorBody (m : ExcMsg)
  | ResultsBody (results : list pydict).

Record Response : Type := {
  status : Z;
  body : Body
}.

Definition error_response (code : Z) (text : string) : Response :=
  {| status := code; body := ErrorBody (Msg text) |}.

(** [jsonify({"error": str(e)}), 500] *)
Definition caught (e : PyExc) : Response :=
  {| status := 500; body := ErrorBody (exc_str e) |}.

(** [result.id] as a JSON value. *)
Definition id_value (i : PointId) : PyVal :=
  match i with
  | NumId n => PyInt (Z.of_N n)
  | StrId s => PyStr s
  end.

(** One entry of the [results] comprehension. [result.payload.get] raises
    when the payload is [None]; [float(result.score)] of a float is that
    float. *)
Definition format_result (r : ScoredPoint) : result pydict :=
  match sp_payload r with
  | None => Err (AttributeError LibraryMsg)
  | Some p =>
      Ok [ (py "doc_id", default (PyStr []) (dict_get p (py "doc_id")));
           (py "chunk_id", id_value (sp_id r));
           (py "text", default (PyStr []) (dict_get p (py "text")));
           (py "score", PyFloat (sp_score r)) ]
  end.

Fixpoint format_results (rs : list ScoredPoint) : result (list pydict) :=
  match rs with
  | [] => Ok []
  | r :: rs' =>
      rbind (format_result r) (fun e =>
      rbind (format_results rs') (fun es => Ok (e :: es)))
  end.

(** [isinstance(query_text, str) and query_text.strip()] is truthy. *)
Definition nonblank_str (v : PyVal) : bool :=
  match v with
  | PyStr s => str_truthy (strip s)
  | _ => false
  end.

Section QueryService.
Context `{Interpreter} `{TextEmbedding} `{QdrantSearch}.

Definition call_search (v : list pyfloat) (limit : Z) : M World (list ScoredPoint) :=
  fun w => (qdrant_search (qdrant w) v limit, log_call (SearchCall v limit) w).

Definition missing_fields : Response :=
  error_response 400 "Missing query_text or top_n in request body".

(** The body of the [try] in [search()]; [request_json] is the outcome of
    [request.get_json()]. *)
Definition search_body (request_json : result PyVal) : M World Response :=
  (data <~ lift request_json ;;
   if negb (truthy data) then ret missing_fields else
   has_query <~ lift (py_contains (py "query_text") data) ;;
   if negb has_query then ret missing_fields else
   has_top_n <~ lift (py_contains (py "top_n") data) ;;
   if negb has_top_n then ret missing_fields else
   query_text <~ lift (py_getitem data (py "query_text")) ;;
   top_n_raw <~ lift (py_getitem data (py "top_n")) ;;
   top_n <~ lift (py_int top_n_raw) ;;
   if negb (nonblank_str query_text) then
     ret (error_response 400 "query_text must be a non-empty string")
   else if (top_n <=? 0)%Z then
     ret (error_response 400 "top_n must be a positive integer")
   else
     query_embedding <~ call_embed query_text ;;
     if negb (length query_embedding =? DIMENSION)%nat then
       ret (error_response 500 "Failed to generate valid query embedding")
     else
       search_results <~ call_search query_embedding top_n ;;
       results <~ lift (format_results search_results) ;;
       ret {| status := 200; body := ResultsBody results |})%py.

(** [search()]: [except Exception as e] answers 500 with [str(e)]. *)
Definition search (request_json : result PyVal) (w : World) : Response * World :=
  match search_body request_json w with
  | (Ok resp, w') => (resp, w')
  | (Err e, w') => (caught e, w')
  end.

End QueryService.

(* ===================================================================== *)
(** ** Start-up of the dispatcher and of the worker: the collection *)
(* ===================================================================== *)

Inductive Distance : Type := Cosine | Euclid | Dot | Manhattan.

(** [VectorParams(size, distance)] *)
Record VectorParams : Type := {
  size_of : nat;
  distance_of : Distance
}.

(** The collections of the Qdrant server, by name. *)
Abbreviation Collections := (gmap pystr VectorParams).

(** [[c.name for c in qdrant_client.get_collections().collections]] *)
Definition collection_names (server : Collections) : list pystr :=
  List.map fst (map_to_list server).

(** Modelled from the spec: Qdrant's [create_collection] (not part of the
    repository) creates a collection under a new name and refuses a name
    that is taken. *)
Definition create_collection (server : Collections) (name : pystr) (p : VectorParams)
  : result Collections :=
  match server !! name with
  | Some _ => Err (OtherError LibraryMsg)
  | None => Ok (<[name := p]> server)
  end.

(** The module-level block "Ensure Qdrant collection exists with correct
    configuration" of celery_app.py and embed_app.py: the [except] clause
    logs and re-raises. *)
Definition ensure_collection (server : Collections) : result Collections :=
  if negb (existsb (str_eqb (py "test_collection")) (collection_names server))
  then create_collection server (py "test_collection")
         {| size_of := 384; distance_of := Cosine |}
  else Ok server.

(* ===================================================================== *)
(** ** pdf_ingestion/s3_ingestor.py: the upload script *)
(* ===================================================================== *)

(** How a call of the S3 client can fail: a [ClientError] with its error
    code, or any other exception. *)
Inductive BotoFailure : Type :=
  | ClientErrorCode (code : string)
  | OtherException (e : PyExc).

(** The S3 client as the upload script uses it; [None] is a call that
    returns. [new_client] is [boto3.client("s3", region_name=region)]. *)
Class S3Admin := {
  new_client : result unit;
  create_bucket : pystr -> pystr -> option BotoFailure;
  upload_file : pystr -> pystr -> pystr -> option BotoFailure
}.

(** [os.path.isdir], [os.listdir], [os.path.isfile], [os.getcwd]. *)
Class FileSystem := {
  isdir : pystr -> bool;
  listdir : pystr -> result (list pystr);
  isfile : pystr -> bool;
  getcwd : pystr
}.

(** [str.lower()], which follows the interpreter's Unicode tables. *)
Class UnicodeCase := { str_lower : pystr -> pystr }.

(** [os.path.join(a, b)] (posixpath) *)
Definition path_join (a b : pystr) : pystr :=
  if startswith [SLASH] b then b
  else if negb (str_truthy a) || endswith [SLASH] a then a ++ b
  else a ++ [SLASH] ++ b.

(** [create_s3_bucket(s3_client, bucket_name, region)]: only [ClientError]
    is caught. *)
Definition create_s3_bucket `{S3Admin} (bucket_name region : pystr) : result bool :=
  match create_bucket bucket_name region with
  | None => Ok true
  | Some (ClientErrorCode code) =>
      if String.eqb code "BucketAlreadyOwnedByYou" then Ok true
      else Ok false
  | Some (OtherException e) => Err e
  end.

(** A completed [upload_file(Filename, Bucket, Key)]. *)
Record Upload : Type := {
  up_filename : pystr;
  up_bucket : pystr;
  up_key : pystr
}.

(** What the script changes outside itself: the uploads made (in order) and
    the number of identifiers drawn. *)
Record Ingest : Type := {
  uploads : list Upload;
  ids_drawn : nat
}.

Definition ingest0 : Ingest := {| uploads := []; ids_drawn := 0 |}.

Section Ingestor.
Context `{S3Admin} `{FileSystem} `{UnicodeCase} `{Uuid}.

(** [os.path.isfile(full_path) and file.lower().endswith(".txt")] *)
Definition is_txt_file (local_directory file : pystr) : bool :=
  isfile (path_join local_directory file) && endswith (py ".txt") (str_lower file).

(** The [for file in os.listdir(local_directory)] loop: [return False] at
    the first upload that raises. *)
Fixpoint upload_loop (bucket_name local_directory : pystr) (files : list pystr)
    (s : Ingest) : bool * Ingest :=
  match files with
  | [] => (true, s)
  | file :: rest =>
      let full_path := path_join local_directory file in
      if is_txt_file local_directory file then
        let unique_id := uuid4 (ids_drawn s) in
        let s3_key := unique_id ++ py ".txt" in
        match upload_file full_path bucket_name s3_key with
        | None =>
            upload_loop bucket_name local_directory rest
              {| uploads := uploads s ++ [{| up_filename := full_path;
                                             up_bucket := bucket_name;
                                             up_key := s3_key |}];
                 ids_drawn := S (ids_drawn s) |}
        | Some _ => (false, {| uploads := uploads s; ids_drawn := S (ids_drawn s) |})
        end
      else upload_loop bucket_name local_directory rest s
  end.

(** [upload_txt_files_with_uuid(s3_client, bucket_name, local_directory)]:
    every exception ends in [return False]. *)
Definition upload_txt_files_with_uuid (bucket_name local_directory : pystr) (s : Ingest)
  : bool * Ingest :=
  if negb (isdir local_directory) then (false, s)
  else
    match listdir local_directory with
    | Err _ => (false, s)
    | Ok files => upload_loop bucket_name local_directory files s
    end.

(** [main()]: returns [None], or raises what [create_s3_bucket] lets
    through. *)
Definition main (s : Ingest) : result unit * Ingest :=
  let bucket_name := py "my-unique-bucket-2025123243" in
  let region := py "us-east-2" in
  let local_directory := path_join getcwd (py "sample_pdfs") in
  match new_client with
  | Err _ => (Ok tt, s)
  | Ok _ =>
      match create_s3_bucket bucket_name region with
      | Err e => (Err e, s)
      | Ok false => (Ok tt, s)
      | Ok true =>
          (Ok tt, snd (upload_txt_files_with_uuid bucket_name local_directory s))
      end
  end.

End Ingestor.

(* ===================================================================== *)
(** ** Concrete collaborators, for evaluating the programs *)
(* ===================================================================== *)

(** A bucket holding the given objects, listed in the given order. *)
Fixpoint object_body (objs : list (pystr * list byte)) (key : pystr) : result (list byte) :=
  match objs with
  | [] => Err (ClientError LibraryMsg)
  | (k, b) :: objs' => if str_eqb k key then Ok b else object_body objs' key
  end.

Definition bucket_of (objs : list (pystr * list byte)) : S3Client :=
  {| list_objects_v2 := fun _ =>
       Ok (match objs with [] => None | _ => Some (List.map fst objs) end);
     get_object := fun _ key => object_body objs key |}.

(** Identifiers ["id-0"], ["id-1"], ... *)
Definition counting_uuid : Uuid :=
  {| uuid4 := fun n => py "id-" ++ py (pretty n) |}.

(** A model that answers every text with the same vector. *)
Definition constant_embedding (v : list pyfloat) : TextEmbedding :=
  {| embed := fun _ => Ok v |}.

Definition zeros (n : nat) : list pyfloat := repeat (S754_zero false) n.

(** A Qdrant that accepts every write, and one that refuses every write. *)
Definition accepting_store : QdrantWrites := {| upsert_outcome := fun _ _ => None |}.
Definition refusing_store : QdrantWrites :=
  {| upsert_outcome := fun _ _ => Some (HTTPException 400 LibraryMsg) |}.

(** A search that answers with the first [limit] of the given hits. *)
Definition fixed_search (hits : list ScoredPoint) : QdrantSearch :=
  {| qdrant_search := fun _ _ limit => Ok (take (Z.to_nat limit) hits) |}.

Definition world0 : World := {| qdrant := ∅; calls := [] |}.

(** A model of the configured dimension, and one of another dimension. *)
Definition embedding_384 : TextEmbedding := constant_embedding (zeros 384).
Definition embedding_3 : TextEmbedding := constant_embedding (zeros 3).

(** The world after the worker has stored chunk ["id-0"] of ["report"]. *)
Definition world_first_write : World :=
  snd (@store_pdf_content embedding_384 accepting_store (PyStr (py "report")) (PyStr (py "id-0"))
         (PyStr (py "Intro paragraph.")) world0).

(** ... after a second task for the same chunk id with another text ... *)
Definition world_second_write : World :=
  snd (@store_pdf_content embedding_384 accepting_store (PyStr (py "report")) (PyStr (py "id-0"))
         (PyStr (py "Changed paragraph.")) world_first_write).

(** ... and after the first task delivered once more instead. *)
Definition world_replayed : World :=
  snd (@store_pdf_content embedding_384 accepting_store (PyStr (py "report")) (PyStr (py "id-0"))
         (PyStr (py "Intro paragraph.")) world_first_write).

(** Two hits: one with the payload the worker writes, one whose payload
    has neither field. *)
Definition two_hits : list ScoredPoint :=
  [ {| sp_id := StrId (py "id-1");
       sp_score := S754_finite false 1 (-1);
       sp_payload := Some [(py "doc_id", PyStr (py "report"));
                           (py "text", PyStr (py "Second paragraph."))] |};
    {| sp_id := NumId 7;
       sp_score := S754_zero false;
       sp_payload := Some [] |} ].

(** A full hit followed by one that has no payload. *)
Definition hits_one_bare : list ScoredPoint :=
  [ {| sp_id := StrId (py "id-1");
       sp_score := S754_finite false 1 (-1);
       sp_payload := Some [(py "doc_id", PyStr (py "report"));
                           (py "text", PyStr (py "Second paragraph."))] |};
    {| sp_id := NumId 8;
       sp_score := S754_zero false;
       sp_payload := None |} ].

(** ASCII lower-casing, the part of [str.lower()] every interpreter has. *)
Definition ascii_lower (s : pystr) : pystr :=
  List.map (fun c => if (65 <=? c) && (c <=? 90) then c + 32 else c) s.

Definition ascii_case : UnicodeCase := {| str_lower := ascii_lower |}.

(** A directory with two text files, another file and a sub-directory. *)
Definition sample_fs : FileSystem :=
  {| isdir := fun d => str_eqb d (py "/data/sample_pdfs");
     listdir := fun _ => Ok [py "a.txt"; py "notes.md"; py "B.TXT"; py "sub.txt"];
     isfile := fun p => negb (str_eqb p (py "/data/sample_pdfs/sub.txt"));
     getcwd := py "/data" |}.

(** An S3 client on which every call returns. *)
Definition s3_admin_ok : S3Admin :=
  {| new_client := Ok tt;
     create_bucket := fun _ _ => None;
     upload_file := fun _ _ _ => None |}.

(** A request body [{"query_text": q, "top_n": t}]. *)
Definition request_of (q t : PyVal) : result PyVal :=
  Ok (PyDict [(py "query_text", q); (py "top_n", t)]).

(** The document of the specification's end-to-end scenario. *)
Definition report_bytes : list byte :=
  bytes_of "Intro paragraph." ++ [x0a; x0a] ++ bytes_of "Second paragraph.".

(** A collection holding one chunk of document ["report"]. *)
Definition report_point : Point :=
  {| vector := zeros 384;
     payload := Some [(py "doc_id", PyStr (py "report"));
                      (py "text", PyStr (py "Intro paragraph."))] |}.

Definition report_indexed : Collection := {[ StrId (py "id-0") := report_point ]}.

Definition bucket_two_documents : S3Client :=
  bucket_of [(py "report.txt", report_bytes); (py "notes.txt", bytes_of "Other notes.")].

(** A bucket whose first object is not valid UTF-8. *)
Definition bucket_broken_first : S3Client :=
  bucket_of [(py "broken.txt", [xff]); (py "report.txt", report_bytes)].

Definition bucket_report_only : S3Client :=
  bucket_of [(py "report.txt", report_bytes)].

(** The dispatcher's state after a run over [bucket_two_documents] against
    [report_indexed]: one task, for the document that was not indexed. *)
Definition dispatch_after_notes : Dispatch :=
  {| sent := [ {| task_name := "embed_app.store_chunk_content";
                  task_doc_id := py "notes";
                  task_chunk_id := py "id-0";
                  task_text := py "Other notes.";
                  task_queue := "chunk_content_queue" |} ];
     fetched := [py "notes.txt"];
     drawn := 1 |}.

Local Close Scope N_scope.

(* ===================================================================== *)
(** ** Vocabulary of the statements *)
(* ===================================================================== *)

(** Some stored point carries [payload.doc_id == doc_id]. *)
Definition indexed (c : Collection) (doc_id : pystr) : Prop :=
  exists id p d,
    c !! id = Some p /\ payload p = Some d
    /\ dict_get d (py "doc_id") = Some (PyStr doc_id).

(** From [s] to [s'] the dispatcher only added: the new tasks all satisfy
    [P] and the newly downloaded keys all satisfy [Q]. *)
Definition dispatch_extends (P : Task -> Prop) (Q : pystr -> Prop) (s s' : Dispatch) : Prop :=
  exists new_tasks new_fetched,
    sent s' = sent s ++ new_tasks
    /\ fetched s' = fetched s ++ new_fetched
    /\ Forall P new_tasks /\ Forall Q new_fetched.

(** The stored points whose id is [id], as the collection enumerates them. *)
Definition points_under (c : Collection) (id : PointId) : list (PointId * Point) :=
  filter (fun kv => fst kv = id) (map_to_list c).

(** The point the worker writes for a task. *)
Definition point_of (doc_id text : PyVal) (v : list pyfloat) : Point :=
  {| vector := v; payload := Some [(py "doc_id", doc_id); (py "text", text)] |}.

(** The point a task writes, if the task gets as far as writing: its
    arguments pass the checks, the embedding has the configured dimension
    and Qdrant accepts the write. *)
Definition task_point `{TextEmbedding} `{QdrantWrites} (doc_id chunk_id text : PyVal)
  : option (PointId * Point) :=
  match py_len text, is_str doc_id, chunk_id, embed text with
  | Ok _, true, PyStr cid, Ok v =>
      if (length v =? DIMENSION)%nat
      then match upsert_outcome (StrId cid) (point_of doc_id text v) with
           | None => Some (StrId cid, point_of doc_id text v)
           | Some _ => None
           end
      else None
  | _, _, _, _ => None
  end.

(** Does a search hit carry a payload? *)
Definition has_payload (h : ScoredPoint) : bool :=
  match sp_payload h with Some _ => true | None => false end.

(** The uploads of a sequence of file names when the identifiers are drawn
    in order starting with the [first]-th. *)
Definition numbered_uploads `{Uuid} (bucket_name local_directory : pystr) (first : nat)
    (names : list pystr) : list Upload :=
  imap (fun i name =>
          {| up_filename := path_join local_directory name;
             up_bucket := bucket_name;
             up_key := uuid4 (first + i) ++ py ".txt" |}) names.

(** An identifier shaped like a UUID string: not empty, no dot, no slash. *)
Definition plain_id (id : pystr) : bool :=
  str_truthy id
  && forallb (fun c => negb (N.eqb c DOT) && negb (N.eqb c SLASH)) id.

(** The decimal value of a sequence of ASCII digits. *)
Definition decimal_value (ds : pystr) : Z :=
  fold_left (fun acc c => (10 * acc + Z.of_N (c - 48))%Z) ds 0%Z.

(** A non-empty sequence of the characters ['0'..'9']. *)
Definition ascii_digits (ds : pystr) : bool :=
  str_truthy ds && forallb (fun c => N.leb 48 c && N.leb c 57) ds.

(** What Python's [int(x)] returns, written from the language's rules and
    not from the conversion function above, to compare the two: an integer
    is itself, a bool is 0 or 1, a finite float is truncated towards zero,
    and a string of ASCII digits, with an optional sign and whitespace around
    it, is its decimal value (when it does not exceed the interpreter's cap
    on the number of digits). The relation lists values that convert; it does
    not list all of them (underscores and non-ASCII digits are left out). *)
Inductive int_conversion `{Interpreter} : PyVal -> Z -> Prop :=
  | conv_int (z : Z) : int_conversion (PyInt z) z
  | conv_bool (b : bool) : int_conversion (PyBool b) (if b then 1 else 0)%Z
  | conv_float_zero (s : bool) : int_conversion (PyFloat (S754_zero s)) 0%Z
  | conv_float (s : bool) (m : positive) (e : Z) :
      int_conversion (PyFloat (S754_finite s m e))
        (Z.quot ((if s then -1 else 1) * Z.pos m * 2 ^ Z.max e 0)
                (2 ^ Z.max (- e) 0))%Z
  | conv_str (ws1 sign ds ws2 : pystr) :
      forallb int_space ws1 = true -> forallb int_space ws2 = true ->
      sign = [] \/ sign = [43%N] \/ sign = [45%N] ->
      ascii_digits ds = true ->
      (forall cap, int_max_str_digits = Some cap -> length ds <= cap) ->
      int_conversion (PyStr (ws1 ++ sign ++ ds ++ ws2))
        (if str_eqb sign [45%N] then - decimal_value ds else decimal_value ds)%Z.

(** Values on which Python's [int(x)] raises, again from the language's
    rules: [None], lists and dicts ([TypeError]); NaN ([ValueError]) and the
    infinities ([OverflowError]); a string that is empty or all whitespace, or
    that holds a character that is neither whitespace, nor a sign, nor an
    underscore, nor a digit ([ValueError]). *)
Inductive not_convertible `{Interpreter} : PyVal -> Prop :=
  | nc_none : not_convertible PyNone
  | nc_list (l : list PyVal) : not_convertible (PyList l)
  | nc_dict (d : pydict) : not_convertible (PyDict d)
  | nc_nan : not_convertible (PyFloat S754_nan)
  | nc_infinity (s : bool) : not_convertible (PyFloat (S754_infinity s))
  | nc_blank (s : pystr) :
      forallb int_space s = true -> not_convertible (PyStr s)
  | nc_char (s : pystr) (c : N) :
      In c s -> int_space c = false ->
      c <> 43%N -> c <> 45%N -> c <> 95%N -> digit_value c = None ->
      not_convertible (PyStr s).

(** The calls of [w'] that were not yet made in [w]. *)
Definition new_calls (w w' : World) : list Call :=
  drop (length (calls w)) (calls w').

(** [sep.join(l)] *)
Fixpoint str_join (sep : pystr) (l : list pystr) : pystr :=
  match l with
  | [] => []
  | x :: l' =>
      match l' with
      | [] => x
      | _ :: _ => x ++ sep ++ str_join sep l'
      end
  end.

(** The characters of a string that are not whitespace, in order. *)
Definition non_whitespace (s : pystr) : pystr :=
  List.filter (fun c => negb (Py_UNICODE_ISSPACE c)) s.

(** The existence check of the dispatcher: does the scroll for [doc_id]
    return a point? *)
Definition exists_for_doc (c : Collection) (doc_id : pystr) : bool :=
  match fst (scroll c doc_id 1) with
  | [] => false
  | _ :: _ => true
  end.

(** The task the dispatcher sends for one chunk. *)
Definition chunk_task (doc_id chunk_id text : pystr) : Task :=
  {| task_name := "embed_app.store_chunk_content";
     task_doc_id := doc_id;
     task_chunk_id := chunk_id;
     task_text := text;
     task_queue := "chunk_content_queue" |}.

(** The tasks for a sequence of (doc_id, text) pairs when the identifiers
    are drawn in order starting with the [first]-th. *)
Definition number_tasks `{Uuid} (first : nat) (chunks : list (pystr * pystr)) : list Task :=
  imap (fun i dt => chunk_task (fst dt) (uuid4 (first + i)) (snd dt)) chunks.

(** What the dispatcher finds for one candidate key: [Ok None] when the
    document is already indexed, [Ok (Some paragraphs)] when it is fetched and
    chunked, the exception when fetching or chunking raises. *)
Definition key_chunks `{S3Client} (c : Collection) (bucket key : pystr)
  : result (option (list pystr)) :=
  if exists_for_doc c (fst (splitext key)) then Ok None
  else rbind (get_object bucket key) (fun content =>
       rbind (parse_text content) (fun ps => Ok (Some ps))).

(** The (doc_id, text) pairs a candidate key contributes. *)
Definition doc_chunks `{S3Client} (c : Collection) (bucket key : pystr)
  : list (pystr * pystr) :=
  match key_chunks c bucket key with
  | Ok (Some ps) => List.map (fun text => (fst (splitext key), text)) ps
  | _ => []
  end.

(** The candidates that are not indexed yet. *)
Definition unindexed (c : Collection) (keys : list pystr) : list pystr :=
  List.filter (fun key => negb (exists_for_doc c (fst (splitext key)))) keys.

(* ===================================================================== *)
(** ** The programs on concrete inputs *)
(* ===================================================================== *)

Example parse_text_report :
  parse_text (bytes_of "Intro paragraph." ++ [x0a; x0a] ++ bytes_of "Second paragraph.")
  = Ok [py "Intro paragraph."; py "Second paragraph."].
Proof. reflexivity. Qed.

Example parse_text_three_newlines :
  parse_text (bytes_of "a" ++ [x0a; x0a; x0a] ++ bytes_of "b")
  = Ok [py "a"; py "b"].
Proof. reflexivity. Qed.

Example decode_utf8_euro :
  decode_utf8 [xe2; x82; xac] = Ok [8364%N].
Proof. reflexivity. Qed.

Example decode_utf8_invalid :
  decode_utf8 [xff] = Err (UnicodeDecodeError LibraryMsg).
Proof. reflexivity. Qed.

Example py_int_str_5 : @py_int ascii_interpreter (PyStr (py " 5 ")) = Ok 5%Z.
Proof. reflexivity. Qed.

Example py_int_float_3_7 : @py_int ascii_interpreter (PyFloat float_3_7) = Ok 3%Z.
Proof. reflexivity. Qed.

Example py_int_str_underscore :
  @py_int ascii_interpreter (PyStr (py "-1_000")) = Ok (-1000)%Z
  /\ @py_int ascii_interpreter (PyStr (py "1__0")) = Err (ValueError LibraryMsg)
  /\ @py_int ascii_interpreter (PyStr (py "abc")) = Err (ValueError LibraryMsg)
  /\ @py_int ascii_interpreter (PyStr (py "3.7")) = Err (ValueError LibraryMsg).
Proof. repeat split; reflexivity. Qed.

(** [int()] skips a no-break space (U+00A0) and a line tabulation, not the
    separators U+001C..U+001F that [str.strip()] removes. *)
Example py_int_str_separators :
  @py_int ascii_interpreter (PyStr [160; 53]%N) = Ok 5%Z
  /\ @py_int ascii_interpreter (PyStr [11; 53; 12]%N) = Ok 5%Z
  /\ @py_int ascii_interpreter (PyStr [28; 53]%N) = Err (ValueError LibraryMsg)
  /\ @py_int ascii_interpreter (PyStr [53; 31]%N) = Err (ValueError LibraryMsg)
  /\ strip [28; 53]%N = [53%N].
Proof. repeat split; reflexivity. Qed.

Example py_int_float_0_5 : @py_int ascii_interpreter (PyFloat float_0_5) = Ok 0%Z.
Proof. reflexivity. Qed.

Example splitext_test_file : splitext (py "test_file.txt") = (py "test_file", py ".txt").
Proof. reflexivity. Qed.

Example splitext_hidden : splitext (py ".txt") = (py ".txt", []).
Proof. reflexivity. Qed.

Example splitext_two_dots : splitext (py "a.b.txt") = (py "a.b", py ".txt").
Proof. reflexivity. Qed.

(* ===================================================================== *)
(** ** Facts about strings *)
(* ===================================================================== *)

Lemma str_eqb_eq (a b : pystr) : str_eqb a b = true <-> a = b.
Proof.
  revert b. induction a as [|x a IH]; intros [|y b]; simpl; try (split; congruence).
  rewrite andb_true_iff, N.eqb_eq, IH. split.
  - intros [-> ->]. reflexivity.
  - intros [= -> ->]. split; reflexivity.
Qed.

Lemma str_eqb_refl (a : pystr) : str_eqb a a = true.
Proof. apply str_eqb_eq. reflexivity. Qed.

Lemma forallb_rev {A} (f : A -> bool) (l : list A) :
  forallb f (rev l) = forallb f l.
Proof.
  induction l as [|x l IH]; simpl; [reflexivity|].
  rewrite forallb_app, IH. simpl. rewrite andb_true_r. apply andb_comm.
Qed.

Lemma lstrip_nil_iff (s : pystr) :
  lstrip s = [] <-> forallb Py_UNICODE_ISSPACE s = true.
Proof.
  induction s as [|c s IH]; simpl; [tauto|].
  destruct (Py_UNICODE_ISSPACE c); simpl; [exact IH|].
  split; discriminate.
Qed.

Lemma forallb_lstrip (s : pystr) :
  forallb Py_UNICODE_ISSPACE (lstrip s) = forallb Py_UNICODE_ISSPACE s.
Proof.
  induction s as [|c s IH]; simpl; [reflexivity|].
  destruct (Py_UNICODE_ISSPACE c) eqn:E; simpl; [exact IH|].
  rewrite E. reflexivity.
Qed.

(** A string strips to the empty string exactly when it is all whitespace. *)
Lemma strip_nil_iff (s : pystr) :
  strip s = [] <-> forallb Py_UNICODE_ISSPACE s = true.
Proof.
  unfold strip, rstrip.
  rewrite <- (forallb_lstrip s), <- (forallb_rev _ (lstrip s)), <- lstrip_nil_iff.
  split.
  - intros E. apply (f_equal (@rev N)) in E. rewrite rev_involutive in E. exact E.
  - intros ->. reflexivity.
Qed.

Lemma str_truthy_strip (s : pystr) :
  str_truthy (strip s) = negb (forallb Py_UNICODE_ISSPACE s).
Proof.
  destruct (forallb Py_UNICODE_ISSPACE s) eqn:E.
  - apply strip_nil_iff in E. rewrite E. reflexivity.
  - destruct (strip s) eqn:E'; [|reflexivity].
    apply strip_nil_iff in E'. congruence.
Qed.

(** Without an occurrence of the separator, [split] returns the text whole. *)
Lemma split_go_no_occurrence (sep s cur : pystr) :
  occurs sep s = false -> split_go sep s cur 0 = [rev cur ++ s].
Proof.
  revert cur. induction s as [|c s IH]; intros cur Hocc.
  - simpl. rewrite app_nil_r. reflexivity.
  - simpl in Hocc. apply orb_false_iff in Hocc as [Hpre Hrest].
    cbn [split_go]. rewrite Hpre, (IH _ Hrest). simpl.
    rewrite <- app_assoc. reflexivity.
Qed.

Lemma split_no_occurrence (sep s : pystr) :
  occurs sep s = false -> split sep s = [s].
Proof. intros Hocc. unfold split. rewrite split_go_no_occurrence by exact Hocc. reflexivity. Qed.

(** Every piece of a split is made of characters of the text. *)
Lemma split_go_forallb (P : N -> bool) (sep s cur : pystr) (skip : nat) :
  forallb P s = true -> forallb P cur = true ->
  forallb (forallb P) (split_go sep s cur skip) = true.
Proof.
  revert cur skip. induction s as [|c s IH]; intros cur skip Hs Hcur.
  - simpl. rewrite forallb_rev, Hcur. reflexivity.
  - simpl in Hs. apply andb_true_iff in Hs as [Hc Hs].
    cbn [split_go]. destruct skip as [|k].
    + destruct (startswith sep (c :: s)).
      * cbn [forallb]. rewrite forallb_rev, Hcur. simpl. apply IH; [exact Hs|reflexivity].
      * apply IH; [exact Hs|]. simpl. rewrite Hc, Hcur. reflexivity.
    + apply IH; assumption.
Qed.

Lemma filter_all_false {A} (f : A -> bool) (l : list A) :
  forallb (fun x => negb (f x)) l = true -> List.filter f l = [].
Proof.
  induction l as [|x l IH]; simpl; [reflexivity|].
  intros Hl. apply andb_true_iff in Hl as [Hx Hl].
  destruct (f x); [discriminate|]. apply IH, Hl.
Qed.

Lemma paragraphs_of_unstructured (text : pystr) :
  occurs blank_line text = false ->
  paragraphs_of text =
    if forallb Py_UNICODE_ISSPACE text then [] else [strip text].
Proof.
  intros Hocc. unfold paragraphs_of. rewrite split_no_occurrence by exact Hocc.
  simpl. rewrite str_truthy_strip.
  destruct (forallb Py_UNICODE_ISSPACE text); reflexivity.
Qed.

Lemma paragraphs_of_whitespace (text : pystr) :
  forallb Py_UNICODE_ISSPACE text = true -> paragraphs_of text = [].
Proof.
  intros Hws. unfold paragraphs_of. rewrite filter_all_false; [reflexivity|].
  pose proof (split_go_forallb Py_UNICODE_ISSPACE blank_line text [] 0 Hws eq_refl) as Hall.
  unfold split. revert Hall.
  generalize (split_go blank_line text [] 0). intros l.
  induction l as [|p l IH]; simpl; [reflexivity|].
  intros Hall. apply andb_true_iff in Hall as [Hp Hl].
  rewrite str_truthy_strip, Hp. simpl. apply IH, Hl.
Qed.

(* ===================================================================== *)
(** ** The chunker *)
(* ===================================================================== *)

(** C5. The chunker is a function of its input. For text that decodes and
    has no blank-line boundary (no occurrence of two consecutive newlines),
    the output is the one-element sequence holding the stripped text, unless
    the text is all whitespace; for empty or all-whitespace text (with or
    without blank lines) the output is the empty sequence. *)
Theorem parse_text_unstructured (file_content : list byte) (text : pystr) :
  decode_utf8 file_content = Ok text ->
  (occurs blank_line text = false ->
   forallb Py_UNICODE_ISSPACE text = false ->
   parse_text file_content = Ok [strip text])
  /\ (forallb Py_UNICODE_ISSPACE text = true ->
      parse_text file_content = Ok []).
Proof.
  intros Hdec. unfold parse_text. rewrite Hdec. simpl. split.
  - intros Hocc Hws. rewrite paragraphs_of_unstructured by exact Hocc.
    rewrite Hws. reflexivity.
  - intros Hws. rewrite paragraphs_of_whitespace by exact Hws. reflexivity.
Qed.

Lemma parse_text_unstructured_witness :
  parse_text (bytes_of "  one paragraph, two lines " ++ [x0a] ++ bytes_of "of it  ")
    = Ok [py "one paragraph, two lines " ++ [10%N] ++ py "of it"]
  /\ parse_text ([x20; x0a; x0a; x0a; x09]) = Ok []
  /\ parse_text [] = Ok [].
Proof.
  split; [|split].
  - apply (proj1 (parse_text_unstructured
                    (bytes_of "  one paragraph, two lines " ++ [x0a] ++ bytes_of "of it  ")
                    (py "  one paragraph, two lines " ++ [10%N] ++ py "of it  ")
                    eq_refl)); reflexivity.
  - apply (proj2 (parse_text_unstructured [x20; x0a; x0a; x0a; x09]
                    [32%N; 10%N; 10%N; 10%N; 9%N] eq_refl)); reflexivity.
  - apply (proj2 (parse_text_unstructured [] [] eq_refl)); reflexivity.
Defined.

(** C8. The chunker cuts only at the two-character sequence of two
    consecutive newlines. A line holding only whitespace is not a boundary:
    ["a\n \nb"] is one chunk that keeps the inner line; and any text in which
    two consecutive newlines do not occur yields at most one chunk. *)
Theorem parse_text_literal_separator :
  parse_text (bytes_of "a" ++ [x0a; x20; x0a] ++ bytes_of "b")
    = Ok [py "a" ++ [10%N; 32%N; 10%N] ++ py "b"]
  /\ parse_text (bytes_of "a" ++ [x0a; x0a] ++ bytes_of "b") = Ok [py "a"; py "b"]
  /\ forall file_content text,
       decode_utf8 file_content = Ok text ->
       occurs blank_line text = false ->
       exists chunks, parse_text file_content = Ok chunks /\ (length chunks <= 1)%nat.
Proof.
  split; [reflexivity|]. split; [reflexivity|].
  intros file_content text Hdec Hocc.
  unfold parse_text. rewrite Hdec. simpl.
  rewrite paragraphs_of_unstructured by exact Hocc.
  destruct (forallb Py_UNICODE_ISSPACE text); eexists; (split; [reflexivity|]); simpl; lia.
Qed.

(* ===================================================================== *)
(** ** The dispatcher *)
(* ===================================================================== *)

Lemma dispatch_extends_refl (P : Task -> Prop) (Q : pystr -> Prop) (s : Dispatch) :
  dispatch_extends P Q s s.
Proof. exists [], []. rewrite !app_nil_r. repeat split; constructor. Qed.

Lemma dispatch_extends_trans (P : Task -> Prop) (Q : pystr -> Prop) (s1 s2 s3 : Dispatch) :
  dispatch_extends P Q s1 s2 -> dispatch_extends P Q s2 s3 -> dispatch_extends P Q s1 s3.
Proof.
  intros (t1 & f1 & Hs1 & Hf1 & HP1 & HQ1) (t2 & f2 & Hs2 & Hf2 & HP2 & HQ2).
  exists (t1 ++ t2), (f1 ++ f2).
  rewrite Hs2, Hs1, Hf2, Hf1, !app_assoc.
  repeat split; apply Forall_app; split; assumption.
Qed.

Lemma dispatch_extends_weaken (P P' : Task -> Prop) (Q Q' : pystr -> Prop) (s s' : Dispatch) :
  (forall t, P t -> P' t) -> (forall k, Q k -> Q' k) ->
  dispatch_extends P Q s s' -> dispatch_extends P' Q' s s'.
Proof.
  intros HP HQ (t & f & Hs & Hf & Ht & Hk). exists t, f.
  repeat split; try assumption.
  - eapply Forall_impl; [exact Ht | exact HP].
  - eapply Forall_impl; [exact Hk | exact HQ].
Qed.

(** A stored point with the document's id makes the existence check succeed. *)
Lemma scroll_finds_indexed (c : Collection) (doc_id : pystr) :
  indexed c doc_id -> fst (scroll c doc_id 1) <> [].
Proof.
  intros (id & p & d & Hlook & Hpay & Hdoc).
  assert (Hin : In (id, p)
            (List.filter (fun kv => doc_id_matches doc_id (snd kv)) (map_to_list c))).
  { apply filter_In. split.
    - apply list_elem_of_In, elem_of_map_to_list, Hlook.
    - simpl. unfold doc_id_matches. rewrite Hpay, Hdoc. apply str_eqb_refl. }
  unfold scroll. simpl.
  destruct (List.filter _ (map_to_list c)) as [|kv l]; [destruct Hin | discriminate].
Qed.

(** And only such a point does. *)
Lemma scroll_found_indexed (c : Collection) (doc_id : pystr) :
  fst (scroll c doc_id 1) <> [] -> indexed c doc_id.
Proof.
  unfold scroll. simpl.
  destruct (List.filter _ (map_to_list c)) as [|[id p] l] eqn:E; [intros Hne; destruct Hne; reflexivity|].
  intros _.
  assert (Hin : In (id, p)
            (List.filter (fun kv => doc_id_matches doc_id (snd kv)) (map_to_list c))).
  { rewrite E. left. reflexivity. }
  apply filter_In in Hin as [Hin Hm]. simpl in Hm.
  apply list_elem_of_In, elem_of_map_to_list in Hin.
  unfold doc_id_matches in Hm.
  destruct (payload p) as [d|] eqn:Hpay; [|discriminate].
  destruct (dict_get d (py "doc_id")) as [[| | | |s| |]|] eqn:Hdoc; try discriminate.
  apply str_eqb_eq in Hm. subst s.
  exists id, p, d. repeat split; assumption.
Qed.

Section DispatcherFacts.
Context `{S3Client} `{Uuid}.

(** The inner loop sends one task per paragraph, all for [doc_id], draws one
    identifier each, downloads nothing and does not raise. *)
Lemma send_loop_spec (doc_id : pystr) (paragraphs : list pystr) (s : Dispatch) :
  exists s',
    for_each paragraphs (fun text =>
      bind fresh_uuid (fun chunk_id =>
        send_task "embed_app.store_chunk_content" doc_id chunk_id text
                  "chunk_content_queue")) s = (Ok tt, s')
    /\ sent s' = sent s ++
         imap (fun i text =>
                 {| task_name := "embed_app.store_chunk_content";
                    task_doc_id := doc_id;
                    task_chunk_id := uuid4 (drawn s + i);
                    task_text := text;
                    task_queue := "chunk_content_queue" |}) paragraphs
    /\ fetched s' = fetched s
    /\ drawn s' = drawn s + length paragraphs.
Proof.
  revert s. induction paragraphs as [|text ps IH]; intros s.
  - exists s. simpl. rewrite app_nil_r, Nat.add_0_r. repeat split; reflexivity.
  - cbn [for_each]. unfold bind at 1. unfold bind at 1. unfold fresh_uuid at 1.
    unfold send_task at 1, modify.
    match goal with |- context [for_each ps ?b ?st] => destruct (IH st) as (s' & Hrun & Hs & Hf & Hd) end.
    exists s'. split; [exact Hrun|]. simpl in Hs, Hf, Hd.
    rewrite Hs, Hf, Hd. cbn [imap length]. rewrite Nat.add_0_r, <- app_assoc. simpl.
    repeat split; try lia.
    do 2 f_equal. apply imap_ext. intros i x _. simpl. do 2 f_equal. lia.
Qed.

Lemma imap_Forall_doc_id (doc_id : pystr) (f : nat -> pystr) (ps : list pystr) :
  Forall (fun t => task_doc_id t = doc_id)
    (imap (fun i text =>
             {| task_name := "embed_app.store_chunk_content";
                task_doc_id := doc_id;
                task_chunk_id := f i;
                task_text := text;
                task_queue := "chunk_content_queue" |}) ps).
Proof.
  revert f. induction ps as [|p ps IH]; intros f; cbn [imap]; constructor.
  - reflexivity.
  - apply (IH (fun i => f (S i))).
Qed.

(** One candidate: whatever happens, the tasks sent are for the candidate's
    own [doc_id], and the only object downloaded is the candidate's; an
    indexed candidate sends and downloads nothing. *)
Lemma process_key_extends (c : Collection) (bucket key : pystr) (s : Dispatch) :
  dispatch_extends
    (fun t => task_doc_id t = fst (splitext key) /\ ~ indexed c (fst (splitext key)))
    (fun k => k = key /\ ~ indexed c (fst (splitext key)))
    s (snd (process_key c bucket key s)).
Proof.
  unfold process_key.
  destruct (fst (scroll c (fst (splitext key)) 1)) as [|hit hits] eqn:Hscroll.
  - assert (Hnot : ~ indexed c (fst (splitext key))).
    { intros Hidx. apply scroll_finds_indexed in Hidx. congruence. }
    unfold bind at 1. unfold fetch at 1.
    set (s1 := {| sent := sent s; fetched := fetched s ++ [key]; drawn := drawn s |}).
    assert (Hs1 : dispatch_extends
              (fun t => task_doc_id t = fst (splitext key) /\ ~ indexed c (fst (splitext key)))
              (fun k => k = key /\ ~ indexed c (fst (splitext key))) s s1).
    { exists [], [key]. simpl. rewrite app_nil_r. repeat split; repeat constructor; assumption. }
    destruct (get_object bucket key) as [content|e]; [|exact Hs1].
    unfold bind at 1. unfold lift at 1.
    destruct (parse_text content) as [ps|e]; [|exact Hs1].
    destruct (send_loop_spec (fst (splitext key)) ps s1) as (s' & Hrun & Hs & Hf & _).
    rewrite Hrun. simpl.
    eapply dispatch_extends_trans; [exact Hs1|].
    eexists. exists []. split; [exact Hs|]. split; [rewrite app_nil_r; exact Hf|].
    split; [|constructor].
    eapply Forall_impl; [apply imap_Forall_doc_id|].
    intros t Ht. split; assumption.
  - simpl. apply dispatch_extends_refl.
Qed.

Lemma for_each_extends {A} (P : Task -> Prop) (Q : pystr -> Prop)
    (body : A -> M Dispatch unit) (l : list A) (s : Dispatch) :
  (forall x s0, In x l -> dispatch_extends P Q s0 (snd (body x s0))) ->
  dispatch_extends P Q s (snd (for_each l body s)).
Proof.
  revert s. induction l as [|x l IH]; intros s Hbody.
  - apply dispatch_extends_refl.
  - cbn [for_each]. unfold bind.
    pose proof (Hbody x s (or_introl eq_refl)) as Hx.
    destruct (body x s) as [[[]|e] s1]; simpl in Hx.
    + eapply dispatch_extends_trans; [exact Hx|].
      apply IH. intros y s0 Hy. apply Hbody. right. exact Hy.
    + exact Hx.
Qed.

(** C1. If a point with [payload.doc_id == X] is stored when the dispatcher
    runs, the run sends no task for document [X] and does not download it:
    every task it adds to the queue has another [doc_id], and every key it
    fetches derives another [doc_id]. *)
Theorem process_s3_text_skips_indexed
    (collection : Collection) (bucket_name X : pystr) (s : Dispatch) :
  indexed collection X ->
  dispatch_extends
    (fun t => task_doc_id t <> X)
    (fun key => fst (splitext key) <> X)
    s (snd (process_s3_text collection bucket_name s)).
Proof.
  intros Hidx. unfold process_s3_text, bind at 1, lift at 1.
  destruct (list_objects_v2 bucket_name) as [response|e]; [|apply dispatch_extends_refl].
  apply for_each_extends. intros key s0 _.
  eapply dispatch_extends_weaken; [| |apply process_key_extends].
  - intros t [Ht Hnot] HX. rewrite <- HX, Ht in Hidx. exact (Hnot Hidx).
  - intros k [Hk Hnot] HX. subst k. rewrite HX in Hnot. exact (Hnot Hidx).
Qed.

End DispatcherFacts.

Lemma process_s3_text_skips_indexed_witness :
  dispatch_extends
    (fun t => task_doc_id t <> py "report")
    (fun key => fst (splitext key) <> py "report")
    dispatch0
    (snd (@process_s3_text bucket_two_documents counting_uuid
            report_indexed (py "my-bucket") dispatch0)).
Proof.
  apply (@process_s3_text_skips_indexed bucket_two_documents counting_uuid).
  exists (StrId (py "id-0")), report_point, 
    [(py "doc_id", PyStr (py "report")); (py "text", PyStr (py "Intro paragraph."))].
  split; [apply lookup_singleton_eq|]. split; reflexivity.
Defined.

Example process_s3_text_two_documents :
  @process_s3_text bucket_two_documents counting_uuid report_indexed (py "my-bucket") dispatch0
  = (Ok tt,
     {| sent := [ {| task_name := "embed_app.store_chunk_content";
                     task_doc_id := py "notes";
                     task_chunk_id := py "id-0";
                     task_text := py "Other notes.";
                     task_queue := "chunk_content_queue" |} ];
        fetched := [py "notes.txt"];
        drawn := 1 |}).
Proof. vm_compute. reflexivity. Qed.

Lemma for_each_app {St A} (l1 l2 : list A) (body : A -> M St unit) (s : St) :
  for_each (l1 ++ l2) body s =
    match for_each l1 body s with
    | (Ok _, s1) => for_each l2 body s1
    | (Err e, s1) => (Err e, s1)
    end.
Proof.
  revert s. induction l1 as [|x l1 IH]; intros s; [reflexivity|].
  simpl. unfold bind. destruct (body x s) as [[[]|e] s1]; [apply IH | reflexivity].
Qed.

Section DispatcherFailure.
Context `{S3Client} `{Uuid}.

(** C3, as the code has it. The loop has no handler of its own: when
    fetching or chunking a candidate fails, the exception leaves the loop and
    is the outcome of the run. The tasks sent for the candidates before it
    stay sent, the failing object is the last one downloaded, and none of the
    candidates after it is looked at. *)
Theorem process_s3_text_aborts_on_failure
    (collection : Collection) (bucket_name : pystr) (contents : option (list pystr))
    (before after : list pystr) (key : pystr) (s s1 : Dispatch) (e : PyExc) :
  list_objects_v2 bucket_name = Ok contents ->
  text_files_of contents = before ++ key :: after ->
  for_each before (process_key collection bucket_name) s = (Ok tt, s1) ->
  ~ indexed collection (fst (splitext key)) ->
  (get_object bucket_name key = Err e
   \/ exists content, get_object bucket_name key = Ok content
                      /\ parse_text content = Err e) ->
  process_s3_text collection bucket_name s
  = (Err e, {| sent := sent s1; fetched := fetched s1 ++ [key]; drawn := drawn s1 |}).
Proof.
  intros Hlist Hfiles Hbefore Hnot Hfail.
  unfold process_s3_text, bind at 1, lift at 1. rewrite Hlist, Hfiles.
  rewrite for_each_app, Hbefore. cbn [for_each]. unfold bind at 1.
  assert (Hkey : process_key collection bucket_name key s1
                 = (Err e, {| sent := sent s1; fetched := fetched s1 ++ [key];
                              drawn := drawn s1 |})).
  { unfold process_key.
    destruct (fst (scroll collection (fst (splitext key)) 1)) as [|hit hits] eqn:Hscroll.
    - unfold bind at 1, fetch at 1.
      destruct Hfail as [Hget | (content & Hget & Hparse)]; rewrite Hget; [reflexivity|].
      unfold bind at 1, lift at 1. rewrite Hparse. reflexivity.
    - exfalso. apply Hnot, scroll_found_indexed. rewrite Hscroll. discriminate. }
  rewrite Hkey. reflexivity.
Qed.

End DispatcherFailure.

Lemma process_s3_text_aborts_on_failure_witness :
  @process_s3_text bucket_broken_first counting_uuid ∅ (py "my-bucket") dispatch0
  = (Err (UnicodeDecodeError LibraryMsg),
     {| sent := []; fetched := [py "broken.txt"]; drawn := 0 |}).
Proof.
  apply (@process_s3_text_aborts_on_failure bucket_broken_first counting_uuid
           ∅ (py "my-bucket") (Some [py "broken.txt"; py "report.txt"])
           [] [py "report.txt"] (py "broken.txt") dispatch0 dispatch0).
  - reflexivity.
  - reflexivity.
  - reflexivity.
  - intros (id & p & d & Hlook & _). rewrite lookup_empty in Hlook. discriminate.
  - right. exists [xff]. split; reflexivity.
Defined.

(** C3, as the specification words it, fails. With an empty collection and
    the listing [broken.txt; report.txt], chunking [broken.txt] fails;
    [report.txt] can be fetched and chunks into two paragraphs, and alone in
    the bucket it gets its two tasks; yet the run over both raises and sends
    nothing, and [report.txt] is never downloaded. *)
Lemma process_s3_text_failure_not_isolated :
  @get_object bucket_broken_first (py "my-bucket") (py "broken.txt") = Ok [xff]
  /\ parse_text [xff] = Err (UnicodeDecodeError LibraryMsg)
  /\ @get_object bucket_broken_first (py "my-bucket") (py "report.txt") = Ok report_bytes
  /\ parse_text report_bytes = Ok [py "Intro paragraph."; py "Second paragraph."]
  /\ List.map task_doc_id
       (sent (snd (@process_s3_text bucket_report_only counting_uuid ∅
                     (py "my-bucket") dispatch0)))
     = [py "report"; py "report"]
  /\ @process_s3_text bucket_broken_first counting_uuid ∅ (py "my-bucket") dispatch0
     = (Err (UnicodeDecodeError LibraryMsg),
        {| sent := []; fetched := [py "broken.txt"]; drawn := 0 |}).
Proof. repeat split; vm_compute; reflexivity. Qed.

(* ===================================================================== *)
(** ** The collection *)
(* ===================================================================== *)

Lemma filter_key_absent {V} (l : list (PointId * V)) (id : PointId) :
  id ∉ l.*1 -> filter (fun kv => fst kv = id) l = [].
Proof.
  induction l as [|[k v] l IH]; intros Hnot; [reflexivity|].
  rewrite fmap_cons in Hnot. apply not_elem_of_cons in Hnot as [Hne Hnot].
  rewrite filter_cons_False by (intros E; apply Hne; symmetry; exact E). apply IH, Hnot.
Qed.

Lemma filter_key_unique {V} (l : list (PointId * V)) (id : PointId) (v : V) :
  NoDup l.*1 -> (id, v) ∈ l -> filter (fun kv => fst kv = id) l = [(id, v)].
Proof.
  induction l as [|[k x] l IH]; intros Hnd Hin; [inversion Hin|].
  rewrite fmap_cons in Hnd. apply NoDup_cons in Hnd as [Hk Hnd].
  apply elem_of_cons in Hin as [Heq | Hin].
  - inversion Heq; subst k x.
    rewrite filter_cons_True by reflexivity.
    rewrite (filter_key_absent l id Hk). reflexivity.
  - assert (k <> id).
    { intros ->. apply Hk. apply (list_elem_of_fmap_2 fst) in Hin. exact Hin. }
    rewrite filter_cons_False by (intros E; simpl in E; contradiction). apply IH; assumption.
Qed.

(** A stored point is the only one under its id. *)
Lemma points_under_lookup (c : Collection) (id : PointId) (p : Point) :
  c !! id = Some p -> points_under c id = [(id, p)].
Proof.
  intros Hlook. unfold points_under. apply filter_key_unique.
  - apply NoDup_fst_map_to_list.
  - apply elem_of_map_to_list, Hlook.
Qed.

Lemma upsert_lookup (c : Collection) (id : PointId) (p : Point) :
  upsert c id p !! id = Some p.
Proof. apply lookup_insert_eq. Qed.

Lemma upsert_upsert (c : Collection) (id : PointId) (p1 p2 : Point) :
  upsert (upsert c id p1) id p2 = upsert c id p2.
Proof. apply insert_insert_eq. Qed.

Lemma upsert_size_same (c : Collection) (id : PointId) (p1 p2 : Point) :
  size (upsert (upsert c id p1) id p2) = size (upsert c id p1).
Proof. apply map_size_insert_Some. exists p1. apply upsert_lookup. Qed.

(* ===================================================================== *)
(** ** The worker *)
(* ===================================================================== *)

Lemma new_calls_app (w : World) (c : Collection) (cs : list Call) :
  new_calls w {| qdrant := c; calls := calls w ++ cs |} = cs.
Proof. unfold new_calls. simpl. apply drop_app_length. Qed.

Lemma new_calls_same (w : World) : new_calls w w = [].
Proof. unfold new_calls. apply drop_all. Qed.

Section WorkerFacts.
Context `{TextEmbedding} `{QdrantWrites}.

(** The outcomes of the worker, case by case. *)
Lemma store_pdf_content_no_len (doc_id chunk_id text : PyVal) (w : World) (e : PyExc) :
  py_len text = Err e -> store_pdf_content doc_id chunk_id text w = (Err e, w).
Proof. intros Hlen. unfold store_pdf_content, bind, lift. rewrite Hlen. reflexivity. Qed.

Lemma store_pdf_content_bad_doc_id (doc_id chunk_id text : PyVal) (w : World) (n : nat) :
  py_len text = Ok n -> is_str doc_id = false ->
  store_pdf_content doc_id chunk_id text w
  = (Err (ValueError (Msg ("doc_id must be a string, got " ++ type_repr doc_id))), w).
Proof.
  intros Hlen Hdoc. unfold store_pdf_content, bind at 1, lift.
  rewrite Hlen, Hdoc. reflexivity.
Qed.

Lemma store_pdf_content_bad_chunk_id (doc_id chunk_id text : PyVal) (w : World) (n : nat) :
  py_len text = Ok n -> is_str doc_id = true -> is_str chunk_id = false ->
  store_pdf_content doc_id chunk_id text w
  = (Err (ValueError (Msg ("chunk_id must be a string, got " ++ type_repr chunk_id))), w).
Proof.
  intros Hlen Hdoc Hchunk. unfold store_pdf_content, bind at 1, lift.
  rewrite Hlen, Hdoc. destruct chunk_id; try reflexivity. discriminate.
Qed.

Lemma store_pdf_content_valid (doc_id text : PyVal) (cid : pystr) (w : World) (n : nat) :
  py_len text = Ok n -> is_str doc_id = true ->
  store_pdf_content doc_id (PyStr cid) text w =
    match embed text with
    | Err e => (Err e, log_call (EmbedCall text) w)
    | Ok v =>
        if (length v =? DIMENSION)%nat then
          match upsert_outcome (StrId cid) (point_of doc_id text v) with
          | None =>
              (Ok tt, {| qdrant := upsert (qdrant w) (StrId cid) (point_of doc_id text v);
                         calls := calls w ++ [EmbedCall text;
                                              UpsertCall (StrId cid) (point_of doc_id text v)] |})
          | Some e =>
              (Err e, {| qdrant := qdrant w;
                         calls := calls w ++ [EmbedCall text;
                                              UpsertCall (StrId cid) (point_of doc_id text v)] |})
          end
        else
          (Err (ValueError (Msg ("Embedding vector length " ++ pretty (length v)
                                 ++ " does not match expected 384"))),
           log_call (EmbedCall text) w)
    end.
Proof.
  intros Hlen Hdoc. unfold store_pdf_content, bind at 1, lift.
  rewrite Hlen, Hdoc. simpl. unfold bind, call_embed.
  destruct (embed text) as [v|e]; [|reflexivity].
  destruct (length v =? DIMENSION)%nat; simpl; [|reflexivity].
  unfold call_upsert, log_call, point_of. simpl.
  destruct (upsert_outcome _ _); simpl; rewrite <- app_assoc; reflexivity.
Qed.

End WorkerFacts.

Section WorkerClaims.
Context `{TextEmbedding} `{QdrantWrites}.

(** Either the worker stops at its first lines, having called nothing, or
    the task passed the checks on its arguments. *)
Lemma store_pdf_content_cases (doc_id chunk_id text : PyVal) (w : World) :
  (exists e, store_pdf_content doc_id chunk_id text w = (Err e, w)
             /\ (py_len text = Err e
                 \/ exists n, py_len text = Ok n
                      /\ e = ValueError (Msg (if is_str doc_id
                             then "chunk_id must be a string, got " ++ type_repr chunk_id
                             else "doc_id must be a string, got " ++ type_repr doc_id))
                      /\ (is_str doc_id = false \/ is_str chunk_id = false)))
  \/ (exists cid n, chunk_id = PyStr cid /\ py_len text = Ok n /\ is_str doc_id = true).
Proof.
  destruct (py_len text) as [n|e] eqn:Hlen.
  - destruct (is_str doc_id) eqn:Hdoc.
    + destruct (is_str chunk_id) eqn:Hchunk.
      * right. destruct chunk_id; try discriminate. eauto.
      * left. eexists. split; [eapply store_pdf_content_bad_chunk_id; eassumption|].
        right. exists n. auto.
    + left. eexists. split; [eapply store_pdf_content_bad_doc_id; eassumption|].
      right. exists n. auto.
  - left. exists e. split; [apply store_pdf_content_no_len, Hlen | left; reflexivity].
Qed.

(** C2. When the vector the model returns for the task's text does not have
    the collection's dimension (384), the task fails, the collection is left
    as it was and no upsert is issued; if the arguments passed the checks the
    failure is the ValueError that reports the length. Conversely the
    collection changes, or an upsert is issued, only if the length is 384. *)
Theorem store_pdf_content_dimension_guard
    (doc_id chunk_id text : PyVal) (w : World) (v : list pyfloat) :
  embed text = Ok v ->
  let run := store_pdf_content doc_id chunk_id text w in
  (length v <> DIMENSION ->
     is_err (fst run) = true
     /\ qdrant (snd run) = qdrant w
     /\ List.filter is_upsert (new_calls w (snd run)) = []
     /\ (forall n cid, py_len text = Ok n -> is_str doc_id = true -> chunk_id = PyStr cid ->
           fst run = Err (ValueError (Msg ("Embedding vector length " ++ pretty (length v)
                                           ++ " does not match expected 384")))))
  /\ (qdrant (snd run) <> qdrant w \/ List.filter is_upsert (new_calls w (snd run)) <> [] ->
      length v = DIMENSION).
Proof.
  intros Hembed run.
  destruct (store_pdf_content_cases doc_id chunk_id text w)
    as [(e & Hrun & Hwhy) | (cid & n & -> & Hlen & Hdoc)].
  - subst run. rewrite Hrun. simpl. rewrite new_calls_same. split.
    + intros _. repeat split.
      intros n cid Hlen Hdoc ->.
      destruct Hwhy as [He | (n' & _ & _ & [Hd | Hc])]; [congruence | congruence | discriminate].
    + intros [Hq | Hc]; contradiction.
  - subst run. rewrite (store_pdf_content_valid _ _ _ _ _ Hlen Hdoc), Hembed.
    destruct (length v =? DIMENSION)%nat eqn:Hdim.
    + apply Nat.eqb_eq in Hdim. split.
      * intros Hne. destruct (Hne Hdim).
      * intros _. exact Hdim.
    + apply Nat.eqb_neq in Hdim. simpl. unfold log_call. rewrite new_calls_app. simpl.
      split.
      * intros _. repeat split.
      * intros [Hq | Hc]; contradiction.
Qed.

(** C4, as the code has it. A [doc_id] or [chunk_id] that is not a string
    makes the task fail before the model or the collection is touched: the
    world is unchanged; when [len(text)] is defined, the failure is the
    ValueError naming the first offending argument. An empty string is a
    string and passes this check. *)
Theorem store_pdf_content_rejects_non_strings
    (doc_id chunk_id text : PyVal) (w : World) :
  is_str doc_id = false \/ is_str chunk_id = false ->
  let run := store_pdf_content doc_id chunk_id text w in
  is_err (fst run) = true
  /\ snd run = w
  /\ (forall n, py_len text = Ok n ->
        fst run = Err (ValueError (Msg (if is_str doc_id
                     then "chunk_id must be a string, got " ++ type_repr chunk_id
                     else "doc_id must be a string, got " ++ type_repr doc_id)))).
Proof.
  intros Hbad run.
  destruct (store_pdf_content_cases doc_id chunk_id text w)
    as [(e & Hrun & Hwhy) | (cid & n & -> & Hlen & Hdoc)].
  - subst run. rewrite Hrun. simpl. repeat split.
    intros n Hlen. destruct Hwhy as [He | (n' & _ & -> & _)]; [congruence | reflexivity].
  - destruct Hbad as [Hd | Hc]; [congruence | discriminate].
Qed.

(** C7. Two successful runs of the worker for the same [chunk_id], the
    second possibly with another text or document: afterwards exactly one
    point is stored under that id, it carries the second run's vector and
    payload, the collection has not grown with the second run and no trace of
    the first write is left; and when the second task is the first one
    replayed, the collection is the same as after the first run. *)
Theorem store_pdf_content_last_write_wins
    (doc_id doc_id' chunk_id text text' : PyVal) (w w1 w2 : World) :
  store_pdf_content doc_id chunk_id text w = (Ok tt, w1) ->
  store_pdf_content doc_id' chunk_id text' w1 = (Ok tt, w2) ->
  exists cid v',
    chunk_id = PyStr cid
    /\ embed text' = Ok v'
    /\ points_under (qdrant w2) (StrId cid) = [(StrId cid, point_of doc_id' text' v')]
    /\ size (qdrant w2) = size (qdrant w1)
    /\ qdrant w2 = upsert (qdrant w) (StrId cid) (point_of doc_id' text' v')
    /\ (doc_id' = doc_id -> text' = text -> qdrant w2 = qdrant w1).
Proof.
  intros Hrun1 Hrun2.
  destruct (store_pdf_content_cases doc_id chunk_id text w)
    as [(e & Hrun & _) | (cid & n & -> & Hlen & Hdoc)]; [congruence|].
  destruct (store_pdf_content_cases doc_id' (PyStr cid) text' w1)
    as [(e & Hrun & _) | (cid' & n' & Hcid & Hlen' & Hdoc')]; [congruence|].
  rewrite (store_pdf_content_valid _ _ _ _ _ Hlen Hdoc) in Hrun1.
  rewrite (store_pdf_content_valid _ _ _ _ _ Hlen' Hdoc') in Hrun2.
  destruct (embed text) as [v|e] eqn:Hv; [|discriminate].
  destruct (embed text') as [v'|e] eqn:Hv'; [|discriminate].
  destruct (length v =? DIMENSION)%nat; [|discriminate].
  destruct (length v' =? DIMENSION)%nat; [|discriminate].
  destruct (upsert_outcome (StrId cid) (point_of doc_id text v)); [discriminate|].
  destruct (upsert_outcome (StrId cid) (point_of doc_id' text' v')); [discriminate|].
  injection Hrun1 as <-. injection Hrun2 as <-. simpl.
  exists cid, v'. split; [reflexivity|]. split; [reflexivity|].
  split; [apply points_under_lookup, upsert_lookup|].
  split; [apply upsert_size_same|].
  split; [apply upsert_upsert|].
  intros -> ->. rewrite Hv in Hv'. injection Hv' as <-.
  rewrite upsert_upsert. reflexivity.
Qed.

End WorkerClaims.

Lemma store_pdf_content_dimension_guard_witness :
  let run := @store_pdf_content embedding_3 accepting_store (PyStr (py "report")) (PyStr (py "id-0"))
               (PyStr (py "Intro paragraph.")) world0 in
  fst run = Err (ValueError (Msg "Embedding vector length 3 does not match expected 384"))
  /\ qdrant (snd run) = ∅
  /\ List.filter is_upsert (new_calls world0 (snd run)) = [].
Proof.
  destruct (@store_pdf_content_dimension_guard embedding_3 accepting_store
              (PyStr (py "report")) (PyStr (py "id-0")) (PyStr (py "Intro paragraph."))
              world0 (zeros 3) eq_refl) as [Hreject _].
  destruct Hreject as (_ & Hq & Hc & Hmsg); [vm_compute; lia|].
  split; [|split; assumption].
  exact (Hmsg _ _ eq_refl eq_refl eq_refl).
Defined.

Lemma store_pdf_content_rejects_non_strings_witness :
  let run := @store_pdf_content embedding_384 accepting_store (PyInt 7) (PyStr (py "id-0"))
               (PyStr (py "Intro paragraph.")) world0 in
  is_err (fst run) = true
  /\ snd run = world0
  /\ fst run = Err (ValueError (Msg "doc_id must be a string, got <class 'int'>")).
Proof.
  destruct (@store_pdf_content_rejects_non_strings embedding_384 accepting_store
              (PyInt 7) (PyStr (py "id-0")) (PyStr (py "Intro paragraph.")) world0
              (or_introl eq_refl)) as (He & Hw & Hmsg).
  split; [exact He|]. split; [exact Hw|]. exact (Hmsg _ eq_refl).
Defined.

(** C4, as the specification words it, fails: a task whose [doc_id] is the
    empty string is not rejected. The model is called and, Qdrant accepting
    the write, the point is written, with the empty [doc_id] in its payload. *)
Lemma store_pdf_content_accepts_empty_doc_id :
  let run := @store_pdf_content embedding_384 accepting_store (PyStr []) (PyStr (py "id-0"))
               (PyStr (py "Intro paragraph.")) world0 in
  fst run = Ok tt
  /\ calls (snd run)
     = [EmbedCall (PyStr (py "Intro paragraph."));
        UpsertCall (StrId (py "id-0"))
          (point_of (PyStr []) (PyStr (py "Intro paragraph.")) (zeros 384))]
  /\ qdrant (snd run) !! StrId (py "id-0")
     = Some (point_of (PyStr []) (PyStr (py "Intro paragraph.")) (zeros 384)).
Proof.
  split; [vm_compute; reflexivity|]. split; [vm_compute; reflexivity|].
  apply upsert_lookup.
Qed.

Lemma store_pdf_content_last_write_wins_witness :
  points_under (qdrant world_second_write) (StrId (py "id-0"))
    = [(StrId (py "id-0"),
        point_of (PyStr (py "report")) (PyStr (py "Changed paragraph.")) (zeros 384))]
  /\ size (qdrant world_second_write) = size (qdrant world_first_write)
  /\ qdrant world_replayed = qdrant world_first_write.
Proof.
  destruct (@store_pdf_content_last_write_wins embedding_384 accepting_store
              (PyStr (py "report")) (PyStr (py "report")) (PyStr (py "id-0"))
              (PyStr (py "Intro paragraph.")) (PyStr (py "Changed paragraph."))
              world0 world_first_write world_second_write eq_refl eq_refl)
    as (cid & v' & Hcid & Hv & Hunder & Hsize & _).
  destruct (@store_pdf_content_last_write_wins embedding_384 accepting_store
              (PyStr (py "report")) (PyStr (py "report")) (PyStr (py "id-0"))
              (PyStr (py "Intro paragraph.")) (PyStr (py "Intro paragraph."))
              world0 world_first_write world_replayed eq_refl eq_refl)
    as (_ & _ & _ & _ & _ & _ & _ & Hreplay).
  injection Hcid as <-. injection Hv as <-.
  split; [exact Hunder|]. split; [exact Hsize|]. exact (Hreplay eq_refl eq_refl).
Defined.

(* ===================================================================== *)
(** ** [int()] against the language's rules *)
(* ===================================================================== *)

Lemma int_skip_app_space (ws s : pystr) :
  forallb int_space ws = true -> int_skip (ws ++ s) = int_skip s.
Proof.
  induction ws as [|c ws IH]; [reflexivity|].
  cbn [forallb app int_skip]. intros Hws.
  apply andb_true_iff in Hws as [Hc Hws]. rewrite Hc. exact (IH Hws).
Qed.

Lemma int_skip_all_space (ws : pystr) :
  forallb int_space ws = true -> int_skip ws = [].
Proof.
  intros Hws. rewrite <- (app_nil_r ws). rewrite int_skip_app_space by exact Hws.
  reflexivity.
Qed.

(** Whitespace around a text that neither starts nor ends with whitespace
    is what [int()] skips. *)
Lemma int_body_trim (ws1 b ws2 : pystr) (c1 c2 : N) (b1 b2 : pystr) :
  forallb int_space ws1 = true -> forallb int_space ws2 = true ->
  b = c1 :: b1 -> int_space c1 = false ->
  b = b2 ++ [c2] -> int_space c2 = false ->
  int_body (ws1 ++ b ++ ws2) = b.
Proof.
  intros Hws1 Hws2 Hhead Hc1 Hlast Hc2. unfold int_body.
  rewrite int_skip_app_space by exact Hws1.
  assert (E1 : int_skip (b ++ ws2) = b ++ ws2).
  { rewrite Hhead. cbn [app int_skip]. rewrite Hc1. reflexivity. }
  rewrite E1, rev_app_distr.
  rewrite int_skip_app_space by (rewrite forallb_rev; exact Hws2).
  assert (E2 : int_skip (rev b) = rev b).
  { rewrite Hlast, rev_app_distr. cbn [rev app int_skip]. rewrite Hc2. reflexivity. }
  rewrite E2. apply rev_involutive.
Qed.

Lemma in_int_skip (c : N) (s : pystr) :
  In c s -> int_space c = false -> In c (int_skip s).
Proof.
  intros Hin Hc. induction s as [|x s IH]; [destruct Hin|].
  cbn [int_skip]. destruct (int_space x) eqn:Hx; [|exact Hin].
  destruct Hin as [-> | Hin]; [congruence | exact (IH Hin)].
Qed.

Lemma in_int_body (c : N) (s : pystr) :
  In c s -> int_space c = false -> In c (int_body s).
Proof.
  intros Hin Hc. unfold int_body.
  apply in_rev. rewrite rev_involutive.
  apply in_int_skip; [|exact Hc].
  apply in_rev. rewrite rev_involutive.
  apply in_int_skip; assumption.
Qed.

(** The sign of a number's text. *)
Lemma sign_split_cases (body : pystr) :
  let split := match body with
               | 45%N :: r => (true, r)
               | 43%N :: r => (false, r)
               | _ => (false, body)
               end in
  (exists r, body = 45%N :: r /\ split = (true, r))
  \/ (exists r, body = 43%N :: r /\ split = (false, r))
  \/ (split = (false, body)
      /\ forall c r, body = c :: r -> c <> 45%N /\ c <> 43%N).
Proof.
  cbv zeta. destruct body as [|x r].
  - right. right. split; [reflexivity | discriminate].
  - destruct x as [|p].
    + right. right. split; [reflexivity|]. intros c r0 [= <- _]. split; discriminate.
    + do 6 (destruct p as [p|p|];
            try (right; right; split; [reflexivity|];
                 intros c r0 [= <- _]; split; discriminate)).
      * right. left. exists r. split; reflexivity.
      * left. exists r. split; reflexivity.
Qed.

Lemma ascii_digit_facts (c : N) :
  (N.leb 48 c && N.leb c 57)%bool = true ->
  int_space c = false /\ ascii_todecimal c = Some (Z.of_N (c - 48))
  /\ N.ltb c 127 = true /\ N.eqb c 95 = false /\ c <> 45%N /\ c <> 43%N.
Proof.
  intros Hc. unfold ascii_todecimal, int_space. rewrite Hc.
  apply andb_true_iff in Hc as [H1 H2]. apply N.leb_le in H1, H2.
  assert (E : N.ltb c 127 = true) by (apply N.ltb_lt; lia). rewrite E.
  assert (E13 : N.leb c 13 = false) by (apply N.leb_gt; lia). rewrite E13.
  assert (E32 : N.eqb c 32 = false) by (apply N.eqb_neq; lia). rewrite E32.
  rewrite andb_false_r.
  repeat split; try lia. apply N.eqb_neq. lia.
Qed.

Section IntFacts.
Context `{Interpreter}.

Lemma int_digits_ascii (ds : pystr) (acc : Z) (prev : bool) (n : nat) :
  forallb (fun c => N.leb 48 c && N.leb c 57) ds = true ->
  ds <> [] \/ prev = true ->
  int_digits ds acc prev n
  = Some (fold_left (fun a c => (10 * a + Z.of_N (c - 48))%Z) ds acc, n + length ds).
Proof.
  revert acc prev n. induction ds as [|c ds IH]; intros acc prev n Hds Hne.
  - destruct Hne as [Hne | ->]; [congruence|].
    cbn [int_digits fold_left length]. rewrite Nat.add_0_r. reflexivity.
  - cbn [forallb] in Hds. apply andb_true_iff in Hds as [Hc Hds].
    destruct (ascii_digit_facts c Hc) as (_ & Hd & Hlt & H95 & _).
    cbn [int_digits fold_left length]. rewrite H95. unfold digit_value.
    rewrite Hlt, Hd. rewrite (IH _ true (S n) Hds (or_intror eq_refl)).
    rewrite Nat.add_succ_r. reflexivity.
Qed.

Lemma int_digits_bad (c : N) (ds : pystr) (acc : Z) (prev : bool) (n : nat) :
  In c ds -> c <> 95%N -> digit_value c = None ->
  int_digits ds acc prev n = None.
Proof.
  intros Hin H95 Hd. revert acc prev n.
  induction ds as [|x ds IH]; intros acc prev n; [destruct Hin|].
  cbn [int_digits]. destruct (N.eqb_spec x 95) as [Ex | Ex].
  - destruct prev; [|reflexivity]. apply IH.
    destruct Hin as [E | Hin]; [congruence | exact Hin].
  - destruct (digit_value x) as [d|] eqn:Hx; [|reflexivity]. apply IH.
    destruct Hin as [E | Hin]; [congruence | exact Hin].
Qed.

Lemma int_of_float_truncates (s : bool) (m : positive) (e : Z) :
  int_of_float (S754_finite s m e)
  = Ok (Z.quot ((if s then -1 else 1) * Z.pos m * 2 ^ Z.max e 0)
               (2 ^ Z.max (- e) 0))%Z.
Proof.
  unfold int_of_float. f_equal. destruct (Z.leb_spec 0 e) as [He | He].
  - rewrite (Z.max_l e 0), (Z.max_r (- e) 0) by lia.
    rewrite Z.pow_0_r, Z.quot_1_r, Z.shiftl_mul_pow2 by lia.
    destruct s; lia.
  - rewrite (Z.max_r e 0), (Z.max_l (- e) 0) by lia.
    rewrite Z.pow_0_r, Z.mul_1_r, Z.shiftr_div_pow2 by lia.
    assert (Hpow : (0 < 2 ^ (- e))%Z) by (apply Z.pow_pos_nonneg; lia).
    destruct s.
    + replace (-1 * Z.pos m)%Z with (- Z.pos m)%Z by lia.
      rewrite Z.quot_opp_l by lia. rewrite Z.quot_div_nonneg by lia. reflexivity.
    + rewrite Z.mul_1_l. rewrite Z.quot_div_nonneg by lia. reflexivity.
Qed.

Lemma int_of_str_decimal (ws1 sign ds ws2 : pystr) :
  forallb int_space ws1 = true -> forallb int_space ws2 = true ->
  sign = [] \/ sign = [43%N] \/ sign = [45%N] ->
  ascii_digits ds = true ->
  (forall cap, int_max_str_digits = Some cap -> length ds <= cap) ->
  int_of_str (ws1 ++ sign ++ ds ++ ws2)
  = Ok (if str_eqb sign [45%N] then - decimal_value ds else decimal_value ds)%Z.
Proof.
  intros Hws1 Hws2 Hsign Hds Hcap.
  unfold ascii_digits in Hds. apply andb_true_iff in Hds as [Hne Hds].
  assert (Hne' : ds <> []) by (intros ->; discriminate).
  destruct (exists_last Hne') as (ds' & c2 & Hlast).
  assert (Hc2 : (N.leb 48 c2 && N.leb c2 57)%bool = true).
  { rewrite forallb_forall in Hds. apply Hds. rewrite Hlast.
    apply in_or_app. right. left. reflexivity. }
  destruct ds as [|c1 ds1]; [congruence|].
  assert (Hc1 : (N.leb 48 c1 && N.leb c1 57)%bool = true).
  { cbn [forallb] in Hds. apply andb_true_iff in Hds as [Hc _]. exact Hc. }
  destruct (ascii_digit_facts c1 Hc1) as (Hsp1 & _ & _ & _ & H45 & H43).
  destruct (ascii_digit_facts c2 Hc2) as (Hsp2 & _).
  assert (Hbody : int_body (ws1 ++ sign ++ (c1 :: ds1) ++ ws2) = sign ++ c1 :: ds1).
  { rewrite (app_assoc sign).
    destruct Hsign as [-> | [-> | ->]].
    - apply (int_body_trim ws1 _ ws2 c1 c2 ds1 ds'); auto.
    - apply (int_body_trim ws1 _ ws2 43%N c2 (c1 :: ds1) (43%N :: ds')); auto.
      cbn [app]. rewrite Hlast. reflexivity.
    - apply (int_body_trim ws1 _ ws2 45%N c2 (c1 :: ds1) (45%N :: ds')); auto.
      cbn [app]. rewrite Hlast. reflexivity. }
  unfold int_of_str. rewrite Hbody.
  assert (Hrun : int_digits (c1 :: ds1) 0%Z false 0
                 = Some (decimal_value (c1 :: ds1), length (c1 :: ds1))).
  { rewrite (int_digits_ascii _ _ _ _ Hds (or_introl Hne')). reflexivity. }
  assert (Hlimit : forall z : Z,
            match int_max_str_digits with
            | Some cap => if (cap <? length (c1 :: ds1))%nat
                          then Err (ValueError LibraryMsg) else Ok z
            | None => Ok z
            end = Ok z).
  { intros z. destruct int_max_str_digits as [cap|]; [|reflexivity].
    specialize (Hcap cap eq_refl). apply Nat.ltb_ge in Hcap. rewrite Hcap.
    reflexivity. }
  destruct Hsign as [-> | [-> | ->]]; cbn [app].
  - destruct (sign_split_cases (c1 :: ds1))
      as [(r & [= E _] & _) | [(r & [= E _] & _) | (Hsplit & _)]];
      [congruence | congruence |].
    cbv zeta in Hsplit. rewrite Hsplit, Hrun. apply Hlimit.
  - cbv beta iota zeta. rewrite Hrun. apply Hlimit.
  - cbv beta iota zeta. rewrite Hrun. apply Hlimit.
Qed.

Lemma int_conversion_py_int (t : PyVal) (n : Z) :
  int_conversion t n -> py_int t = Ok n.
Proof.
  intros Hconv. destruct Hconv; cbn [py_int].
  - reflexivity.
  - reflexivity.
  - reflexivity.
  - apply int_of_float_truncates.
  - apply int_of_str_decimal; assumption.
Qed.

Lemma not_convertible_py_int (t : PyVal) :
  not_convertible t -> exists e, py_int t = Err e.
Proof.
  intros Hnc. destruct Hnc as [| l | d | | s | s Hs | s c Hin Hsp H43 H45 H95 Hd];
    cbn [py_int int_of_float]; eauto.
  - unfold int_of_str, int_body.
    rewrite (int_skip_all_space s Hs). cbn [rev int_skip int_digits]. eauto.
  - unfold int_of_str.
    pose proof (in_int_body c s Hin Hsp) as Hbody.
    destruct (sign_split_cases (int_body s))
      as [(r & Hr & Hsplit) | [(r & Hr & Hsplit) | (Hsplit & _)]];
      cbv zeta in Hsplit; rewrite Hsplit.
    + rewrite Hr in Hbody. destruct Hbody as [E | Hbody]; [congruence|].
      rewrite (int_digits_bad c r _ _ _ Hbody H95 Hd). eauto.
    + rewrite Hr in Hbody. destruct Hbody as [E | Hbody]; [congruence|].
      rewrite (int_digits_bad c r _ _ _ Hbody H95 Hd). eauto.
    + rewrite (int_digits_bad c _ _ _ _ Hbody H95 Hd). eauto.
Qed.

End IntFacts.

(* ===================================================================== *)
(** ** The query service *)
(* ===================================================================== *)

Lemma dict_get_some_truthy (d : pydict) (k : pystr) (v : PyVal) :
  dict_get d k = Some v -> truthy (PyDict d) = true.
Proof. destruct d; [discriminate | reflexivity]. Qed.

Lemma dict_get_set_eq (d : pydict) (k : pystr) (v : PyVal) :
  dict_get (dict_set d k v) k = Some v.
Proof.
  induction d as [|[k' v'] d IH]; simpl.
  - rewrite str_eqb_refl. reflexivity.
  - destruct (str_eqb k' k) eqn:E; simpl; rewrite E; [reflexivity | exact IH].
Qed.

Lemma dict_get_set_ne (d : pydict) (k k' : pystr) (v : PyVal) :
  k <> k' -> dict_get (dict_set d k v) k' = dict_get d k'.
Proof.
  intros Hne. induction d as [|[k0 v0] d IH]; simpl.
  - destruct (str_eqb k k') eqn:E; [apply str_eqb_eq in E; contradiction | reflexivity].
  - destruct (str_eqb k0 k) eqn:E; simpl.
    + apply str_eqb_eq in E. subst k0.
      destruct (str_eqb k k') eqn:E'; [apply str_eqb_eq in E'; contradiction | reflexivity].
    + destruct (str_eqb k0 k'); [reflexivity | exact IH].
Qed.

Section QueryFacts.
Context `{Interpreter} `{TextEmbedding} `{QdrantSearch}.

(** The handler on a JSON object that has both fields, step by step. *)
Lemma search_dict (d : pydict) (q t : PyVal) (w : World) :
  dict_get d (py "query_text") = Some q ->
  dict_get d (py "top_n") = Some t ->
  search (Ok (PyDict d)) w =
    match py_int t with
    | Err e => (caught e, w)
    | Ok n =>
        if negb (nonblank_str q) then
          (error_response 400 "query_text must be a non-empty string", w)
        else if (n <=? 0)%Z then
          (error_response 400 "top_n must be a positive integer", w)
        else
          match embed q with
          | Err e => (caught e, log_call (EmbedCall q) w)
          | Ok v =>
              if negb (length v =? DIMENSION)%nat then
                (error_response 500 "Failed to generate valid query embedding",
                 log_call (EmbedCall q) w)
              else
                let w2 := {| qdrant := qdrant w;
                             calls := calls w ++ [EmbedCall q; SearchCall v n] |} in
                match qdrant_search (qdrant w) v n with
                | Err e => (caught e, w2)
                | Ok hits =>
                    match format_results hits with
                    | Err e => (caught e, w2)
                    | Ok results => ({| status := 200; body := ResultsBody results |}, w2)
                    end
                end
          end
    end.
Proof.
  intros Hq Ht. unfold search, search_body, bind, lift, ret.
  rewrite (dict_get_some_truthy _ _ _ Hq). cbn [negb py_contains py_getitem].
  rewrite Hq, Ht. cbn [negb].
  destruct (py_int t) as [n|e]; [|reflexivity].
  destruct (nonblank_str q); cbn [negb]; [|reflexivity].
  destruct (n <=? 0)%Z; [reflexivity|].
  unfold call_embed. destruct (embed q) as [v|e]; [|reflexivity].
  destruct (length v =? DIMENSION)%nat; cbn [negb]; [|reflexivity].
  unfold call_search, log_call. cbn [qdrant calls]. rewrite <- app_assoc. cbn [app].
  destruct (qdrant_search (qdrant w) v n) as [hits|e]; [|reflexivity].
  destruct (format_results hits); reflexivity.
Qed.

(** A JSON object that lacks one of the two fields is answered 400 at
    once. *)
Lemma search_dict_missing (d : pydict) (w : World) :
  dict_get d (py "query_text") = None \/ dict_get d (py "top_n") = None ->
  search (Ok (PyDict d)) w = (missing_fields, w).
Proof.
  intros Hnone. unfold search, search_body, bind, lift, ret.
  destruct (truthy (PyDict d)); cbn [negb]; [|reflexivity].
  cbn [py_contains].
  destruct (dict_get d (py "query_text")) as [q|]; cbn [negb]; [|reflexivity].
  destruct (dict_get d (py "top_n")) as [t|]; cbn [negb]; [|reflexivity].
  destruct Hnone; discriminate.
Qed.

(** A value the language converts is converted by the handler's [int()]. *)
Lemma converted (t : PyVal) (n : Z) :
  int_conversion t n \/ py_int t = Ok n -> py_int t = Ok n.
Proof. intros [Hconv | Hint]; [apply int_conversion_py_int, Hconv | exact Hint]. Qed.

End QueryFacts.

Section QueryClaims.
Context `{Interpreter} `{TextEmbedding} `{QdrantSearch}.

(** C6, as the code has it. For a request (a JSON object) whose
    [query_text] is given and is not a non-blank string, or whose [top_n] is
    given and converts to an integer that is not positive: neither the model
    nor Qdrant is called. The answer is 400, also when the other field is
    missing, except when both fields are given and [int(top_n)] raises: then
    it is 500 with the exception's text (the conversion comes before the two
    checks). *)
Theorem search_rejects_invalid (d : pydict) (w : World) :
  (exists q, dict_get d (py "query_text") = Some q /\ nonblank_str q = false)
  \/ (exists t n, dict_get d (py "top_n") = Some t
                  /\ (int_conversion t n \/ py_int t = Ok n) /\ (n <= 0)%Z) ->
  let out := search (Ok (PyDict d)) w in
  snd out = w
  /\ (dict_get d (py "query_text") = None \/ dict_get d (py "top_n") = None ->
      status (fst out) = 400%Z)
  /\ (forall q t,
        dict_get d (py "query_text") = Some q -> dict_get d (py "top_n") = Some t ->
        (forall n, int_conversion t n \/ py_int t = Ok n -> status (fst out) = 400%Z)
        /\ (forall e, py_int t = Err e ->
              status (fst out) = 500%Z /\ body (fst out) = ErrorBody (exc_str e))
        /\ (not_convertible t -> status (fst out) = 500%Z)).
Proof.
  intros Hbad out. subst out.
  destruct (dict_get d (py "query_text")) as [q|] eqn:Hq;
    [destruct (dict_get d (py "top_n")) as [t|] eqn:Ht|].
  - rewrite (search_dict d q t w Hq Ht).
    destruct (py_int t) as [n|e] eqn:Hint.
    + assert (Hcase : negb (nonblank_str q) = true \/ (n <=? 0)%Z = true).
      { destruct Hbad as [(q' & [= <-] & Hblank) | (t' & n' & [= <-] & Hn' & Hle)].
        - left. rewrite Hblank. reflexivity.
        - right. apply converted in Hn'. rewrite Hint in Hn'. injection Hn' as <-.
          apply Z.leb_le, Hle. }
      assert (Hout : forall r : Response * World,
                r = (error_response 400 "query_text must be a non-empty string", w)
                \/ r = (error_response 400 "top_n must be a positive integer", w) ->
                snd r = w /\ status (fst r) = 400%Z).
      { intros r [-> | ->]; split; reflexivity. }
      match goal with
      | |- snd ?r = _ /\ _ =>
          assert (Hr : snd r = w /\ status (fst r) = 400%Z)
      end.
      { apply Hout. destruct (negb (nonblank_str q)); [left; reflexivity|].
        destruct (n <=? 0)%Z; [right; reflexivity|].
        destruct Hcase; discriminate. }
      destruct Hr as [Hw H400]. split; [exact Hw|].
      split; [intros _; exact H400|].
      intros q0 t0 [= <-] [= <-]. split; [|split].
      * intros _ _. exact H400.
      * intros e He. rewrite Hint in He. discriminate.
      * intros Hnc. destruct (not_convertible_py_int t Hnc) as [e He].
        rewrite Hint in He. discriminate.
    + split; [reflexivity|]. split; [intros [Hn | Hn]; discriminate|].
      intros q0 t0 [= <-] [= <-]. split; [|split].
      * intros n Hn. apply converted in Hn. rewrite Hint in Hn. discriminate.
      * intros e0 He. rewrite Hint in He. injection He as <-. split; reflexivity.
      * intros _. reflexivity.
  - rewrite (search_dict_missing d w (or_intror Ht)).
    split; [reflexivity|]. split; [reflexivity|].
    intros q0 t0 _ [=].
  - rewrite (search_dict_missing d w (or_introl Hq)).
    split; [reflexivity|]. split; [reflexivity|].
    intros q0 t0 [=].
Qed.

(** C9, as the code has it. A [top_n] that [int()] converts (a numeric
    string, a float, a bool) is not refused for its type: the request is
    handled exactly as the same request carrying the converted integer. With
    a non-blank [query_text], a converted value that is not positive (0.5
    truncates to 0) is answered 400; a positive one is not answered 400, the
    model is called with the query and, when it returns a vector of the
    configured dimension, Qdrant is searched with the converted value as its
    limit. A [top_n] on which [int()] raises is answered 500 with the
    exception's text, nothing having been called. *)
Theorem search_coerces_top_n (d : pydict) (q t : PyVal) (w : World) :
  dict_get d (py "query_text") = Some q ->
  dict_get d (py "top_n") = Some t ->
  let out := search (Ok (PyDict d)) w in
  (forall n, int_conversion t n \/ py_int t = Ok n ->
     out = search (Ok (PyDict (dict_set d (py "top_n") (PyInt n)))) w
     /\ (nonblank_str q = true ->
         ((n <= 0)%Z ->
          status (fst out) = 400%Z
          /\ body (fst out) = ErrorBody (Msg "top_n must be a positive integer")
          /\ snd out = w)
         /\ ((0 < n)%Z ->
             status (fst out) <> 400%Z
             /\ head (new_calls w (snd out)) = Some (EmbedCall q)
             /\ forall v, embed q = Ok v -> length v = DIMENSION ->
                  calls (snd out) = calls w ++ [EmbedCall q; SearchCall v n])))
  /\ (forall e, py_int t = Err e ->
        status (fst out) = 500%Z /\ body (fst out) = ErrorBody (exc_str e)
        /\ snd out = w)
  /\ (not_convertible t -> status (fst out) = 500%Z /\ snd out = w).
Proof.
  intros Hq Ht out. subst out. split; [|split].
  - intros n Hn. apply converted in Hn. split.
    + rewrite (search_dict d q t w Hq Ht).
      rewrite (search_dict (dict_set d (py "top_n") (PyInt n)) q (PyInt n) w).
      * rewrite Hn. reflexivity.
      * rewrite dict_get_set_ne; [exact Hq | discriminate].
      * apply dict_get_set_eq.
    + intros Hnb. rewrite (search_dict d q t w Hq Ht), Hn, Hnb. cbn [negb]. split.
      * intros Hle. apply Z.leb_le in Hle. rewrite Hle. repeat split.
      * intros Hpos. apply Z.leb_gt in Hpos. rewrite Hpos.
        destruct (embed q) as [v|e].
        -- destruct (Nat.eqb_spec (length v) DIMENSION) as [Hlen | Hlen]; cbn [negb].
           ++ cbv zeta. destruct (qdrant_search (qdrant w) v n) as [hits|e].
              ** destruct (format_results hits); cbn [fst snd calls];
                   rewrite new_calls_app;
                   (split; [discriminate|]; split; [reflexivity|]);
                   intros v0 [= <-] _; reflexivity.
              ** cbn [fst snd calls]. rewrite new_calls_app.
                 split; [discriminate|]. split; [reflexivity|].
                 intros v0 [= <-] _. reflexivity.
           ++ cbn [fst snd]. unfold log_call. rewrite new_calls_app.
              split; [discriminate|]. split; [reflexivity|].
              intros v0 [= <-] Hv0. contradiction.
        -- cbn [fst snd]. unfold log_call. rewrite new_calls_app.
           split; [discriminate|]. split; [reflexivity|].
           intros v0 [=].
  - intros e Hint. rewrite (search_dict d q t w Hq Ht), Hint. repeat split.
  - intros Hnc. destruct (not_convertible_py_int t Hnc) as [e Hint].
    rewrite (search_dict d q t w Hq Ht), Hint. split; reflexivity.
Qed.

End QueryClaims.

Lemma format_results_spec (hits : list ScoredPoint) (results : list pydict) :
  format_results hits = Ok results ->
  Forall2 (fun hit entry => format_result hit = Ok entry) hits results.
Proof.
  revert results. induction hits as [|h hits IH]; intros results; simpl.
  - intros [= <-]. constructor.
  - destruct (format_result h) as [e|x] eqn:Hh; simpl; [|discriminate].
    destruct (format_results hits) as [es|x]; simpl; [|discriminate].
    intros [= <-]. constructor; [exact Hh | apply IH; reflexivity].
Qed.

(** Formatting fails only on a hit without payload. *)
Lemma format_results_total (hits : list ScoredPoint) :
  Forall (fun hit => sp_payload hit <> None) hits ->
  exists results, format_results hits = Ok results.
Proof.
  induction 1 as [|h hits Hh _ IH]; simpl; [eauto|].
  unfold format_result. destruct (sp_payload h); [|contradiction]. simpl.
  destruct IH as [es ->]. simpl. eauto.
Qed.

Section QueryResults.
Context `{Interpreter} `{TextEmbedding} `{QdrantSearch}.

(** A 200 answer comes from a JSON object with both fields. *)
Lemma search_ok_is_dict (request_json : result PyVal) (w : World) :
  status (fst (search request_json w)) = 200%Z ->
  exists d q t, request_json = Ok (PyDict d)
                /\ dict_get d (py "query_text") = Some q
                /\ dict_get d (py "top_n") = Some t.
Proof.
  unfold search, search_body, bind, lift, ret. intros Hst.
  destruct request_json as [data|e]; [|discriminate].
  destruct (truthy data); cbn [negb] in Hst; [|discriminate].
  destruct data as [| b | z | f | s | l | d]; cbn [py_contains] in Hst; try discriminate.
  - destruct (occurs (py "query_text") s); cbn [negb] in Hst; [|discriminate].
    destruct (occurs (py "top_n") s); cbn [negb] in Hst; discriminate.
  - destruct (existsb _ l); cbn [negb] in Hst; [|discriminate].
    destruct (existsb _ l); cbn [negb] in Hst; discriminate.
  - destruct (dict_get d (py "query_text")) as [q|] eqn:Hq; cbn [negb] in Hst; [|discriminate].
    destruct (dict_get d (py "top_n")) as [t|] eqn:Ht; cbn [negb] in Hst; [|discriminate].
    exists d, q, t. repeat split; assumption.
Qed.

(** C10. In a 200 answer, the results are, in order, the hits Qdrant
    returned for the query's embedding, one entry per hit, and every entry
    has exactly the four fields [doc_id], [chunk_id], [text], [score] in that
    order: [doc_id] and [text] are the payload's values, or the empty string
    when the payload has no such key; [chunk_id] is the point's id; [score]
    is the hit's score, a float. *)
Theorem search_result_fields (request_json : result PyVal) (w : World) :
  status (fst (search request_json w)) = 200%Z ->
  exists v n hits results,
    body (fst (search request_json w)) = ResultsBody results
    /\ qdrant_search (qdrant w) v n = Ok hits
    /\ Forall2 (fun hit entry =>
         exists p,
           sp_payload hit = Some p
           /\ List.map fst entry = [py "doc_id"; py "chunk_id"; py "text"; py "score"]
           /\ dict_get entry (py "doc_id")
              = Some (match dict_get p (py "doc_id") with Some x => x | None => PyStr [] end)
           /\ dict_get entry (py "chunk_id") = Some (id_value (sp_id hit))
           /\ dict_get entry (py "text")
              = Some (match dict_get p (py "text") with Some x => x | None => PyStr [] end)
           /\ dict_get entry (py "score") = Some (PyFloat (sp_score hit)))
         hits results.
Proof.
  intros Hst.
  destruct (search_ok_is_dict request_json w Hst) as (d & q & t & -> & Hq & Ht).
  revert Hst. rewrite (search_dict d q t w Hq Ht).
  destruct (py_int t) as [n|e]; [|discriminate].
  destruct (negb (nonblank_str q)); [discriminate|].
  destruct (n <=? 0)%Z; [discriminate|].
  destruct (embed q) as [v|e]; [|discriminate].
  destruct (negb (length v =? DIMENSION)%nat); [discriminate|].
  cbv zeta. destruct (qdrant_search (qdrant w) v n) as [hits|e] eqn:Hsearch; [|discriminate].
  destruct (format_results hits) as [results|e] eqn:Hfmt; [|discriminate].
  intros _. exists v, n, hits, results.
  split; [reflexivity|]. split; [exact Hsearch|].
  apply format_results_spec in Hfmt.
  eapply Forall2_impl; [exact Hfmt|].
  intros hit entry. unfold format_result.
  destruct (sp_payload hit) as [p|]; [|discriminate].
  intros [= <-]. exists p. split; [reflexivity|].
  unfold default. repeat split.
Qed.

End QueryResults.

Lemma search_rejects_invalid_witness :
  (let out := @search ascii_interpreter embedding_384 (fixed_search two_hits)
                (request_of (PyStr (py "   ")) (PyInt 3)) world0 in
   snd out = world0 /\ status (fst out) = 400%Z)
  /\ (let out := @search ascii_interpreter embedding_384 (fixed_search two_hits)
                   (request_of (PyStr (py "second paragraph")) (PyStr (py "-2"))) world0 in
      snd out = world0 /\ status (fst out) = 400%Z)
  /\ (let out := @search ascii_interpreter embedding_384 (fixed_search two_hits)
                   (Ok (PyDict [(py "query_text", PyStr [])])) world0 in
      snd out = world0 /\ status (fst out) = 400%Z).
Proof.
  split; [|split].
  - destruct (@search_rejects_invalid ascii_interpreter embedding_384 (fixed_search two_hits)
                [(py "query_text", PyStr (py "   ")); (py "top_n", PyInt 3)] world0
                (or_introl (ex_intro _ (PyStr (py "   ")) (conj eq_refl eq_refl))))
      as (Hw & _ & Hboth).
    split; [exact Hw|].
    exact (proj1 (Hboth _ _ eq_refl eq_refl) 3%Z (or_introl (conv_int 3))).
  - destruct (@search_rejects_invalid ascii_interpreter embedding_384 (fixed_search two_hits)
                [(py "query_text", PyStr (py "second paragraph")); (py "top_n", PyStr (py "-2"))]
                world0
                (or_intror (ex_intro _ (PyStr (py "-2")) (ex_intro _ (-2)%Z
                   (conj eq_refl (conj (or_intror eq_refl)
                                       (Zle_bool_imp_le (-2) 0 eq_refl)))))))
      as (Hw & _ & Hboth).
    split; [exact Hw|].
    exact (proj1 (Hboth _ _ eq_refl eq_refl) (-2)%Z (or_intror eq_refl)).
  - destruct (@search_rejects_invalid ascii_interpreter embedding_384 (fixed_search two_hits)
                [(py "query_text", PyStr [])] world0
                (or_introl (ex_intro _ (PyStr []) (conj eq_refl eq_refl))))
      as (Hw & Hmissing & _).
    split; [exact Hw | exact (Hmissing (or_intror eq_refl))].
Defined.

(** C6, as the specification words it, fails: a request whose [query_text]
    is empty and whose [top_n] is not a number is answered 500, not 400
    ([int(top_n)] raises before [query_text] is checked). Nothing is called. *)
Lemma search_blank_query_bad_top_n :
  let out := @search ascii_interpreter embedding_384 (fixed_search two_hits)
               (request_of (PyStr []) (PyStr (py "abc"))) world0 in
  nonblank_str (PyStr []) = false
  /\ out = ({| status := 500; body := ErrorBody LibraryMsg |}, world0)
  /\ status (fst out) <> 400%Z.
Proof.
  split; [reflexivity|]. split; [vm_compute; reflexivity|].
  vm_compute. discriminate.
Qed.

Lemma search_coerces_top_n_witness :
  (let out := @search ascii_interpreter embedding_384 (fixed_search two_hits)
                (request_of (PyStr (py "second paragraph")) (PyStr (py "5"))) world0 in
   status (fst out) <> 400%Z
   /\ calls (snd out)
      = [EmbedCall (PyStr (py "second paragraph")); SearchCall (zeros 384) 5])
  /\ (let out := @search ascii_interpreter embedding_384 (fixed_search two_hits)
                   (request_of (PyStr (py "second paragraph")) (PyFloat float_3_7)) world0 in
      status (fst out) <> 400%Z
      /\ calls (snd out)
         = [EmbedCall (PyStr (py "second paragraph")); SearchCall (zeros 384) 3])
  /\ (let out := @search ascii_interpreter embedding_384 (fixed_search two_hits)
                   (request_of (PyStr (py "second paragraph")) (PyStr (py " -3 "))) world0 in
      status (fst out) = 400%Z /\ snd out = world0)
  /\ (let out := @search ascii_interpreter embedding_384 (fixed_search two_hits)
                   (request_of (PyStr (py "second paragraph")) (PyStr (py "five"))) world0 in
      status (fst out) = 500%Z /\ snd out = world0).
Proof.
  split; [|split; [|split]].
  - destruct (@search_coerces_top_n ascii_interpreter embedding_384
                (fixed_search two_hits)
                [(py "query_text", PyStr (py "second paragraph")); (py "top_n", PyStr (py "5"))]
                (PyStr (py "second paragraph")) (PyStr (py "5")) world0 eq_refl eq_refl)
      as (Hconv & _ & _).
    assert (Hfive : @int_conversion ascii_interpreter (PyStr (py "5")) 5%Z).
    { apply (@conv_str ascii_interpreter [] [] (py "5") []);
        [reflexivity | reflexivity | left; reflexivity | reflexivity |].
      intros cap [= <-]. cbn [length py]. vm_compute. repeat constructor. }
    destruct (Hconv 5%Z (or_introl Hfive)) as (_ & Hnb).
    destruct (Hnb eq_refl) as (_ & Hpos).
    destruct (Hpos eq_refl) as (H400 & _ & Hcalls).
    split; [exact H400 | exact (Hcalls (zeros 384) eq_refl eq_refl)].
  - destruct (@search_coerces_top_n ascii_interpreter embedding_384
                (fixed_search two_hits)
                [(py "query_text", PyStr (py "second paragraph")); (py "top_n", PyFloat float_3_7)]
                (PyStr (py "second paragraph")) (PyFloat float_3_7) world0 eq_refl eq_refl)
      as (Hconv & _ & _).
    destruct (Hconv 3%Z (or_introl (@conv_float ascii_interpreter false _ _))) as (_ & Hnb).
    destruct (Hnb eq_refl) as (_ & Hpos).
    destruct (Hpos eq_refl) as (H400 & _ & Hcalls).
    split; [exact H400 | exact (Hcalls (zeros 384) eq_refl eq_refl)].
  - destruct (@search_coerces_top_n ascii_interpreter embedding_384
                (fixed_search two_hits)
                [(py "query_text", PyStr (py "second paragraph")); (py "top_n", PyStr (py " -3 "))]
                (PyStr (py "second paragraph")) (PyStr (py " -3 ")) world0 eq_refl eq_refl)
      as (Hconv & _ & _).
    destruct (Hconv (-3)%Z (or_intror eq_refl)) as (_ & Hnb).
    destruct (Hnb eq_refl) as (Hle & _).
    destruct (Hle (Zle_bool_imp_le (-3) 0 eq_refl)) as (H400 & _ & Hw).
    split; [exact H400 | exact Hw].
  - destruct (@search_coerces_top_n ascii_interpreter embedding_384
                (fixed_search two_hits)
                [(py "query_text", PyStr (py "second paragraph")); (py "top_n", PyStr (py "five"))]
                (PyStr (py "second paragraph")) (PyStr (py "five")) world0 eq_refl eq_refl)
      as (_ & _ & Hnc).
    apply Hnc. apply (@nc_char ascii_interpreter (py "five") 102%N);
      [left; reflexivity | reflexivity | discriminate | discriminate | discriminate
      | reflexivity].
Defined.

(** C9, as the specification words it, fails: [top_n = 0.5] is not an
    integer and [int(0.5)] converts it, to 0, yet the request is refused with
    400, the model not having been called. *)
Lemma search_top_n_half :
  let out := @search ascii_interpreter embedding_384 (fixed_search two_hits)
               (request_of (PyStr (py "second paragraph")) (PyFloat float_0_5)) world0 in
  @py_int ascii_interpreter (PyFloat float_0_5) = Ok 0%Z
  /\ out = ({| status := 400;
               body := ErrorBody (Msg "top_n must be a positive integer") |}, world0).
Proof.
  split; [reflexivity|]. vm_compute. reflexivity.
Qed.

Example search_top_n_float :
  let out := @search ascii_interpreter embedding_384 (fixed_search two_hits)
               (request_of (PyStr (py "second paragraph")) (PyFloat float_3_7)) world0 in
  status (fst out) = 200%Z
  /\ calls (snd out)
     = [EmbedCall (PyStr (py "second paragraph")); SearchCall (zeros 384) 3].
Proof. split; vm_compute; reflexivity. Qed.

Lemma search_result_fields_witness :
  exists v n hits results,
    body (fst (@search ascii_interpreter embedding_384 (fixed_search two_hits)
                 (request_of (PyStr (py "second paragraph")) (PyInt 2)) world0))
      = ResultsBody results
    /\ @qdrant_search (fixed_search two_hits) (qdrant world0) v n = Ok hits
    /\ Forall2 (fun hit entry =>
         exists p,
           sp_payload hit = Some p
           /\ List.map fst entry = [py "doc_id"; py "chunk_id"; py "text"; py "score"]
           /\ dict_get entry (py "doc_id")
              = Some (match dict_get p (py "doc_id") with Some x => x | None => PyStr [] end)
           /\ dict_get entry (py "chunk_id") = Some (id_value (sp_id hit))
           /\ dict_get entry (py "text")
              = Some (match dict_get p (py "text") with Some x => x | None => PyStr [] end)
           /\ dict_get entry (py "score") = Some (PyFloat (sp_score hit)))
         hits results.
Proof.
  apply (@search_result_fields ascii_interpreter embedding_384 (fixed_search two_hits)
           (request_of (PyStr (py "second paragraph")) (PyInt 2)) world0).
  vm_compute. reflexivity.
Defined.

Example search_two_hits :
  fst (@search ascii_interpreter embedding_384 (fixed_search two_hits)
         (request_of (PyStr (py "second paragraph")) (PyInt 2)) world0)
  = {| status := 200;
       body := ResultsBody
         [ [ (py "doc_id", PyStr (py "report"));
             (py "chunk_id", PyStr (py "id-1"));
             (py "text", PyStr (py "Second paragraph."));
             (py "score", PyFloat (S754_finite false 1 (-1))) ];
           [ (py "doc_id", PyStr []);
             (py "chunk_id", PyInt 7);
             (py "text", PyStr []);
             (py "score", PyFloat (S754_zero false)) ] ] |}.
Proof. vm_compute. reflexivity. Qed.


(* ===================================================================== *)
(** ** More on strings: strip, split and join *)
(* ===================================================================== *)

Lemma lstrip_idem (s : pystr) : lstrip (lstrip s) = lstrip s.
Proof.
  induction s as [|c s IH]; simpl; [reflexivity|].
  destruct (Py_UNICODE_ISSPACE c) eqn:E; [exact IH|].
  simpl. rewrite E. reflexivity.
Qed.

Lemma lstrip_snoc (l : pystr) (c : N) :
  Py_UNICODE_ISSPACE c = false -> lstrip (l ++ [c]) = lstrip l ++ [c].
Proof.
  intros Hc. induction l as [|d l IH]; simpl.
  - rewrite Hc. reflexivity.
  - destruct (Py_UNICODE_ISSPACE d); [exact IH | reflexivity].
Qed.

Lemma rstrip_cons (c : N) (s : pystr) :
  Py_UNICODE_ISSPACE c = false -> rstrip (c :: s) = c :: rstrip s.
Proof.
  intros Hc. unfold rstrip. simpl. rewrite (lstrip_snoc _ _ Hc), rev_app_distr.
  reflexivity.
Qed.

Lemma lstrip_head (s : pystr) :
  lstrip s = [] \/ exists c r, lstrip s = c :: r /\ Py_UNICODE_ISSPACE c = false.
Proof.
  induction s as [|c s IH]; simpl; [left; reflexivity|].
  destruct (Py_UNICODE_ISSPACE c) eqn:E; [exact IH|]. right. eauto.
Qed.

(** Stripping twice is stripping once. *)
Lemma strip_idem (s : pystr) : strip (strip s) = strip s.
Proof.
  unfold strip.
  destruct (lstrip_head s) as [-> | (c & r & -> & Hc)]; [reflexivity|].
  rewrite (rstrip_cons _ _ Hc). simpl. rewrite Hc.
  rewrite (rstrip_cons _ _ Hc). f_equal.
  unfold rstrip. rewrite rev_involutive, lstrip_idem. reflexivity.
Qed.

Lemma lstrip_suffix (s : pystr) : exists a, s = a ++ lstrip s.
Proof.
  induction s as [|c s [a IH]]; simpl; [exists []; reflexivity|].
  destruct (Py_UNICODE_ISSPACE c).
  - exists (c :: a). simpl. f_equal. exact IH.
  - exists []. reflexivity.
Qed.

(** A stripped string sits inside the string it was stripped from. *)
Lemma strip_infix (s : pystr) : exists a b, s = a ++ strip s ++ b.
Proof.
  destruct (lstrip_suffix s) as [a Ha].
  destruct (lstrip_suffix (rev (lstrip s))) as [b Hb].
  exists a, (rev b). unfold strip, rstrip.
  rewrite <- rev_app_distr, <- Hb, rev_involutive. exact Ha.
Qed.

Lemma non_whitespace_app (a b : pystr) :
  non_whitespace (a ++ b) = non_whitespace a ++ non_whitespace b.
Proof. unfold non_whitespace. apply List.filter_app. Qed.

Lemma non_whitespace_cons (c : N) (s : pystr) :
  non_whitespace (c :: s) =
    if Py_UNICODE_ISSPACE c then non_whitespace s else c :: non_whitespace s.
Proof. unfold non_whitespace. simpl. destruct (Py_UNICODE_ISSPACE c); reflexivity. Qed.

Lemma non_whitespace_lstrip (s : pystr) : non_whitespace (lstrip s) = non_whitespace s.
Proof.
  induction s as [|c s IH]; [reflexivity|].
  cbn [lstrip]. rewrite (non_whitespace_cons c s).
  destruct (Py_UNICODE_ISSPACE c) eqn:E; [exact IH|].
  rewrite non_whitespace_cons, E. reflexivity.
Qed.

Lemma non_whitespace_rev (s : pystr) : non_whitespace (rev s) = rev (non_whitespace s).
Proof.
  induction s as [|c s IH]; [reflexivity|].
  cbn [rev]. rewrite non_whitespace_app, IH, !non_whitespace_cons.
  destruct (Py_UNICODE_ISSPACE c); [apply app_nil_r | reflexivity].
Qed.

(** Stripping removes whitespace only. *)
Lemma non_whitespace_strip (s : pystr) : non_whitespace (strip s) = non_whitespace s.
Proof.
  unfold strip, rstrip.
  rewrite non_whitespace_rev, non_whitespace_lstrip, non_whitespace_rev,
    rev_involutive, non_whitespace_lstrip.
  reflexivity.
Qed.

Lemma non_whitespace_all_space (s : pystr) :
  forallb Py_UNICODE_ISSPACE s = true -> non_whitespace s = [].
Proof.
  induction s as [|c s IH]; cbn [forallb]; [reflexivity|].
  intros Hs. apply andb_true_iff in Hs as [Hc Hs].
  rewrite non_whitespace_cons, Hc. apply IH, Hs.
Qed.

Lemma startswith_app (sep s : pystr) : startswith sep (sep ++ s) = true.
Proof.
  induction sep as [|c sep IH]; simpl; [reflexivity|].
  rewrite N.eqb_refl, IH. reflexivity.
Qed.

Lemma startswith_split (sep s : pystr) :
  startswith sep s = true -> s = sep ++ drop (length sep) s.
Proof.
  revert s. induction sep as [|c sep IH]; intros s; simpl; [reflexivity|].
  destruct s as [|d s]; [discriminate|].
  intros Hs. apply andb_true_iff in Hs as [Hc Hs].
  apply N.eqb_eq in Hc. subst d. simpl. f_equal. apply IH, Hs.
Qed.

Lemma startswith_weaken (sep a b : pystr) :
  startswith sep a = true -> startswith sep (a ++ b) = true.
Proof.
  revert a. induction sep as [|c sep IH]; intros a; simpl; [reflexivity|].
  destruct a as [|d a]; [discriminate|]. simpl.
  intros Hs. apply andb_true_iff in Hs as [Hc Hs].
  rewrite Hc, (IH _ Hs). reflexivity.
Qed.

(** [sep in s] holds exactly when [sep] starts some suffix of [s]. *)
Lemma occurs_iff (sep s : pystr) :
  occurs sep s = true <-> exists a b, s = a ++ b /\ startswith sep b = true.
Proof.
  induction s as [|c s IH]; simpl.
  - rewrite orb_false_r. split.
    + intros Hs. exists [], []. split; [reflexivity | exact Hs].
    + intros (a & b & Hab & Hs). symmetry in Hab.
      apply app_eq_nil in Hab as [-> ->]. exact Hs.
  - rewrite orb_true_iff, IH. split.
    + intros [Hs | (a & b & -> & Hs)].
      * exists [], (c :: s). split; [reflexivity | exact Hs].
      * exists (c :: a), b. split; [reflexivity | exact Hs].
    + intros (a & b & Hab & Hs). destruct a as [|d a].
      * left. simpl in Hab. subst b. exact Hs.
      * right. injection Hab as -> ->. eauto.
Qed.

Lemma occurs_infix (sep a s b : pystr) :
  occurs sep s = true -> occurs sep (a ++ s ++ b) = true.
Proof.
  rewrite !occurs_iff. intros (x & y & -> & Hy).
  exists (a ++ x), (y ++ b). split.
  - rewrite <- !app_assoc. reflexivity.
  - apply startswith_weaken, Hy.
Qed.

Lemma split_go_nonempty (sep s cur : pystr) (k : nat) : split_go sep s cur k <> [].
Proof.
  revert cur k. induction s as [|c s IH]; intros cur k; cbn [split_go]; [discriminate|].
  destruct k; [|apply IH].
  destruct (startswith sep (c :: s)); [discriminate | apply IH].
Qed.

Lemma str_join_cons (sep x : pystr) (l : list pystr) :
  l <> [] -> str_join sep (x :: l) = x ++ sep ++ str_join sep l.
Proof. destruct l; [contradiction | reflexivity]. Qed.

(** Joining the pieces with the separator gives the text back. *)
Lemma split_go_join (sep s cur : pystr) (k : nat) :
  sep <> [] -> str_join sep (split_go sep s cur k) = rev cur ++ drop k s.
Proof.
  intros Hsep. revert cur k. induction s as [|c s IH]; intros cur k; cbn [split_go].
  - rewrite drop_nil. simpl. rewrite app_nil_r. reflexivity.
  - destruct k as [|k]; [|rewrite IH; reflexivity].
    destruct (startswith sep (c :: s)) eqn:Hpre.
    + rewrite str_join_cons by apply split_go_nonempty. rewrite IH. simpl.
      apply startswith_split in Hpre.
      destruct sep as [|d sep]; [contradiction|].
      simpl in Hpre. injection Hpre as -> Hs.
      simpl. rewrite Nat.sub_0_r, <- Hs. reflexivity.
    + rewrite IH. simpl. rewrite <- app_assoc. reflexivity.
Qed.

Lemma split_join (sep s : pystr) : sep <> [] -> str_join sep (split sep s) = s.
Proof. intros Hsep. unfold split. rewrite split_go_join by exact Hsep. reflexivity. Qed.

(** No piece of a split contains the separator. *)
Lemma split_go_clean (sep s cur : pystr) (k : nat) :
  sep <> [] ->
  (forall a b, rev cur = a ++ b -> b <> [] -> startswith sep (b ++ s) = false) ->
  (k <> 0 -> cur = []) ->
  Forall (fun p => occurs sep p = false) (split_go sep s cur k).
Proof.
  intros Hsep. revert cur k.
  assert (Hempty : forall x, startswith sep x = true -> x <> []).
  { intros x Hx ->. destruct sep; [contradiction | discriminate]. }
  assert (Hpiece : forall cur s0,
            (forall a b, rev cur = a ++ b -> b <> [] -> startswith sep (b ++ s0) = false) ->
            occurs sep (rev cur) = false).
  { intros cur s0 Hinv. destruct (occurs sep (rev cur)) eqn:Hocc; [|reflexivity].
    apply occurs_iff in Hocc as (a & b & Hab & Hb).
    pose proof (Hinv a b Hab (Hempty b Hb)) as Hf.
    rewrite (startswith_weaken _ _ s0 Hb) in Hf. discriminate. }
  induction s as [|c s IH]; intros cur k Hinv Hk; cbn [split_go].
  - constructor; [|constructor]. apply (Hpiece cur [] Hinv).
  - destruct k as [|k].
    + destruct (startswith sep (c :: s)) eqn:Hpre.
      * constructor; [apply (Hpiece cur (c :: s) Hinv)|].
        apply IH; [|reflexivity].
        intros a b Hab Hb. destruct a, b; try discriminate. contradiction.
      * apply IH; [|intros Hne; contradiction].
        intros a b Hab Hb. simpl in Hab.
        destruct (exists_last Hb) as (b' & d & ->).
        rewrite app_assoc in Hab. apply app_inj_tail in Hab as [Hab <-].
        rewrite <- app_assoc. simpl.
        destruct b' as [|e b']; [exact Hpre|].
        apply (Hinv a (e :: b') Hab). discriminate.
    + assert (cur = []) as -> by (apply Hk; discriminate).
      apply IH; [|intros _; reflexivity].
      intros a b Hab Hb. destruct a, b; try discriminate. contradiction.
Qed.

Lemma split_clean (sep s : pystr) :
  sep <> [] -> Forall (fun p => occurs sep p = false) (split sep s).
Proof.
  intros Hsep. apply split_go_clean; [exact Hsep | | intros Hne; contradiction].
  intros a b Hab Hb. destruct a, b; try discriminate. contradiction.
Qed.

Lemma non_whitespace_join (sep : pystr) (l : list pystr) :
  forallb Py_UNICODE_ISSPACE sep = true ->
  non_whitespace (str_join sep l) = concat (List.map non_whitespace l).
Proof.
  intros Hsep. induction l as [|x l IH]; [reflexivity|].
  destruct l as [|y l].
  - simpl. rewrite app_nil_r. reflexivity.
  - rewrite str_join_cons by discriminate.
    rewrite !non_whitespace_app, (non_whitespace_all_space sep Hsep), IH.
    reflexivity.
Qed.

(* ===================================================================== *)
(** ** More on the chunker *)
(* ===================================================================== *)

Lemma blank_line_nonempty : blank_line <> [].
Proof. discriminate. Qed.

Lemma paragraphs_of_wellformed (text : pystr) :
  Forall (fun c => c <> [] /\ strip c = c /\ occurs blank_line c = false)
         (paragraphs_of text).
Proof.
  unfold paragraphs_of. apply Forall_forall. intros c Hc.
  apply list_elem_of_In, in_map_iff in Hc as (p & <- & Hp).
  apply filter_In in Hp as [Hp Htruthy].
  split; [|split].
  - intros E. rewrite E in Htruthy. discriminate.
  - apply strip_idem.
  - pose proof (split_clean blank_line text blank_line_nonempty) as Hclean.
    rewrite Forall_forall in Hclean.
    specialize (Hclean p (proj2 (list_elem_of_In _ _) Hp)).
    destruct (occurs blank_line (strip p)) eqn:Hocc; [|reflexivity].
    destruct (strip_infix p) as (a & b & Hab).
    rewrite Hab, (occurs_infix _ a _ b Hocc) in Hclean. discriminate.
Qed.

Lemma parse_text_wf_helper (file_content : list byte) (chunks : list pystr) :
  parse_text file_content = Ok chunks ->
  Forall (fun c => c <> [] /\ strip c = c /\ occurs blank_line c = false) chunks.
Proof.
  unfold parse_text. destruct (decode_utf8 file_content) as [text|e]; simpl; [|discriminate].
  intros [= <-]. apply paragraphs_of_wellformed.
Qed.

(** X1. Every chunk the chunker returns is non-empty, has no leading or
    trailing whitespace, and contains no blank-line separator. *)
Theorem parse_text_chunks_wellformed (file_content : list byte) (chunks : list pystr) :
  parse_text file_content = Ok chunks ->
  Forall (fun c => c <> [] /\ strip c = c /\ occurs blank_line c = false) chunks.
Proof.
  unfold parse_text. destruct (decode_utf8 file_content) as [text|e]; simpl; [|discriminate].
  intros [= <-]. apply paragraphs_of_wellformed.
Qed.

Lemma parse_text_chunks_wellformed_witness :
  Forall (fun c => c <> [] /\ strip c = c /\ occurs blank_line c = false)
         [py "Intro paragraph."; py "Second paragraph."].
Proof. exact (parse_text_chunks_wellformed report_bytes _ eq_refl). Defined.

(** X2. Chunking is stable: the text of a chunk, chunked again, is that
    one chunk. *)
Theorem parse_text_rechunk_stable (file_content : list byte) (chunks : list pystr) :
  parse_text file_content = Ok chunks ->
  Forall (fun c => paragraphs_of c = [c]) chunks.
Proof.
  intros Hparse.
  assert (Hwf : Forall (fun c => c <> [] /\ strip c = c /\ occurs blank_line c = false) chunks).
  { revert Hparse. unfold parse_text.
    destruct (decode_utf8 file_content) as [text|e]; simpl; [|discriminate].
    intros [= <-]. apply paragraphs_of_wellformed. }
  eapply Forall_impl; [exact Hwf|].
  intros c (Hne & Hstrip & Hocc). simpl.
  rewrite (paragraphs_of_unstructured c Hocc).
  destruct (forallb Py_UNICODE_ISSPACE c) eqn:Hws.
  - apply strip_nil_iff in Hws. congruence.
  - rewrite Hstrip. reflexivity.
Qed.

Lemma parse_text_rechunk_stable_witness :
  Forall (fun c => paragraphs_of c = [c]) [py "Intro paragraph."; py "Second paragraph."].
Proof. exact (parse_text_rechunk_stable report_bytes _ eq_refl). Defined.

Lemma paragraphs_of_non_whitespace (text : pystr) :
  concat (List.map non_whitespace (paragraphs_of text)) = non_whitespace text.
Proof.
  rewrite <- (split_join blank_line text blank_line_nonempty) at 2.
  rewrite non_whitespace_join by reflexivity.
  unfold paragraphs_of. generalize (split blank_line text). intros l.
  induction l as [|p l IH]; [reflexivity|].
  cbn [List.filter List.map concat]. rewrite str_truthy_strip.
  destruct (forallb Py_UNICODE_ISSPACE p) eqn:Hws; cbn [negb List.map concat].
  - rewrite (non_whitespace_all_space p Hws). exact IH.
  - rewrite non_whitespace_strip, IH. reflexivity.
Qed.

(** X3. The chunker drops whitespace only: the non-whitespace characters of
    the chunks, read in order, are those of the decoded text. *)
Theorem parse_text_keeps_non_whitespace (file_content : list byte) (text : pystr) :
  decode_utf8 file_content = Ok text ->
  exists chunks,
    parse_text file_content = Ok chunks
    /\ concat (List.map non_whitespace chunks) = non_whitespace text.
Proof.
  intros Hdec. unfold parse_text. rewrite Hdec. simpl.
  eexists. split; [reflexivity | apply paragraphs_of_non_whitespace].
Qed.

Lemma parse_text_keeps_non_whitespace_witness :
  exists chunks,
    parse_text report_bytes = Ok chunks
    /\ concat (List.map non_whitespace chunks)
       = non_whitespace (py "Intro paragraph." ++ [10%N; 10%N] ++ py "Second paragraph.").
Proof. exact (parse_text_keeps_non_whitespace report_bytes _ eq_refl). Defined.

Lemma utf8_go_ascii (bs : list byte) (out : pystr) :
  Forall (fun b => (Byte.to_N b <= 127)%N) bs ->
  utf8_go bs 0 0 0 0 out = Some (rev out ++ List.map Byte.to_N bs).
Proof.
  intros Hascii. revert out. induction Hascii as [|b bs Hb _ IH]; intros out.
  - simpl. rewrite app_nil_r. reflexivity.
  - cbn [utf8_go]. cbv zeta. apply N.leb_le in Hb. rewrite Hb, IH. simpl.
    rewrite <- app_assoc. reflexivity.
Qed.

(** X4. A document of ASCII bytes always decodes, to the same characters:
    the chunker cannot fail on it. *)
Theorem parse_text_ascii (file_content : list byte) :
  Forall (fun b => (Byte.to_N b <= 127)%N) file_content ->
  parse_text file_content = Ok (paragraphs_of (List.map Byte.to_N file_content)).
Proof.
  intros Hascii. unfold parse_text, decode_utf8.
  rewrite (utf8_go_ascii _ [] Hascii). reflexivity.
Qed.

Lemma parse_text_ascii_witness :
  parse_text (bytes_of "Other notes.") = Ok (paragraphs_of (py "Other notes.")).
Proof.
  apply (parse_text_ascii (bytes_of "Other notes.")).
  repeat constructor; vm_compute; discriminate.
Defined.

(* ===================================================================== *)
(** ** More on the dispatcher: what a run sends and fetches *)
(* ===================================================================== *)

Lemma exists_for_doc_indexed (c : Collection) (doc_id : pystr) :
  exists_for_doc c doc_id = true <-> indexed c doc_id.
Proof.
  unfold exists_for_doc. split.
  - intros Hex. apply scroll_found_indexed.
    destruct (fst (scroll c doc_id 1)); [discriminate | discriminate].
  - intros Hidx. apply scroll_finds_indexed in Hidx.
    destruct (fst (scroll c doc_id 1)); [contradiction | reflexivity].
Qed.

Section DispatcherRuns.
Context `{S3Client} `{Uuid}.

Lemma number_tasks_app (first : nat) (l1 l2 : list (pystr * pystr)) :
  number_tasks first (l1 ++ l2)
  = number_tasks first l1 ++ number_tasks (first + length l1) l2.
Proof.
  unfold number_tasks. rewrite imap_app. f_equal.
  apply imap_ext. intros i x _. simpl. rewrite Nat.add_assoc. reflexivity.
Qed.

Lemma number_tasks_length (first : nat) (l : list (pystr * pystr)) :
  length (number_tasks first l) = length l.
Proof. apply length_imap. Qed.

(** One candidate, as a function of what the dispatcher finds for it. *)
Lemma process_key_run (c : Collection) (bucket key : pystr) (s : Dispatch) :
  process_key c bucket key s =
    match key_chunks c bucket key with
    | Ok None => (Ok tt, s)
    | Ok (Some ps) =>
        (Ok tt,
         {| sent := sent s ++ number_tasks (drawn s)
                                (List.map (fun text => (fst (splitext key), text)) ps);
            fetched := fetched s ++ [key];
            drawn := drawn s + length ps |})
    | Err e =>
        (Err e, {| sent := sent s; fetched := fetched s ++ [key]; drawn := drawn s |})
    end.
Proof.
  unfold process_key, key_chunks, exists_for_doc.
  destruct (fst (scroll c (fst (splitext key)) 1)) as [|hit hits]; [|reflexivity].
  unfold bind at 1, fetch at 1.
  destruct (get_object bucket key) as [content|e]; [|reflexivity]. simpl.
  unfold bind at 1, lift at 1.
  destruct (parse_text content) as [ps|e]; [|reflexivity]. simpl.
  match goal with |- context [for_each ps ?b ?st] =>
    destruct (send_loop_spec (fst (splitext key)) ps st) as (s' & Hrun & Hs & Hf & Hd)
  end.
  rewrite Hrun. f_equal. destruct s' as [sent' fetched' drawn']. simpl in Hs, Hf, Hd.
  subst sent' fetched' drawn'. f_equal.
  f_equal. unfold number_tasks. rewrite imap_fmap. reflexivity.
Qed.

Lemma key_chunks_some (c : Collection) (bucket key : pystr) (ps : list pystr) :
  key_chunks c bucket key = Ok (Some ps) ->
  exists_for_doc c (fst (splitext key)) = false
  /\ doc_chunks c bucket key = List.map (fun text => (fst (splitext key), text)) ps
  /\ exists content, get_object bucket key = Ok content /\ parse_text content = Ok ps.
Proof.
  intros Hkey. unfold doc_chunks. rewrite Hkey. unfold key_chunks in Hkey.
  destruct (exists_for_doc c (fst (splitext key))); [discriminate|].
  destruct (get_object bucket key) as [content|e]; [|discriminate]. simpl in Hkey.
  destruct (parse_text content) as [ps'|e] eqn:Hparse; [|discriminate].
  injection Hkey as ->. repeat split. exists content. split; [reflexivity | exact Hparse].
Qed.

Lemma key_chunks_none (c : Collection) (bucket key : pystr) :
  key_chunks c bucket key = Ok None ->
  exists_for_doc c (fst (splitext key)) = true /\ doc_chunks c bucket key = [].
Proof.
  intros Hkey. unfold doc_chunks. rewrite Hkey. unfold key_chunks in Hkey.
  destruct (exists_for_doc c (fst (splitext key))); [split; reflexivity|].
  destruct (get_object bucket key) as [content|e]; [|discriminate]. simpl in Hkey.
  destruct (parse_text content); discriminate.
Qed.

Lemma key_chunks_err (c : Collection) (bucket key : pystr) (e : PyExc) :
  key_chunks c bucket key = Err e ->
  exists_for_doc c (fst (splitext key)) = false /\ doc_chunks c bucket key = [].
Proof.
  intros Hkey. unfold doc_chunks. rewrite Hkey. unfold key_chunks in Hkey.
  destruct (exists_for_doc c (fst (splitext key))); [discriminate | split; reflexivity].
Qed.

Lemma unindexed_cons (c : Collection) (key : pystr) (keys : list pystr) :
  unindexed c (key :: keys) =
    if exists_for_doc c (fst (splitext key)) then unindexed c keys
    else key :: unindexed c keys.
Proof.
  unfold unindexed. simpl. destruct (exists_for_doc c (fst (splitext key))); reflexivity.
Qed.

(** A run over a list of candidates stops after [n] of them ([n] is all of
    them unless one raised); it has sent the chunks of those [n], numbered in
    order, and fetched the unindexed ones among the first [m], where [m] also
    counts the candidate that raised. *)
Lemma for_each_keys_run (c : Collection) (bucket : pystr) (keys : list pystr) (s : Dispatch) :
  exists n m,
    sent (snd (for_each keys (process_key c bucket) s))
      = sent s ++ number_tasks (drawn s) (flat_map (doc_chunks c bucket) (take n keys))
    /\ fetched (snd (for_each keys (process_key c bucket) s))
        = fetched s ++ unindexed c (take m keys)
    /\ drawn (snd (for_each keys (process_key c bucket) s))
        = drawn s + length (flat_map (doc_chunks c bucket) (take n keys))
    /\ (is_err (fst (for_each keys (process_key c bucket) s)) = false ->
        n = length keys /\ m = length keys)
    /\ Forall (fun key => is_err (key_chunks c bucket key) = false) (take n keys).
Proof.
  revert s. induction keys as [|key keys IH]; intros s.
  - exists 0, 0. simpl. rewrite !app_nil_r, Nat.add_0_r. repeat split. constructor.
  - cbn [for_each]. unfold bind at 1 2 3 4. rewrite process_key_run.
    destruct (key_chunks c bucket key) as [[ps|]|e] eqn:Hkey.
    + destruct (key_chunks_some _ _ _ _ Hkey) as (Hun & Hchunks & _).
      match goal with |- context [for_each keys _ ?st] =>
        destruct (IH st) as (n & m & Hs & Hf & Hd & Hok & Hall) end.
      exists (S n), (S m). cbn [take flat_map].
      rewrite unindexed_cons, Hun, Hchunks, Hs, Hf, Hd. cbn [sent fetched drawn].
      rewrite number_tasks_app, !length_app, !length_map, <- !app_assoc.
      split; [reflexivity|]. split; [reflexivity|]. split; [lia|].
      split; [|constructor; [rewrite Hkey; reflexivity | exact Hall]].
      intros Hno. destruct (Hok Hno) as [-> ->]. split; reflexivity.
    + destruct (key_chunks_none _ _ _ Hkey) as (Hex & Hchunks).
      destruct (IH s) as (n & m & Hs & Hf & Hd & Hok & Hall).
      exists (S n), (S m). cbn [take flat_map].
      rewrite unindexed_cons, Hex, Hchunks. cbn [app].
      split; [exact Hs|]. split; [exact Hf|]. split; [exact Hd|].
      split; [|constructor; [rewrite Hkey; reflexivity | exact Hall]].
      intros Hno. destruct (Hok Hno) as [-> ->]. split; reflexivity.
    + destruct (key_chunks_err _ _ _ _ Hkey) as (Hun & _).
      exists 0, 1. cbn [take flat_map fst snd sent fetched drawn].
      rewrite unindexed_cons, Hun. cbn [number_tasks]. simpl.
      rewrite app_nil_r, Nat.add_0_r.
      split; [reflexivity|]. split; [reflexivity|]. split; [reflexivity|].
      split; [discriminate | constructor].
Qed.

Lemma process_s3_text_unfold (c : Collection) (bucket : pystr) (s : Dispatch) :
  process_s3_text c bucket s =
    match list_objects_v2 bucket with
    | Ok contents => for_each (text_files_of contents) (process_key c bucket) s
    | Err e => (Err e, s)
    end.
Proof.
  unfold process_s3_text, bind, lift.
  destruct (list_objects_v2 bucket); reflexivity.
Qed.

(** Whether a run over the candidates raises does not depend on what was
    sent before. *)
Lemma for_each_keys_ok (c : Collection) (bucket : pystr) (keys : list pystr) (s : Dispatch) :
  Forall (fun key => is_err (key_chunks c bucket key) = false) keys ->
  fst (for_each keys (process_key c bucket) s) = Ok tt.
Proof.
  intros Hall. revert s. induction Hall as [|key keys Hkey _ IH]; intros s; [reflexivity|].
  cbn [for_each]. unfold bind. rewrite process_key_run.
  destruct (key_chunks c bucket key) as [[ps|]|e]; [apply IH | apply IH | discriminate].
Qed.

Lemma number_tasks_ids (first : nat) (l : list (pystr * pystr)) :
  List.map task_chunk_id (number_tasks first l) = List.map uuid4 (seq first (length l)).
Proof.
  revert first. induction l as [|x l IH]; intros first; [reflexivity|].
  unfold number_tasks. rewrite imap_cons. cbn [List.map length seq task_chunk_id chunk_task].
  rewrite Nat.add_0_r. f_equal. rewrite <- IH. f_equal.
  apply imap_ext. intros i y _. simpl. rewrite Nat.add_succ_r. reflexivity.
Qed.

Lemma NoDup_map_seq {B} (f : nat -> B) (first n : nat) :
  (forall i j, f i = f j -> i = j) -> NoDup (List.map f (seq first n)).
Proof.
  intros Hinj. revert first. induction n as [|n IH]; intros first; simpl.
  - constructor.
  - apply NoDup_cons. split; [|apply IH].
    intros Hin. apply list_elem_of_In, in_map_iff in Hin as (j & Hj & Hin).
    apply Hinj in Hj. apply in_seq in Hin. lia.
Qed.

(** X5. A run that does not raise has found every candidate either indexed
    or fetchable and decodable, and has sent, in listing order and paragraph
    order, one task per paragraph of every candidate that was not indexed,
    numbered with the identifiers drawn in order; it has fetched exactly the
    candidates that were not indexed. *)
Theorem process_s3_text_sends_every_chunk
    (c : Collection) (bucket_name : pystr) (contents : option (list pystr))
    (s s' : Dispatch) :
  list_objects_v2 bucket_name = Ok contents ->
  process_s3_text c bucket_name s = (Ok tt, s') ->
  Forall (fun key => is_err (key_chunks c bucket_name key) = false) (text_files_of contents)
  /\ sent s' = sent s ++ number_tasks (drawn s)
                 (flat_map (doc_chunks c bucket_name) (text_files_of contents))
  /\ fetched s' = fetched s ++ unindexed c (text_files_of contents)
  /\ drawn s' = drawn s
                + length (flat_map (doc_chunks c bucket_name) (text_files_of contents)).
Proof.
  intros Hlist Hrun. rewrite process_s3_text_unfold, Hlist in Hrun.
  destruct (for_each_keys_run c bucket_name (text_files_of contents) s)
    as (n & m & Hs & Hf & Hd & Hok & Hall).
  rewrite Hrun in Hs, Hf, Hd, Hok. simpl in Hs, Hf, Hd, Hok.
  destruct (Hok eq_refl) as [-> ->]. rewrite firstn_all in Hs, Hf, Hd, Hall.
  repeat split; assumption.
Qed.


Lemma in_take_in {A} (n : nat) (l : list A) (x : A) : In x (take n l) -> In x l.
Proof.
  revert n. induction l as [|y l IH]; intros [|n]; simpl; try tauto.
  intros [-> | Hin]; [left; reflexivity | right; eapply IH, Hin].
Qed.

Lemma number_tasks_Forall (P : Task -> Prop) (first : nat) (l : list (pystr * pystr)) :
  (forall i d text, In (d, text) l -> P (chunk_task d (uuid4 i) text)) ->
  Forall P (number_tasks first l).
Proof.
  revert first. induction l as [|[d text] l IH]; intros first HP; [constructor|].
  unfold number_tasks. rewrite imap_cons. constructor.
  - apply HP. left. reflexivity.
  - rewrite (imap_ext _ (fun i dt => chunk_task (fst dt) (uuid4 (S first + i)) (snd dt))).
    + apply IH. intros i d' t' Hin. apply HP. right. exact Hin.
    + intros i x _. simpl. rewrite Nat.add_succ_r. reflexivity.
Qed.

(** X7. Whatever a run does, every task it sends is addressed to the
    worker's task and queue, carries a chunk that is non-empty, stripped and
    free of blank lines, and belongs to a key of the listing that ends in
    ['.txt'] and whose document was not indexed. *)
Theorem process_s3_text_task_shape (c : Collection) (bucket_name : pystr) (s : Dispatch) :
  exists new_tasks,
    sent (snd (process_s3_text c bucket_name s)) = sent s ++ new_tasks
    /\ Forall (fun t =>
         task_name t = "embed_app.store_chunk_content"
         /\ task_queue t = "chunk_content_queue"
         /\ task_text t <> [] /\ strip (task_text t) = task_text t
         /\ occurs blank_line (task_text t) = false
         /\ exists contents key,
              list_objects_v2 bucket_name = Ok contents
              /\ In key (default [] contents)
              /\ endswith (py ".txt") key = true
              /\ task_doc_id t = fst (splitext key)
              /\ ~ indexed c (task_doc_id t))
         new_tasks.
Proof.
  rewrite process_s3_text_unfold.
  destruct (list_objects_v2 bucket_name) as [contents|e] eqn:Hlist.
  - destruct (for_each_keys_run c bucket_name (text_files_of contents) s)
      as (n & m & Hs & _ & _ & _ & _).
    eexists. split; [exact Hs|].
    apply number_tasks_Forall. intros i d text Hin.
    apply in_flat_map in Hin as (key & Hkey & Hin).
    apply in_take_in, filter_In in Hkey as [Hlisted Htxt].
    unfold doc_chunks in Hin.
    destruct (key_chunks c bucket_name key) as [[ps|]|e] eqn:Hchunks; try destruct Hin.
    destruct (key_chunks_some _ _ _ _ Hchunks) as (Hun & _ & content & _ & Hparse).
    apply in_map_iff in Hin as (text' & [= <- <-] & Hin).
    pose proof (parse_text_wf_helper content ps Hparse) as Hwf.
    rewrite Forall_forall in Hwf.
    destruct (Hwf text' (proj2 (list_elem_of_In _ _) Hin)) as (Hne & Hstrip & Hocc).
    cbn [chunk_task task_name task_queue task_text task_doc_id].
    repeat split; try assumption.
    exists contents, key. repeat split; try assumption.
    intros Hidx. apply exists_for_doc_indexed in Hidx. congruence.
  - exists []. rewrite app_nil_r. split; [reflexivity | constructor].
Qed.

Lemma unindexed_take_prefix (c : Collection) (m : nat) (keys : list pystr) :
  unindexed c (take m keys) `prefix_of` unindexed c keys.
Proof.
  exists (unindexed c (drop m keys)). unfold unindexed.
  rewrite <- List.filter_app, take_drop. reflexivity.
Qed.

(** X8. Whatever a run does, the objects it downloads are an initial
    stretch, in listing order, of the ['.txt'] keys whose document is not
    indexed: no other key is fetched, no indexed document is fetched, and
    when the listing itself fails nothing is. *)
Theorem process_s3_text_fetches (c : Collection) (bucket_name : pystr) (s : Dispatch) :
  exists new_fetched,
    fetched (snd (process_s3_text c bucket_name s)) = fetched s ++ new_fetched
    /\ match list_objects_v2 bucket_name with
       | Ok contents => new_fetched `prefix_of` unindexed c (text_files_of contents)
       | Err _ => new_fetched = []
       end.
Proof.
  rewrite process_s3_text_unfold.
  destruct (list_objects_v2 bucket_name) as [contents|e].
  - destruct (for_each_keys_run c bucket_name (text_files_of contents) s)
      as (n & m & _ & Hf & _ & _ & _).
    eexists. split; [exact Hf | apply unindexed_take_prefix].
  - exists []. rewrite app_nil_r. split; reflexivity.
Qed.



End DispatcherRuns.

Lemma report_is_indexed : indexed report_indexed (py "report").
Proof.
  exists (StrId (py "id-0")), report_point,
    [(py "doc_id", PyStr (py "report")); (py "text", PyStr (py "Intro paragraph."))].
  split; [apply lookup_singleton_eq|]. split; reflexivity.
Qed.

Lemma process_s3_text_sends_every_chunk_witness :
  Forall (fun key => is_err (@key_chunks bucket_two_documents report_indexed
                               (py "my-bucket") key) = false)
         [py "report.txt"; py "notes.txt"]
  /\ sent dispatch_after_notes
     = [] ++ @number_tasks counting_uuid 0 [(py "notes", py "Other notes.")]
  /\ fetched dispatch_after_notes = [] ++ [py "notes.txt"]
  /\ drawn dispatch_after_notes = 0 + 1.
Proof.
  destruct (@process_s3_text_sends_every_chunk bucket_two_documents counting_uuid
              report_indexed (py "my-bucket")
              (Some [py "report.txt"; py "notes.txt"]) dispatch0 dispatch_after_notes
              eq_refl ltac:(vm_compute; reflexivity)) as (Hall & Hs & Hf & Hd).
  split; [exact Hall|]. split; [|split].
  - rewrite Hs. vm_compute. reflexivity.
  - rewrite Hf. vm_compute. reflexivity.
  - rewrite Hd. vm_compute. reflexivity.
Defined.



(* ===================================================================== *)
(** ** More on the worker *)
(* ===================================================================== *)

Section WorkerRuns.
Context `{TextEmbedding} `{QdrantWrites}.

(** The worker's run in full: a failure before the model is called leaves
    the world as it was; a failure of the model, or a vector of the wrong
    length, ends the run after the one call of the model; otherwise the upsert
    is issued and the run ends as the upsert does. *)
Lemma store_pdf_content_run (doc_id chunk_id text : PyVal) (w : World) :
  (exists e, store_pdf_content doc_id chunk_id text w = (Err e, w))
  \/ (exists cid e, chunk_id = PyStr cid
        /\ store_pdf_content doc_id chunk_id text w = (Err e, log_call (EmbedCall text) w)
        /\ (embed text = Err e \/ exists v, embed text = Ok v /\ length v <> DIMENSION))
  \/ (exists cid v, chunk_id = PyStr cid /\ is_str doc_id = true
        /\ embed text = Ok v /\ length v = DIMENSION
        /\ store_pdf_content doc_id chunk_id text w
           = (match upsert_outcome (StrId cid) (point_of doc_id text v) with
              | None => Ok tt
              | Some e => Err e
              end,
              {| qdrant := match upsert_outcome (StrId cid) (point_of doc_id text v) with
                           | None => upsert (qdrant w) (StrId cid) (point_of doc_id text v)
                           | Some _ => qdrant w
                           end;
                 calls := calls w ++ [EmbedCall text;
                                      UpsertCall (StrId cid) (point_of doc_id text v)] |})).
Proof.
  destruct (store_pdf_content_cases doc_id chunk_id text w)
    as [(e & Hrun & _) | (cid & n & -> & Hlen & Hdoc)]; [left; eauto|].
  right. rewrite (store_pdf_content_valid _ _ _ _ _ Hlen Hdoc).
  destruct (embed text) as [v|e] eqn:Hv.
  - destruct (length v =? DIMENSION)%nat eqn:Hdim.
    + right. apply Nat.eqb_eq in Hdim. exists cid, v.
      split; [reflexivity|]. split; [exact Hdoc|]. split; [reflexivity|].
      split; [exact Hdim|].
      destruct (upsert_outcome (StrId cid) (point_of doc_id text v)); reflexivity.
    + left. apply Nat.eqb_neq in Hdim. eexists cid, _. split; [reflexivity|].
      split; [reflexivity|]. right. exists v. split; [reflexivity | exact Hdim].
  - left. exists cid, e. split; [reflexivity|]. split; [reflexivity|]. left. reflexivity.
Qed.

(** X11. The worker calls the model at most once and issues at most one
    upsert, the upsert only after the model has answered with 384 components
    for a task whose [doc_id] and [chunk_id] are strings, and with the point
    [{id: chunk_id, vector: embedding, payload: {doc_id, text}}]. A run that
    issues no upsert fails and leaves the collection as it was. A run that
    issues the upsert ends as the upsert does: it returns when Qdrant accepts
    the write, and raises Qdrant's exception when it does not. *)
Theorem store_pdf_content_calls (doc_id chunk_id text : PyVal) (w : World) :
  exists cs,
    calls (snd (store_pdf_content doc_id chunk_id text w)) = calls w ++ cs
    /\ ((cs = []
         /\ is_err (fst (store_pdf_content doc_id chunk_id text w)) = true
         /\ qdrant (snd (store_pdf_content doc_id chunk_id text w)) = qdrant w)
        \/ (cs = [EmbedCall text]
            /\ is_err (fst (store_pdf_content doc_id chunk_id text w)) = true
            /\ qdrant (snd (store_pdf_content doc_id chunk_id text w)) = qdrant w)
        \/ exists cid v,
             chunk_id = PyStr cid /\ is_str doc_id = true
             /\ embed text = Ok v /\ length v = DIMENSION
             /\ cs = [EmbedCall text;
                      UpsertCall (StrId cid)
                        {| vector := v;
                           payload := Some [(py "doc_id", doc_id); (py "text", text)] |}]
             /\ fst (store_pdf_content doc_id chunk_id text w)
                = match upsert_outcome (StrId cid)
                          {| vector := v;
                             payload := Some [(py "doc_id", doc_id); (py "text", text)] |}
                  with
                  | None => Ok tt
                  | Some e => Err e
                  end).
Proof.
  destruct (store_pdf_content_run doc_id chunk_id text w)
    as [(e & ->) | [(cid & e & _ & -> & _) | (cid & v & Hc & Hdoc & Hv & Hdim & ->)]].
  - exists []. rewrite app_nil_r. split; [reflexivity|]. left. repeat split.
  - exists [EmbedCall text]. split; [reflexivity|]. right. left. repeat split.
  - eexists. split; [reflexivity|]. right. right. exists cid, v.
    repeat split; assumption.
Qed.

(** X12. A task whose [doc_id] and [chunk_id] are strings (empty or not),
    whose text has a length, whose embedding has 384 components and whose
    upsert Qdrant accepts is stored: the run returns, having issued exactly
    the call of the model and the upsert of [{id: chunk_id, vector:
    embedding, payload: {doc_id, text}}]; the point under the chunk id carries
    that payload, every other point is untouched, and no id leaves the
    collection. When Qdrant refuses the upsert instead, the run raises
    Qdrant's exception. *)
Theorem store_pdf_content_stores
    (d cid : pystr) (text : PyVal) (n : nat) (v : list pyfloat) (w : World) :
  py_len text = Ok n -> embed text = Ok v -> length v = DIMENSION ->
  calls (snd (store_pdf_content (PyStr d) (PyStr cid) text w))
    = calls w ++ [EmbedCall text;
                  UpsertCall (StrId cid)
                    {| vector := v;
                       payload := Some [(py "doc_id", PyStr d); (py "text", text)] |}]
  /\ (forall e,
        upsert_outcome (StrId cid)
          {| vector := v; payload := Some [(py "doc_id", PyStr d); (py "text", text)] |}
        = Some e ->
        fst (store_pdf_content (PyStr d) (PyStr cid) text w) = Err e)
  /\ (upsert_outcome (StrId cid)
        {| vector := v; payload := Some [(py "doc_id", PyStr d); (py "text", text)] |}
      = None ->
      fst (store_pdf_content (PyStr d) (PyStr cid) text w) = Ok tt
      /\ (exists p,
            qdrant (snd (store_pdf_content (PyStr d) (PyStr cid) text w)) !! StrId cid
              = Some p
            /\ payload p = Some [(py "doc_id", PyStr d); (py "text", text)])
      /\ (forall id, id <> StrId cid ->
            qdrant (snd (store_pdf_content (PyStr d) (PyStr cid) text w)) !! id
            = qdrant w !! id)
      /\ dom (qdrant (snd (store_pdf_content (PyStr d) (PyStr cid) text w)))
         = {[ StrId cid ]} ∪ dom (qdrant w)).
Proof.
  intros Hlen Hv Hdim.
  rewrite (store_pdf_content_valid (PyStr d) text cid w n Hlen eq_refl), Hv.
  apply Nat.eqb_eq in Hdim. rewrite Hdim. unfold point_of.
  destruct (upsert_outcome (StrId cid) _) as [e0|]; simpl.
  - split; [reflexivity|]. split; [intros e [= <-]; reflexivity | discriminate].
  - split; [reflexivity|]. split; [discriminate|]. intros _. unfold upsert.
    split; [reflexivity|].
    split; [eexists; split; [apply lookup_insert_eq | reflexivity]|].
    split; [|apply dom_insert_L].
    intros id Hne. apply lookup_insert_ne. congruence.
Qed.

(** What a task does to the collection does not depend on the collection. *)
Lemma store_pdf_content_qdrant (doc_id chunk_id text : PyVal) (w : World) :
  qdrant (snd (store_pdf_content doc_id chunk_id text w)) =
    match task_point doc_id chunk_id text with
    | Some (id, p) => upsert (qdrant w) id p
    | None => qdrant w
    end
  /\ is_err (fst (store_pdf_content doc_id chunk_id text w))
     = match task_point doc_id chunk_id text with Some _ => false | None => true end.
Proof.
  unfold task_point.
  destruct (py_len text) as [n|e] eqn:Hlen.
  - destruct (is_str doc_id) eqn:Hdoc.
    + destruct chunk_id as [| b | z | f | cid | l | d];
        try (rewrite (store_pdf_content_bad_chunk_id _ _ _ w n Hlen Hdoc) by reflexivity;
             split; reflexivity).
      rewrite (store_pdf_content_valid _ _ _ _ _ Hlen Hdoc).
      destruct (embed text) as [v|e]; [|split; reflexivity].
      destruct (length v =? DIMENSION)%nat; [|split; reflexivity].
      destruct (upsert_outcome (StrId cid) (point_of doc_id text v)); split; reflexivity.
    + rewrite (store_pdf_content_bad_doc_id _ _ _ _ _ Hlen Hdoc). split; reflexivity.
  - rewrite (store_pdf_content_no_len _ _ _ _ _ Hlen). split; reflexivity.
Qed.

Lemma task_point_id (doc_id chunk_id text : PyVal) (id : PointId) (p : Point) :
  task_point doc_id chunk_id text = Some (id, p) ->
  exists cid, chunk_id = PyStr cid /\ id = StrId cid
              /\ payload p = Some [(py "doc_id", doc_id); (py "text", text)].
Proof.
  unfold task_point.
  destruct (py_len text); [|discriminate].
  destruct (is_str doc_id); [|discriminate].
  destruct chunk_id as [| b | z | f | cid | l | d]; try discriminate.
  destruct (embed text) as [v|e]; [|discriminate].
  destruct (length v =? DIMENSION)%nat; [|discriminate].
  destruct (upsert_outcome (StrId cid) (point_of doc_id text v)); [discriminate|].
  intros [= <- <-]. exists cid. repeat split.
Qed.

(** X13. Tasks with different chunk ids commute: processed in either
    order, from the same collection, they leave the same collection. *)
Theorem store_pdf_content_commute
    (doc1 chunk1 text1 doc2 chunk2 text2 : PyVal) (w : World) :
  chunk1 <> chunk2 ->
  qdrant (snd (store_pdf_content doc2 chunk2 text2
                 (snd (store_pdf_content doc1 chunk1 text1 w))))
  = qdrant (snd (store_pdf_content doc1 chunk1 text1
                   (snd (store_pdf_content doc2 chunk2 text2 w)))).
Proof.
  intros Hne.
  rewrite !(proj1 (store_pdf_content_qdrant _ _ _ _)).
  destruct (task_point doc1 chunk1 text1) as [[id1 p1]|] eqn:H1;
    destruct (task_point doc2 chunk2 text2) as [[id2 p2]|] eqn:H2; try reflexivity.
  destruct (task_point_id _ _ _ _ _ H1) as (c1 & -> & -> & _).
  destruct (task_point_id _ _ _ _ _ H2) as (c2 & -> & -> & _).
  unfold upsert. apply insert_insert_ne. congruence.
Qed.

Lemma indexed_upsert_other (c : Collection) (X : pystr) (id : PointId) (p : Point) :
  indexed c X -> c !! id = None -> indexed (upsert c id p) X.
Proof.
  intros (id0 & p0 & d0 & Hlook & Hpay & Hdoc) Hfresh.
  exists id0, p0, d0. split; [|split; assumption].
  unfold upsert. rewrite lookup_insert_ne; [exact Hlook | congruence].
Qed.

(** X14. A task stored under a chunk id that is not yet in the collection
    un-indexes nothing: every document indexed before the run is indexed
    after it, whether the run succeeds or fails. *)
Theorem store_pdf_content_keeps_indexed
    (doc_id chunk_id text : PyVal) (w : World) (X : pystr) :
  indexed (qdrant w) X ->
  (forall cid, chunk_id = PyStr cid -> qdrant w !! StrId cid = None) ->
  indexed (qdrant (snd (store_pdf_content doc_id chunk_id text w))) X.
Proof.
  intros Hidx Hfresh. rewrite (proj1 (store_pdf_content_qdrant _ _ _ _)).
  destruct (task_point doc_id chunk_id text) as [[id p]|] eqn:Hp; [|exact Hidx].
  destruct (task_point_id _ _ _ _ _ Hp) as (cid & Hc & -> & _).
  apply indexed_upsert_other; [exact Hidx | apply Hfresh, Hc].
Qed.

(** A stored task indexes its document. *)
Lemma store_pdf_content_indexes (d : pystr) (chunk_id text : PyVal) (w w' : World) :
  store_pdf_content (PyStr d) chunk_id text w = (Ok tt, w') ->
  indexed (qdrant w') d.
Proof.
  intros Hrun.
  destruct (store_pdf_content_qdrant (PyStr d) chunk_id text w) as [Hq Herr].
  rewrite Hrun in Hq, Herr. simpl in Hq, Herr.
  destruct (task_point (PyStr d) chunk_id text) as [[id p]|] eqn:Hp; [|discriminate].
  destruct (task_point_id _ _ _ _ _ Hp) as (cid & _ & -> & Hpay).
  exists (StrId cid), p, [(py "doc_id", PyStr d); (py "text", text)].
  rewrite Hq. split; [apply upsert_lookup|]. split; [exact Hpay | reflexivity].
Qed.

End WorkerRuns.

Lemma store_pdf_content_stores_witness :
  (fst (@store_pdf_content embedding_384 accepting_store (PyStr (py "report"))
          (PyStr (py "id-0")) (PyStr (py "Intro paragraph.")) world0) = Ok tt
   /\ (exists p, qdrant world_first_write !! StrId (py "id-0") = Some p
                 /\ payload p = Some [(py "doc_id", PyStr (py "report"));
                                      (py "text", PyStr (py "Intro paragraph."))])
   /\ (forall id, id <> StrId (py "id-0") ->
         qdrant world_first_write !! id = qdrant world0 !! id)
   /\ dom (qdrant world_first_write) = {[ StrId (py "id-0") ]} ∪ dom (qdrant world0))
  /\ fst (@store_pdf_content embedding_384 refusing_store (PyStr (py "report"))
            (PyStr (py "id-0")) (PyStr (py "Intro paragraph.")) world0)
     = Err (HTTPException 400 LibraryMsg).
Proof.
  split.
  - exact (proj2 (proj2 (@store_pdf_content_stores embedding_384 accepting_store
             (py "report") (py "id-0") (PyStr (py "Intro paragraph.")) 16 (zeros 384)
             world0 eq_refl eq_refl eq_refl)) eq_refl).
  - exact (proj1 (proj2 (@store_pdf_content_stores embedding_384 refusing_store
             (py "report") (py "id-0") (PyStr (py "Intro paragraph.")) 16 (zeros 384)
             world0 eq_refl eq_refl eq_refl)) _ eq_refl).
Defined.

Lemma store_pdf_content_commute_witness :
  qdrant (snd (@store_pdf_content embedding_384 accepting_store (PyStr (py "notes")) (PyStr (py "id-1"))
                 (PyStr (py "Other notes.")) world_first_write))
  = qdrant (snd (@store_pdf_content embedding_384 accepting_store (PyStr (py "report")) (PyStr (py "id-0"))
                   (PyStr (py "Intro paragraph."))
                   (snd (@store_pdf_content embedding_384 accepting_store (PyStr (py "notes"))
                           (PyStr (py "id-1")) (PyStr (py "Other notes.")) world0)))).
Proof.
  apply (@store_pdf_content_commute embedding_384 accepting_store
           (PyStr (py "report")) (PyStr (py "id-0")) (PyStr (py "Intro paragraph."))
           (PyStr (py "notes")) (PyStr (py "id-1")) (PyStr (py "Other notes.")) world0).
  discriminate.
Defined.

Lemma first_write_indexes_report : indexed (qdrant world_first_write) (py "report").
Proof.
  exists (StrId (py "id-0")),
         (point_of (PyStr (py "report")) (PyStr (py "Intro paragraph.")) (zeros 384)),
         [(py "doc_id", PyStr (py "report")); (py "text", PyStr (py "Intro paragraph."))].
  split; [apply upsert_lookup|]. split; reflexivity.
Qed.

Lemma store_pdf_content_keeps_indexed_witness :
  indexed (qdrant (snd (@store_pdf_content embedding_384 accepting_store (PyStr (py "notes"))
                          (PyStr (py "id-1")) (PyStr (py "Other notes."))
                          world_first_write)))
          (py "report").
Proof.
  apply (@store_pdf_content_keeps_indexed embedding_384 accepting_store).
  - exact first_write_indexes_report.
  - intros cid [= <-]. vm_compute. reflexivity.
Defined.

(* ===================================================================== *)
(** ** Dispatcher, worker, dispatcher *)
(* ===================================================================== *)

Section Pipeline.
Context `{S3Client} `{Uuid} `{TextEmbedding} `{QdrantWrites}.

(** X15. Once the worker has stored one task of a document, a dispatcher
    run against the resulting collection sends no task for that document and
    does not download it, whatever the bucket holds. *)
Theorem process_s3_text_after_store
    (d : pystr) (chunk_id text : PyVal) (w w' : World) (bucket_name : pystr) (s : Dispatch) :
  store_pdf_content (PyStr d) chunk_id text w = (Ok tt, w') ->
  dispatch_extends
    (fun t => task_doc_id t <> d)
    (fun key => fst (splitext key) <> d)
    s (snd (process_s3_text (qdrant w') bucket_name s)).
Proof.
  intros Hstore. apply store_pdf_content_indexes in Hstore.
  rewrite process_s3_text_unfold.
  destruct (list_objects_v2 bucket_name) as [contents|e]; [|apply dispatch_extends_refl].
  apply for_each_extends. intros key s0 _.
  eapply dispatch_extends_weaken; [| |apply process_key_extends].
  - intros t [Ht Hnot] HX. rewrite <- HX, Ht in Hstore. exact (Hnot Hstore).
  - intros k [Hk Hnot] HX. subst k. rewrite HX in Hnot. exact (Hnot Hstore).
Qed.

End Pipeline.

Lemma process_s3_text_after_store_witness :
  dispatch_extends
    (fun t => task_doc_id t <> py "report")
    (fun key => fst (splitext key) <> py "report")
    dispatch0
    (snd (@process_s3_text bucket_two_documents counting_uuid
            (qdrant world_first_write) (py "my-bucket") dispatch0)).
Proof.
  apply (@process_s3_text_after_store bucket_two_documents counting_uuid embedding_384 accepting_store
           (py "report") (PyStr (py "id-0")) (PyStr (py "Intro paragraph."))
           world0 world_first_write (py "my-bucket") dispatch0).
  reflexivity.
Defined.

(* ===================================================================== *)
(** ** More on the query service *)
(* ===================================================================== *)

Lemma format_results_all_or_nothing (hits : list ScoredPoint) :
  if forallb has_payload hits
  then exists results, format_results hits = Ok results /\ length results = length hits
  else format_results hits = Err (AttributeError LibraryMsg).
Proof.
  induction hits as [|h hits IH]; simpl; [exists []; split; reflexivity|].
  unfold has_payload at 1, format_result.
  destruct (sp_payload h) as [p|]; simpl; [|reflexivity].
  destruct (forallb has_payload hits).
  - destruct IH as (rs & -> & Hlen). simpl. eexists. split; [reflexivity|].
    simpl. rewrite Hlen. reflexivity.
  - rewrite IH. reflexivity.
Qed.

Section QueryRuns.
Context `{Interpreter} `{TextEmbedding} `{QdrantSearch}.

(** A request that is not a JSON object with both fields is answered
    without anything being called, with 400 or 500. *)
Lemma search_without_fields (request_json : result PyVal) (w : World) :
  (forall d q t, request_json = Ok (PyDict d) ->
                 dict_get d (py "query_text") = Some q ->
                 dict_get d (py "top_n") = Some t -> False) ->
  snd (search request_json w) = w
  /\ (fst (search request_json w) = missing_fields
      \/ exists e, fst (search request_json w) = caught e).
Proof.
  intros Hnot. unfold search, search_body, bind, lift, ret.
  destruct request_json as [data|e]; [|split; [reflexivity | right; eauto]].
  destruct (truthy data); cbn [negb]; [|split; [reflexivity | left; reflexivity]].
  destruct data as [| b | z | f | s | l | d]; cbn [py_contains];
    try (split; [reflexivity | right; eauto]).
  - destruct (occurs (py "query_text") s); cbn [negb];
      [|split; [reflexivity | left; reflexivity]].
    destruct (occurs (py "top_n") s); cbn [negb];
      [|split; [reflexivity | left; reflexivity]].
    split; [reflexivity | right; eauto].
  - destruct (existsb _ l); cbn [negb]; [|split; [reflexivity | left; reflexivity]].
    destruct (existsb _ l); cbn [negb]; [|split; [reflexivity | left; reflexivity]].
    split; [reflexivity | right; eauto].
  - destruct (dict_get d (py "query_text")) as [q|] eqn:Hq; cbn [negb];
      [|split; [reflexivity | left; reflexivity]].
    destruct (dict_get d (py "top_n")) as [t|] eqn:Ht; cbn [negb];
      [|split; [reflexivity | left; reflexivity]].
    destruct (Hnot d q t eq_refl Hq Ht).
Qed.

Lemma search_fields_dec (request_json : result PyVal) :
  (exists d q t, request_json = Ok (PyDict d)
                 /\ dict_get d (py "query_text") = Some q
                 /\ dict_get d (py "top_n") = Some t)
  \/ (forall d q t, request_json = Ok (PyDict d) ->
                    dict_get d (py "query_text") = Some q ->
                    dict_get d (py "top_n") = Some t -> False).
Proof.
  destruct request_json as [[| b | z | f | s | l | d]|e];
    try (right; intros d0 q t [=]; fail).
  destruct (dict_get d (py "query_text")) as [q|] eqn:Hq;
    [|right; intros d0 q t [= <-]; congruence].
  destruct (dict_get d (py "top_n")) as [t|] eqn:Ht;
    [|right; intros d0 q0 t [= <-]; congruence].
  left. exists d, q, t. repeat split; assumption.
Qed.

(** X16. The handler answers every request, well-formed or not, with
    status 200, 400 or 500, and never changes the collection. *)
Theorem search_status (request_json : result PyVal) (w : World) :
  (status (fst (search request_json w)) = 200%Z
   \/ status (fst (search request_json w)) = 400%Z
   \/ status (fst (search request_json w)) = 500%Z)
  /\ qdrant (snd (search request_json w)) = qdrant w.
Proof.
  destruct (search_fields_dec request_json) as [(d & q & t & -> & Hq & Ht) | Hnot].
  - rewrite (search_dict d q t w Hq Ht).
    destruct (py_int t) as [n|e]; [|split; [right; right|]; reflexivity].
    destruct (negb (nonblank_str q)); [split; [right; left|]; reflexivity|].
    destruct (n <=? 0)%Z; [split; [right; left|]; reflexivity|].
    destruct (embed q) as [v|e]; [|split; [right; right|]; reflexivity].
    destruct (negb (length v =? DIMENSION)%nat); [split; [right; right|]; reflexivity|].
    cbv zeta.
    destruct (qdrant_search (qdrant w) v n) as [hits|e]; [|split; [right; right|]; reflexivity].
    destruct (format_results hits); split; try reflexivity; [left | right; right]; reflexivity.
  - destruct (search_without_fields request_json w Hnot) as [Hw [Hm | [e He]]].
    + rewrite Hw, Hm. split; [right; left|]; reflexivity.
    + rewrite Hw, He. split; [right; right|]; reflexivity.
Qed.

(** X17. A body that is empty or falsy ([null], [{}], [[]], [0], [""],
    [false]), or a JSON object that lacks [query_text] or [top_n], is
    answered 400 with the message about missing fields; nothing is called. *)
Theorem search_missing_fields (data : PyVal) (w : World) :
  truthy data = false
  \/ (exists d, data = PyDict d
        /\ (dict_get d (py "query_text") = None \/ dict_get d (py "top_n") = None)) ->
  search (Ok data) w
  = (error_response 400 "Missing query_text or top_n in request body", w).
Proof.
  intros Hbad. unfold search, search_body, bind, lift, ret.
  destruct (truthy data) eqn:Htruthy; cbn [negb]; [|reflexivity].
  destruct Hbad as [Hf | (d & -> & Hmiss)]; [discriminate|].
  cbn [py_contains].
  destruct (dict_get d (py "query_text")) as [q|]; cbn [negb]; [|reflexivity].
  destruct (dict_get d (py "top_n")) as [t|]; cbn [negb]; [|reflexivity].
  destruct Hmiss; discriminate.
Qed.

(** X18. A JSON body that is not an object (a number, a string, a list,
    [true]) is never searched: nothing is called and the answer is 400 or
    500, never 200. *)
Theorem search_non_object (data : PyVal) (w : World) :
  (forall d, data <> PyDict d) ->
  snd (search (Ok data) w) = w
  /\ (status (fst (search (Ok data) w)) = 400%Z
      \/ status (fst (search (Ok data) w)) = 500%Z).
Proof.
  intros Hnot.
  destruct (search_without_fields (Ok data) w) as [Hw [Hm | [e He]]].
  - intros d q t [= ->]. destruct (Hnot d eq_refl).
  - split; [exact Hw|]. rewrite Hm. left. reflexivity.
  - split; [exact Hw|]. rewrite He. right. reflexivity.
Qed.

(** X19. When the model answers a valid request with a vector that does
    not have 384 components, the answer is 500 with the message about the
    query embedding, and Qdrant is not searched. *)
Theorem search_dimension_mismatch
    (d : pydict) (q t : PyVal) (n : Z) (v : list pyfloat) (w : World) :
  dict_get d (py "query_text") = Some q ->
  dict_get d (py "top_n") = Some t ->
  nonblank_str q = true -> py_int t = Ok n -> (0 < n)%Z ->
  embed q = Ok v -> length v <> DIMENSION ->
  search (Ok (PyDict d)) w
  = (error_response 500 "Failed to generate valid query embedding",
     {| qdrant := qdrant w; calls := calls w ++ [EmbedCall q] |}).
Proof.
  intros Hq Ht Hnb Hint Hpos Hv Hdim.
  rewrite (search_dict d q t w Hq Ht), Hint, Hnb, Hv. cbn [negb].
  apply Z.leb_gt in Hpos. rewrite Hpos.
  apply Nat.eqb_neq in Hdim. rewrite Hdim. reflexivity.
Qed.

(** X20. All or nothing. For a valid request whose embedding has 384
    components and for which Qdrant returns [hits]: if every hit has a
    payload the answer is 200 with exactly one result per hit; if some hit
    has none, the answer is 500 and carries no result at all. Either way the
    model was called once with the query and Qdrant once with the embedding
    and the converted [top_n]. *)
Theorem search_all_or_nothing
    (d : pydict) (q t : PyVal) (n : Z) (v : list pyfloat) (hits : list ScoredPoint)
    (w : World) :
  dict_get d (py "query_text") = Some q ->
  dict_get d (py "top_n") = Some t ->
  nonblank_str q = true -> py_int t = Ok n -> (0 < n)%Z ->
  embed q = Ok v -> length v = DIMENSION ->
  qdrant_search (qdrant w) v n = Ok hits ->
  snd (search (Ok (PyDict d)) w)
    = {| qdrant := qdrant w; calls := calls w ++ [EmbedCall q; SearchCall v n] |}
  /\ if forallb has_payload hits
     then exists results,
            fst (search (Ok (PyDict d)) w) = {| status := 200; body := ResultsBody results |}
            /\ length results = length hits
     else fst (search (Ok (PyDict d)) w) = caught (AttributeError LibraryMsg).
Proof.
  intros Hq Ht Hnb Hint Hpos Hv Hdim Hsearch.
  rewrite (search_dict d q t w Hq Ht), Hint, Hnb, Hv. cbn [negb].
  apply Z.leb_gt in Hpos. rewrite Hpos.
  apply Nat.eqb_eq in Hdim. rewrite Hdim. cbn [negb]. cbv zeta. rewrite Hsearch.
  pose proof (format_results_all_or_nothing hits) as Hfmt.
  destruct (forallb has_payload hits).
  - destruct Hfmt as (results & -> & Hlen). split; [reflexivity|].
    exists results. split; [reflexivity | exact Hlen].
  - rewrite Hfmt. split; reflexivity.
Qed.

(** X21. Qdrant is searched only for requests that passed every check:
    any search call the handler makes carries a vector of 384 components and
    a positive limit, and comes directly after the one call of the model,
    made with a non-blank query string. The handler makes no other call. *)
Theorem search_calls (request_json : result PyVal) (w : World) :
  exists cs,
    calls (snd (search request_json w)) = calls w ++ cs
    /\ (cs = []
        \/ (exists q, nonblank_str q = true /\ cs = [EmbedCall q])
        \/ (exists q v n, nonblank_str q = true /\ length v = DIMENSION /\ (0 < n)%Z
                          /\ embed q = Ok v
                          /\ cs = [EmbedCall q; SearchCall v n])).
Proof.
  destruct (search_fields_dec request_json) as [(d & q & t & -> & Hq & Ht) | Hnot].
  - rewrite (search_dict d q t w Hq Ht).
    destruct (py_int t) as [n|e];
      [|exists []; rewrite app_nil_r; split; [reflexivity | left; reflexivity]].
    destruct (nonblank_str q) eqn:Hnb; cbn [negb];
      [|exists []; rewrite app_nil_r; split; [reflexivity | left; reflexivity]].
    destruct (n <=? 0)%Z eqn:Hle;
      [exists []; rewrite app_nil_r; split; [reflexivity | left; reflexivity]|].
    apply Z.leb_gt in Hle.
    destruct (embed q) as [v|e] eqn:Hv;
      [|exists [EmbedCall q]; split; [reflexivity | right; left; eauto]].
    destruct (length v =? DIMENSION)%nat eqn:Hdim; cbn [negb];
      [|exists [EmbedCall q]; split; [reflexivity | right; left; eauto]].
    apply Nat.eqb_eq in Hdim. cbv zeta.
    exists [EmbedCall q; SearchCall v n].
    split; [|right; right; exists q, v, n; repeat split; assumption].
    destruct (qdrant_search (qdrant w) v n) as [hits|e]; [|reflexivity].
    destruct (format_results hits); reflexivity.
  - destruct (search_without_fields request_json w Hnot) as [Hw _].
    exists []. rewrite Hw, app_nil_r. split; [reflexivity | left; reflexivity].
Qed.

End QueryRuns.

Lemma search_missing_fields_witness :
  @search ascii_interpreter embedding_384 (fixed_search two_hits)
     (Ok (PyDict [(py "query_text", PyStr (py "second paragraph"))])) world0
  = (error_response 400 "Missing query_text or top_n in request body", world0)
  /\ @search ascii_interpreter embedding_384 (fixed_search two_hits) (Ok (PyDict [])) world0
     = (error_response 400 "Missing query_text or top_n in request body", world0).
Proof.
  split.
  - apply (@search_missing_fields ascii_interpreter embedding_384 (fixed_search two_hits)).
    right. eexists. split; [reflexivity|]. right. reflexivity.
  - apply (@search_missing_fields ascii_interpreter embedding_384 (fixed_search two_hits)).
    left. reflexivity.
Defined.

Lemma search_non_object_witness :
  snd (@search ascii_interpreter embedding_384 (fixed_search two_hits)
         (Ok (PyList [PyStr (py "query_text"); PyStr (py "top_n")])) world0) = world0
  /\ (status (fst (@search ascii_interpreter embedding_384 (fixed_search two_hits)
                     (Ok (PyList [PyStr (py "query_text"); PyStr (py "top_n")])) world0))
      = 400%Z
      \/ status (fst (@search ascii_interpreter embedding_384 (fixed_search two_hits)
                        (Ok (PyList [PyStr (py "query_text"); PyStr (py "top_n")])) world0))
         = 500%Z).
Proof.
  apply (@search_non_object ascii_interpreter embedding_384 (fixed_search two_hits)).
  intros d. discriminate.
Defined.

Lemma search_dimension_mismatch_witness :
  @search ascii_interpreter embedding_3 (fixed_search two_hits)
     (request_of (PyStr (py "second paragraph")) (PyInt 2)) world0
  = (error_response 500 "Failed to generate valid query embedding",
     {| qdrant := ∅; calls := [EmbedCall (PyStr (py "second paragraph"))] |}).
Proof.
  apply (@search_dimension_mismatch ascii_interpreter embedding_3 (fixed_search two_hits)
           [(py "query_text", PyStr (py "second paragraph")); (py "top_n", PyInt 2)]
           (PyStr (py "second paragraph")) (PyInt 2) 2%Z (zeros 3) world0);
    try reflexivity.
  vm_compute. discriminate.
Defined.

Lemma search_all_or_nothing_witness :
  (exists results,
     fst (@search ascii_interpreter embedding_384 (fixed_search two_hits)
            (request_of (PyStr (py "second paragraph")) (PyInt 2)) world0)
       = {| status := 200; body := ResultsBody results |}
     /\ length results = 2)
  /\ fst (@search ascii_interpreter embedding_384 (fixed_search hits_one_bare)
            (request_of (PyStr (py "second paragraph")) (PyInt 2)) world0)
     = caught (AttributeError LibraryMsg).
Proof.
  split.
  - exact (proj2 (@search_all_or_nothing ascii_interpreter embedding_384
             (fixed_search two_hits)
             [(py "query_text", PyStr (py "second paragraph")); (py "top_n", PyInt 2)]
             (PyStr (py "second paragraph")) (PyInt 2) 2%Z (zeros 384) two_hits world0
             eq_refl eq_refl eq_refl eq_refl eq_refl eq_refl eq_refl eq_refl)).
  - exact (proj2 (@search_all_or_nothing ascii_interpreter embedding_384
             (fixed_search hits_one_bare)
             [(py "query_text", PyStr (py "second paragraph")); (py "top_n", PyInt 2)]
             (PyStr (py "second paragraph")) (PyInt 2) 2%Z (zeros 384) hits_one_bare world0
             eq_refl eq_refl eq_refl eq_refl eq_refl eq_refl eq_refl eq_refl)).
Defined.

(* ===================================================================== *)
(** ** os.path.splitext on object keys *)
(* ===================================================================== *)

Lemma rfind_go_absent (c : N) (s : pystr) (i found : Z) :
  forallb (fun d => negb (N.eqb d c)) s = true -> rfind_go c s i found = found.
Proof.
  revert i found. induction s as [|d s IH]; intros i found; simpl; [reflexivity|].
  intros Hs. apply andb_true_iff in Hs as [Hd Hs].
  apply negb_true_iff in Hd. rewrite Hd. apply IH, Hs.
Qed.

Lemma rfind_go_last (c : N) (a b : pystr) (i found : Z) :
  forallb (fun d => negb (N.eqb d c)) b = true ->
  rfind_go c (a ++ c :: b) i found = (i + Z.of_nat (length a))%Z.
Proof.
  intros Hb. revert i found. induction a as [|d a IH]; intros i found; simpl.
  - rewrite N.eqb_refl, (rfind_go_absent c b _ _ Hb). lia.
  - rewrite IH. lia.
Qed.

Lemma splitext_scan_stem (pre stem rest : pystr) (n : nat) :
  length stem <= n ->
  splitext_scan (pre ++ stem ++ rest) (Z.of_nat (length pre))
                (Z.of_nat (length pre + length stem)) n
  = negb (forallb (fun c => N.eqb c DOT) stem).
Proof.
  revert pre n. induction stem as [|c stem IH]; intros pre n Hn.
  - destruct n; simpl; [reflexivity|].
    rewrite Nat.add_0_r, Z.ltb_irrefl. reflexivity.
  - destruct n as [|n]; [simpl in Hn; lia|].
    cbn [splitext_scan forallb length].
    replace (Z.of_nat (length pre) <? Z.of_nat (length pre + S (length stem)))%Z
      with true by (symmetry; apply Z.ltb_lt; lia).
    rewrite Nat2Z.id, lookup_app_r by lia.
    rewrite Nat.sub_diag. cbn [lookup list_lookup app].
    destruct (N.eqb c DOT) eqn:Hc; cbn [negb andb]; [|reflexivity].
    specialize (IH (pre ++ [c]) n ltac:(simpl in Hn; lia)).
    rewrite length_app in IH. cbn [length] in IH. rewrite <- app_assoc in IH. cbn [app] in IH.
    replace (Z.of_nat (length pre) + 1)%Z with (Z.of_nat (length pre + 1)) by lia.
    replace (length pre + S (length stem)) with (length pre + 1 + length stem) by lia.
    exact IH.
Qed.

(** X22. For a key without ['/'] of the form [stem + '.' + ext] where
    [ext] has no dot: [splitext] cuts at that dot, so the dispatcher's
    [doc_id] is [stem], unless [stem] is empty or all dots, in which case
    nothing is cut and the [doc_id] is the whole key (['.txt'] stays
    ['.txt']). *)
Theorem splitext_extension (stem ext : pystr) :
  forallb (fun c => negb (N.eqb c SLASH)) (stem ++ DOT :: ext) = true ->
  forallb (fun c => negb (N.eqb c DOT)) ext = true ->
  splitext (stem ++ DOT :: ext) =
    if forallb (fun c => N.eqb c DOT) stem
    then (stem ++ DOT :: ext, [])
    else (stem, DOT :: ext).
Proof.
  intros Hslash Hdot. unfold splitext, rfind.
  rewrite (rfind_go_absent SLASH _ _ _ Hslash), (rfind_go_last DOT stem ext _ _ Hdot).
  rewrite !Z.add_0_l. replace (-1 <? Z.of_nat (length stem))%Z with true
    by (symmetry; apply Z.ltb_lt; lia).
  cbn [andb].
  pose proof (splitext_scan_stem [] stem (DOT :: ext)
                (Z.to_nat (Z.of_nat (length stem) - -1)) ltac:(lia)) as Hscan.
  cbn [app length Nat.add] in Hscan. change (-1 + 1)%Z with 0%Z. change (Z.of_nat 0) with 0%Z in Hscan.
  rewrite Hscan.
  destruct (forallb (fun c => N.eqb c DOT) stem); cbn [negb]; [reflexivity|].
  unfold slice_to, slice_from. rewrite Nat2Z.id.
  rewrite take_app_length, drop_app_length. reflexivity.
Qed.

Lemma splitext_extension_witness :
  splitext (py "3f2a-77" ++ DOT :: py "txt") = (py "3f2a-77", DOT :: py "txt")
  /\ splitext ([DOT; DOT] ++ DOT :: py "txt") = ([DOT; DOT] ++ DOT :: py "txt", []).
Proof.
  split.
  - exact (splitext_extension (py "3f2a-77") (py "txt") eq_refl eq_refl).
  - exact (splitext_extension [DOT; DOT] (py "txt") eq_refl eq_refl).
Defined.

(* ===================================================================== *)
(** ** Start-up: the collection is ensured *)
(* ===================================================================== *)

Lemma collection_names_mem (server : Collections) (name : pystr) :
  existsb (str_eqb name) (collection_names server)
  = match server !! name with Some _ => true | None => false end.
Proof.
  destruct (server !! name) as [p|] eqn:Hlook.
  - apply existsb_exists. exists name. split; [|apply str_eqb_refl].
    unfold collection_names. apply in_map_iff. exists (name, p). split; [reflexivity|].
    apply list_elem_of_In, elem_of_map_to_list, Hlook.
  - apply not_true_iff_false. intros Hex.
    apply existsb_exists in Hex as (x & Hin & Heq). apply str_eqb_eq in Heq. subst x.
    unfold collection_names in Hin. apply in_map_iff in Hin as ([k p] & Hk & Hin).
    simpl in Hk. subst k. apply list_elem_of_In, elem_of_map_to_list in Hin. congruence.
Qed.


(* ===================================================================== *)
(** ** The upload script *)
(* ===================================================================== *)

Lemma endswith_app (suf a : pystr) : endswith suf (a ++ suf) = true.
Proof. unfold endswith. rewrite rev_app_distr. apply startswith_app. Qed.

(** For an identifier without dot or slash, the key [id + '.txt'] splits
    into the identifier and the extension. *)
Lemma splitext_plain_id (id : pystr) :
  plain_id id = true -> splitext (id ++ py ".txt") = (id, py ".txt").
Proof.
  unfold plain_id. intros Hid. apply andb_true_iff in Hid as [Hne Hid].
  assert (Hnodot : forallb (fun c => negb (N.eqb c DOT)) id = true).
  { clear Hne. induction id as [|c id IH]; [reflexivity|]. simpl in Hid |- *.
    apply andb_true_iff in Hid as [Hc Hid]. apply andb_true_iff in Hc as [Hc _].
    rewrite Hc. apply IH, Hid. }
  assert (Hnoslash : forallb (fun c => negb (N.eqb c SLASH)) (id ++ py ".txt") = true).
  { rewrite forallb_app. apply andb_true_iff. split; [|reflexivity].
    clear Hne Hnodot. induction id as [|c id IH]; [reflexivity|]. simpl in Hid |- *.
    apply andb_true_iff in Hid as [Hc Hid]. apply andb_true_iff in Hc as [_ Hc].
    rewrite Hc. apply IH, Hid. }
  assert (Hstem : forallb (fun c => N.eqb c DOT) id = false).
  { destruct id as [|c id]; [discriminate|]. simpl in Hnodot |- *.
    apply andb_true_iff in Hnodot as [Hc _]. apply negb_true_iff in Hc.
    rewrite Hc. reflexivity. }
  change (py ".txt") with (DOT :: py "txt") in *.
  unfold splitext, rfind.
  rewrite (rfind_go_absent SLASH _ _ _ Hnoslash), (rfind_go_last DOT id (py "txt") _ _ eq_refl).
  rewrite !Z.add_0_l. replace (-1 <? Z.of_nat (length id))%Z with true
    by (symmetry; apply Z.ltb_lt; lia).
  cbn [andb].
  pose proof (splitext_scan_stem [] id (DOT :: py "txt")
                (Z.to_nat (Z.of_nat (length id) - -1)) ltac:(lia)) as Hscan.
  cbn [app length Nat.add] in Hscan. change (-1 + 1)%Z with 0%Z.
  change (Z.of_nat 0) with 0%Z in Hscan.
  rewrite Hscan, Hstem. cbn [negb].
  unfold slice_to, slice_from. rewrite Nat2Z.id, take_app_length, drop_app_length.
  reflexivity.
Qed.

Section IngestorRuns.
Context `{S3Admin} `{FileSystem} `{UnicodeCase} `{Uuid}.

Lemma numbered_uploads_app (b dir : pystr) (first : nat) (l1 l2 : list pystr) :
  numbered_uploads b dir first (l1 ++ l2)
  = numbered_uploads b dir first l1 ++ numbered_uploads b dir (first + length l1) l2.
Proof.
  unfold numbered_uploads. rewrite imap_app. f_equal.
  apply imap_ext. intros i x _. simpl. rewrite Nat.add_assoc. reflexivity.
Qed.

(** The loop uploads the first [k] eligible files of the listing, each of
    these uploads having returned; it returns [True] when these are all of
    them, and [False] when the upload of the next one raised. *)
Lemma upload_loop_run (b dir : pystr) (files : list pystr) (s : Ingest) :
  exists k,
    uploads (snd (upload_loop b dir files s))
      = uploads s ++ numbered_uploads b dir (ids_drawn s)
                       (take k (List.filter (is_txt_file dir) files))
    /\ (if fst (upload_loop b dir files s)
        then k = length (List.filter (is_txt_file dir) files)
             /\ ids_drawn (snd (upload_loop b dir files s)) = ids_drawn s + k
        else k < length (List.filter (is_txt_file dir) files)
             /\ ids_drawn (snd (upload_loop b dir files s)) = ids_drawn s + S k)
    /\ (forall i name,
          i < k -> List.filter (is_txt_file dir) files !! i = Some name ->
          upload_file (path_join dir name) b (uuid4 (ids_drawn s + i) ++ py ".txt") = None)
    /\ (fst (upload_loop b dir files s) = false ->
        exists name,
          List.filter (is_txt_file dir) files !! k = Some name
          /\ upload_file (path_join dir name) b (uuid4 (ids_drawn s + k) ++ py ".txt")
             <> None).
Proof.
  revert s. induction files as [|file rest IH]; intros s.
  - exists 0. simpl. rewrite app_nil_r.
    split; [reflexivity|]. split; [split; [reflexivity | lia]|].
    split; [intros i name Hi; lia | discriminate].
  - cbn [upload_loop List.filter]. cbv zeta.
    destruct (is_txt_file dir file) eqn:Hfile; [|apply IH].
    destruct (upload_file (path_join dir file) b (uuid4 (ids_drawn s) ++ py ".txt"))
      as [failure|] eqn:Hupload.
    + exists 0. simpl. rewrite app_nil_r. split; [reflexivity|].
      split; [split; lia|]. split; [intros i name Hi; lia|].
      intros _. exists file. split; [reflexivity|].
      rewrite Nat.add_0_r, Hupload. discriminate.
    + match goal with |- context [upload_loop b dir rest ?st] =>
        destruct (IH st) as (k & Hup & Hres & Hdone & Hfail) end.
      exists (S k). rewrite Hup. cbn [uploads ids_drawn take] in *.
      change (file :: take k (List.filter (is_txt_file dir) rest))
        with ([file] ++ take k (List.filter (is_txt_file dir) rest)).
      rewrite numbered_uploads_app, <- app_assoc. cbn [length].
      replace (ids_drawn s + 1) with (S (ids_drawn s)) by lia.
      split; [|split; [|split]].
      * f_equal. f_equal. unfold numbered_uploads. simpl. rewrite Nat.add_0_r. reflexivity.
      * destruct (fst (upload_loop b dir rest _)); cbn [length]; destruct Hres; split; lia.
      * intros [|i] name Hi Hname.
        -- injection Hname as <-. rewrite Nat.add_0_r. exact Hupload.
        -- rewrite Nat.add_succ_r. apply (Hdone i name); [lia | exact Hname].
      * intros Hfalse. destruct (Hfail Hfalse) as (name & Hname & Hraised).
        exists name. split; [exact Hname|]. rewrite Nat.add_succ_r. exact Hraised.
Qed.


Lemma numbered_uploads_Forall (P : Upload -> Prop) (b dir : pystr) (first : nat)
    (names : list pystr) :
  (forall i name, In name names ->
     P {| up_filename := path_join dir name; up_bucket := b;
          up_key := uuid4 i ++ py ".txt" |}) ->
  Forall P (numbered_uploads b dir first names).
Proof.
  revert first. induction names as [|name names IH]; intros first HP; [constructor|].
  unfold numbered_uploads. rewrite imap_cons. constructor.
  - apply HP. left. reflexivity.
  - rewrite (imap_ext _ (fun i name =>
               {| up_filename := path_join dir name; up_bucket := b;
                  up_key := uuid4 (S first + i) ++ py ".txt" |})).
    + apply IH. intros i n' Hin. apply HP. right. exact Hin.
    + intros i x _. simpl. rewrite Nat.add_succ_r. reflexivity.
Qed.

(** X25. Every object the upload function puts in the bucket is a candidate
    for the dispatcher: its key ends in ['.txt'] (also when the local name
    ends in ['.TXT']), and when the identifier is shaped like a UUID (no dot,
    no slash, not empty) the dispatcher's [doc_id] for it is the identifier,
    not the local file name. *)
Theorem upload_txt_files_with_uuid_keys (bucket_name local_directory : pystr) (s : Ingest) :
  exists new_uploads,
    uploads (snd (upload_txt_files_with_uuid bucket_name local_directory s))
      = uploads s ++ new_uploads
    /\ Forall (fun u =>
         up_bucket u = bucket_name
         /\ endswith (py ".txt") (up_key u) = true
         /\ exists i, up_key u = uuid4 i ++ py ".txt"
                      /\ (plain_id (uuid4 i) = true ->
                          splitext (up_key u) = (uuid4 i, py ".txt")))
         new_uploads.
Proof.
  unfold upload_txt_files_with_uuid.
  assert (Hnone : exists new_uploads,
            uploads s = uploads s ++ new_uploads
            /\ Forall (fun u =>
                 up_bucket u = bucket_name
                 /\ endswith (py ".txt") (up_key u) = true
                 /\ exists i, up_key u = uuid4 i ++ py ".txt"
                              /\ (plain_id (uuid4 i) = true ->
                                  splitext (up_key u) = (uuid4 i, py ".txt")))
                 new_uploads).
  { exists []. rewrite app_nil_r. split; [reflexivity | constructor]. }
  destruct (isdir local_directory); cbn [negb]; [|exact Hnone].
  destruct (listdir local_directory) as [files|e]; [|exact Hnone].
  destruct (upload_loop_run bucket_name local_directory files s) as (k & Hup & _).
  eexists. split; [exact Hup|].
  apply numbered_uploads_Forall. intros i name _. cbn [up_bucket up_key].
  split; [reflexivity|]. split; [apply endswith_app|].
  exists i. split; [reflexivity | apply splitext_plain_id].
Qed.


End IngestorRuns.

Example upload_sample_directory :
  @upload_txt_files_with_uuid s3_admin_ok sample_fs ascii_case counting_uuid
     (py "my-bucket") (py "/data/sample_pdfs") ingest0
  = (true,
     {| uploads := [ {| up_filename := py "/data/sample_pdfs/a.txt";
                        up_bucket := py "my-bucket";
                        up_key := py "id-0.txt" |};
                     {| up_filename := py "/data/sample_pdfs/B.TXT";
                        up_bucket := py "my-bucket";
                        up_key := py "id-1.txt" |} ];
        ids_drawn := 2 |}).
Proof. vm_compute. reflexivity. Qed.
